(** * riot-api-test: the Riot API route handlers

    A shallow embedding of the server-side request handlers of the
    repository,

      - the History Aggregator, [POST] of [src/app/api/lol-history/route.ts];
      - the Match Detail Fetcher, the [POST] handler of the match-details
        route ([/api/lol-match-details] in the README), whose source is the
        second handler of the same file;
      - the Stats Aggregator, [POST] of
        [src/app/api/lol-player-stats/route.ts], with its retry wrapper
        [fetchWithRetry];

    and of the two handlers of the page component that call them,
    [handleSubmit] and [handleMatchClick] of [src/app/page.tsx]; together
    with the properties of the retry wrapper, the role sort, the remake
    flag, the champion aggregate and the KDA ratio, of the answers and
    the request budgets of the routes, of the time and duration texts,
    and of what the page holds after a search and after a click.

    Modelling conventions.

      - A JavaScript number that the upstream API delivers as an integer
        (kills, gold, durations, timestamps, ids) is a [Z], and so is a
        counter of matches; the model assumes such values stay inside
        the safe-integer range, where JavaScript's [+], [-], [++] and [%]
        on them are exact.
      - Division, [toFixed], [Math.round], [Math.floor], the comparator
        of [Array.prototype.sort] and the running totals of damage and
        gold work on IEEE 754 binary64 values, taken from the Standard
        Library's [SpecFloat] (precision 53, emax 1024).
      - A [fetch] is a request to an oracle that stands for the upstream
        provider; every request and every [setTimeout] delay is recorded in
        a trace, so that "how many requests were sent" is a statement about
        the trace.
      - An upstream body that parses has the shape of its endpoint; a body
        that does not parse makes [res.json()] reject.
      - [console.log] has no effect on responses and is not modelled. *)

From Stdlib Require Import ZArith List String Ascii Bool Lia.
From Stdlib Require Import SpecFloat DecimalString.
From Stdlib Require Import Sorting.Sorted Sorting.Permutation.
Import ListNotations.

Local Open Scope string_scope.
Local Open Scope Z_scope.

(* ================================================================== *)
(** ** JavaScript numbers *)
(* ================================================================== *)

Module JS.

Definition number : Type := spec_float.

Definition prec : Z := 53.
Definition emax : Z := 1024.

(** The binary64 value nearest to an integer. *)
Definition of_Z (z : Z) : number := binary_normalize prec emax z 0 false.

Definition add : number -> number -> number := SFadd prec emax.
Definition sub : number -> number -> number := SFsub prec emax.
Definition mul : number -> number -> number := SFmul prec emax.
Definition div : number -> number -> number := SFdiv prec emax.

Definition zero : number := S754_zero false.
Definition NaN : number := S754_nan.

(** [v > 0]; false on [NaN]. *)
Definition gt0 (v : number) : bool := SFltb zero v.

Definition is_nan (v : number) : bool :=
  match v with S754_nan => true | _ => false end.

(** The real number [(-1)^s * m * 2^e] of a finite value is handled
    exactly, as a signed numerator over a power of two. *)
Definition signed (s : bool) (m : positive) : Z := cond_Zopp s (Zpos m).

(** Largest integer not above [(-1)^s * m * 2^e]. *)
Definition floor_exact (s : bool) (m : positive) (e : Z) : Z :=
  if 0 <=? e then signed s m * 2 ^ e else signed s m / 2 ^ (- e).

(** Integer nearest to [(-1)^s * m * 2^e * scale], the larger one on a
    tie ([scale] is a positive integer). *)
Definition round_half_up (s : bool) (m : positive) (e : Z) (scale : Z) : Z :=
  if 0 <=? e then signed s m * 2 ^ e * scale
  else (2 * signed s m * scale + 2 ^ (- e)) / (2 * 2 ^ (- e)).

(** Does the finite value reach [bound] in magnitude? *)
Definition magnitude_geb (m : positive) (e : Z) (bound : Z) : bool :=
  if 0 <=? e then bound <=? Zpos m * 2 ^ e
  else bound * 2 ^ (- e) <=? Zpos m.

(** Is the finite value an integer? *)
Definition is_integer (m : positive) (e : Z) : bool :=
  if 0 <=? e then true else Zpos m mod 2 ^ (- e) =? 0.

(** [Math.floor]. *)
Definition Math_floor (x : number) : number :=
  match x with
  | S754_finite s m e =>
      let q := floor_exact s m e in
      if q =? 0 then S754_zero false else of_Z q
  | _ => x
  end.

(** [Math.round]: nearest integer, ties towards positive infinity; a
    result of zero keeps the sign of the argument. *)
Definition Math_round (x : number) : number :=
  match x with
  | S754_finite s m e =>
      let q := round_half_up s m e 1 in
      if q =? 0 then S754_zero s else of_Z q
  | _ => x
  end.

(** Decimal digits of an integer, with a minus sign when negative. *)
Definition digits (n : Z) : string := NilZero.string_of_int (Z.to_int n).

Fixpoint repeat_char (c : ascii) (n : nat) : string :=
  match n with
  | O => EmptyString
  | S k => String c (repeat_char c k)
  end.

(** [String.prototype.padStart] with a one-character filler. *)
Definition padStart (width : nat) (c : ascii) (s : string) : string :=
  repeat_char c (width - String.length s) ++ s.

(** Step 10 of [Number.prototype.toFixed]: the digits of [n] with a
    decimal point before the last [fd] of them. *)
Definition fixed_digits (fd : nat) (n : Z) : string :=
  let m := digits n in
  match fd with
  | O => m
  | S _ =>
      let m := padStart (S fd) "0" m in
      let k := String.length m in
      substring 0 (k - fd) m ++ "." ++ substring (k - fd) fd m
  end.

(** The two conversions below are modelled exactly on the inputs the
    handlers produce; what lies outside (the shortest round-trip digits
    of a non-integer or of a value of magnitude 10^21 and more, and
    numeric literals other than plain decimals) is left to the runtime,
    as an interface with two operations. *)
Class Runtime := {
  Number_toString_general : number -> string;
  StringToNumber_general : string -> number
}.

Section Conversions.
Context {runtime : Runtime}.

(** [Number::toString] in radix 10. *)
Definition Number_toString (x : number) : string :=
  match x with
  | S754_nan => "NaN"
  | S754_infinity false => "Infinity"
  | S754_infinity true => "-Infinity"
  | S754_zero _ => "0"
  | S754_finite s m e =>
      if is_integer m e && negb (magnitude_geb m e (10 ^ 21))
      then (if s then "-" else "") ++ digits (Z.abs (floor_exact s m e))
      else Number_toString_general x
  end.

(** [Number.prototype.toFixed]. *)
Definition toFixed (fd : nat) (x : number) : string :=
  match x with
  | S754_nan | S754_infinity _ => Number_toString x
  | S754_zero _ => fixed_digits fd 0
  | S754_finite s m e =>
      if magnitude_geb m e (10 ^ 21) then Number_toString x
      else (if s then "-" else "")
           ++ fixed_digits fd (round_half_up false m e (10 ^ Z.of_nat fd))
  end.

(** Reading a run of decimal digits. *)
Definition digit_value (c : ascii) : option Z :=
  let n := Z.of_nat (nat_of_ascii c) in
  if (48 <=? n) && (n <=? 57) then Some (n - 48) else None.

Fixpoint read_digits (acc : Z) (s : string) : option Z :=
  match s with
  | EmptyString => Some acc
  | String c rest =>
      match digit_value c with
      | Some d => read_digits (10 * acc + d) rest
      | None => None
      end
  end.

Fixpoint split_dot (s : string) : string * option string :=
  match s with
  | EmptyString => (EmptyString, None)
  | String c rest =>
      if Ascii.eqb c "." then (EmptyString, Some rest)
      else let '(a, b) := split_dot rest in (String c a, b)
  end.

(** An unsigned plain decimal [ddd], [ddd.ddd], [ddd.] or [.ddd] of up
    to 15 digits: the quotient of two integers that binary64 holds
    exactly, which the division rounds as the literal itself is
    rounded. *)
Definition read_decimal (s : string) : option number :=
  let '(ip, fp) := split_dot s in
  let fp' := match fp with Some f => f | None => EmptyString end in
  let n := (String.length ip + String.length fp')%nat in
  if (n =? 0)%nat || (15 <? n)%nat then None
  else
    match read_digits 0 ip, read_digits 0 fp' with
    | Some i, Some f =>
        let k := Z.of_nat (String.length fp') in
        Some (div (of_Z (i * 10 ^ k + f)) (of_Z (10 ^ k)))
    | _, _ => None
    end.

(** [Number(s)]: plain decimals (the strings [toFixed] yields below
    10^21) are read here, every other literal by the runtime. *)
Definition Number_of_string (s : string) : number :=
  let parsed :=
    match s with
    | String "-" rest => option_map SFopp (read_decimal rest)
    | _ => read_decimal s
    end in
  match parsed with
  | Some x => x
  | None => StringToNumber_general s
  end.

End Conversions.

End JS.

(* ================================================================== *)
(** ** Upstream payloads (the fields the handlers read) *)
(* ================================================================== *)

Module Account.
Record t := { puuid : string }.
End Account.

Module Summoner.
Record t := { id : string }.
End Summoner.

Module Participant.
Record t := {
  puuid : string;
  participantId : Z;
  riotIdGameName : option string;
  summonerName : string;
  championName : string;
  teamId : Z;
  kills : Z;
  deaths : Z;
  assists : Z;
  teamPosition : string;
  individualPosition : string;
  lane : string;
  role : string;
  win : bool;
  totalDamageDealtToChampions : Z;
  physicalDamageDealtToChampions : Z;
  magicDamageDealtToChampions : Z;
  trueDamageDealtToChampions : Z;
  goldEarned : Z;
  goldSpent : Z;
  visionScore : Z;
  wardsPlaced : Z;
  wardsKilled : Z;
  totalMinionsKilled : Z;
  neutralMinionsKilled : Z;
  item0 : Z; item1 : Z; item2 : Z; item3 : Z;
  item4 : Z; item5 : Z; item6 : Z;
  summoner1Id : Z;
  summoner2Id : Z;
  champLevel : Z;
  championTransform : Z
}.
End Participant.

Module Objective.
Record t := { first : bool; kills : Z }.
End Objective.

Module Objectives.
Record t := {
  baron : Objective.t;
  dragon : Objective.t;
  inhibitor : Objective.t;
  riftHerald : Objective.t;
  tower : Objective.t
}.
End Objectives.

Module Team.
Record t := { teamId : Z; win : bool; objectives : Objectives.t }.
End Team.

Module Info.
Record t := {
  participants : list Participant.t;
  teams : list Team.t;
  gameDuration : Z;
  gameCreation : Z;
  gameMode : string;
  gameType : string;
  queueId : Z
}.
End Info.

Module Match.
Record t := { matchId : string (* metadata.matchId *); info : Info.t }.
End Match.

Module TimelineEvent.
(** A timeline event: its kind, the participant references the handler
    inspects (each may be absent) and its own clock reading. *)
Record t := {
  type : string;
  participantId : option Z;
  killerId : option Z;
  victimId : option Z;
  assistingParticipantIds : option (list Z);
  realTimestamp : option Z;
  timestamp : option Z
}.
End TimelineEvent.

Module Frame.
Record t := { timestamp : Z; events : list TimelineEvent.t }.
End Frame.

Module Timeline.
Record t := { frames : list Frame.t (* info.frames *) }.
End Timeline.

Module MasteryEntry.
Record t := {
  championId : Z;
  championLevel : Z;
  championPoints : Z;
  championPointsSinceLastLevel : Z;
  chestGranted : bool
}.
End MasteryEntry.

Module RankedEntry.
Record t := {
  queueType : string;
  tier : string;
  rank : string;
  leaguePoints : Z;
  wins : Z;
  losses : Z
}.
End RankedEntry.

(* ================================================================== *)
(** ** The upstream provider, [fetch] and the effects of a handler *)
(* ================================================================== *)

(** What a handler reads of a [fetch] response: [json] is [None] when the
    body does not parse, in which case [res.json()] rejects. *)
Record Response (A : Type) := {
  status : Z;
  statusText : string;
  text : string;
  json : option A
}.
Arguments status {A} _.
Arguments statusText {A} _.
Arguments text {A} _.
Arguments json {A} _.

(** [Response.ok]: the status is in the range 200-299. *)
Definition ok {A} (res : Response A) : bool :=
  (200 <=? status res) && (status res <=? 299).

(** The endpoints the handlers call, indexed by the payload they answer. *)
Inductive Request : Type -> Type :=
| AccountByRiotId (gameName tagLine : string) : Request Account.t
| MatchIdsByPuuid (puuid query : string) : Request (list string)
| MatchById (matchId : string) : Request Match.t
| TimelineById (matchId : string) : Request Timeline.t
| SummonerByPuuid (puuid : string) : Request Summoner.t
| MasteryTopByPuuid (puuid : string) : Request (list MasteryEntry.t)
| LeagueBySummoner (summonerId : string) : Request (list RankedEntry.t).

Definition RIOT_API_BASE : string := "https://americas.api.riotgames.com".
Definition LOL_API_BASE : string := "https://na1.api.riotgames.com".

(** [encodeURIComponent], on the UTF-8 bytes of the text: letters, digits
    and [- _ . ! ~ * ' ( )] stay, any other byte becomes [%XX]. *)
Definition hex_digit (n : nat) : ascii :=
  ascii_of_nat (if Nat.ltb n 10 then 48 + n else 55 + n).

Definition unreserved (c : ascii) : bool :=
  let n := nat_of_ascii c in
  (Nat.leb 65 n && Nat.leb n 90) || (Nat.leb 97 n && Nat.leb n 122)
  || (Nat.leb 48 n && Nat.leb n 57)
  || existsb (Nat.eqb n) [45; 95; 46; 33; 126; 42; 39; 40; 41]%nat.

Fixpoint encodeURIComponent (s : string) : string :=
  match s with
  | EmptyString => EmptyString
  | String c rest =>
      if unreserved c then String c (encodeURIComponent rest)
      else
        let n := nat_of_ascii c in
        String "%" (String (hex_digit (n / 16)) (String (hex_digit (n mod 16))
          (encodeURIComponent rest)))
  end.

(** The URL each request is sent to. *)
Definition url {A} (r : Request A) : string :=
  match r with
  | AccountByRiotId gameName tagLine =>
      RIOT_API_BASE ++ "/riot/account/v1/accounts/by-riot-id/"
        ++ encodeURIComponent gameName ++ "/" ++ encodeURIComponent tagLine
  | MatchIdsByPuuid puuid query =>
      RIOT_API_BASE ++ "/lol/match/v5/matches/by-puuid/" ++ puuid
        ++ "/ids?" ++ query
  | MatchById matchId =>
      RIOT_API_BASE ++ "/lol/match/v5/matches/" ++ matchId
  | TimelineById matchId =>
      RIOT_API_BASE ++ "/lol/match/v5/matches/" ++ matchId ++ "/timeline"
  | SummonerByPuuid puuid =>
      LOL_API_BASE ++ "/lol/summoner/v4/summoners/by-puuid/" ++ puuid
  | MasteryTopByPuuid puuid =>
      LOL_API_BASE ++ "/lol/champion-mastery/v4/champion-masteries/by-puuid/"
        ++ puuid ++ "/top?count=10"
  | LeagueBySummoner summonerId =>
      LOL_API_BASE ++ "/lol/league/v4/entries/by-summoner/" ++ summonerId
  end.

(** Two requests are the same when they go to the same endpoint with the
    same arguments, which is when their URLs are built from the same
    parts. *)
Definition same_request {A B} (r1 : Request A) (r2 : Request B) : bool :=
  match r1, r2 with
  | AccountByRiotId g1 t1, AccountByRiotId g2 t2 =>
      String.eqb g1 g2 && String.eqb t1 t2
  | MatchIdsByPuuid p1 q1, MatchIdsByPuuid p2 q2 =>
      String.eqb p1 p2 && String.eqb q1 q2
  | MatchById m1, MatchById m2 => String.eqb m1 m2
  | TimelineById m1, TimelineById m2 => String.eqb m1 m2
  | SummonerByPuuid p1, SummonerByPuuid p2 => String.eqb p1 p2
  | MasteryTopByPuuid p1, MasteryTopByPuuid p2 => String.eqb p1 p2
  | LeagueBySummoner s1, LeagueBySummoner s2 => String.eqb s1 s2
  | _, _ => false
  end.

(** What a handler does to the outside world, in the order it does it. *)
Inductive Effect :=
| Fetch {A : Type} (request : Request A)
| Wait (milliseconds : Z).

Definition Trace := list Effect.

Definition is_fetch (ev : Effect) : bool :=
  match ev with Fetch _ => true | Wait _ => false end.

Definition is_fetch_of {A} (r : Request A) (ev : Effect) : bool :=
  match ev with Fetch r' => same_request r' r | Wait _ => false end.

(** Number of requests a trace holds, and of repetitions of one request. *)
Definition fetch_count (tr : Trace) : nat := List.length (filter is_fetch tr).
Definition attempts {A} (r : Request A) (tr : Trace) : nat :=
  List.length (filter (is_fetch_of r) tr).

(** The world around a handler run: the upstream's answer to the [n]-th
    repetition of a request (so that it may rate-limit first and answer
    later), and the reading of [Date.now()] at its [i]-th call.  The
    upstream always answers: a network failure is outside the model. *)
Record Env := {
  upstream : forall A, Request A -> nat -> Response A;
  dateNow : nat -> Z
}.

Inductive Exn :=
| TypeError (message : string)
| SyntaxError (message : string).

(** [String(err)]. *)
Definition String_of_exn (e : Exn) : string :=
  match e with
  | TypeError m => "TypeError: " ++ m
  | SyntaxError m => "SyntaxError: " ++ m
  end.

Inductive Result (A : Type) :=
| Returned (a : A)
| Thrown (e : Exn).
Arguments Returned {A} _.
Arguments Thrown {A} _.

(** Computations that read the environment, extend the trace and may
    throw. *)
Definition M (A : Type) : Type := Env -> Trace -> Result A * Trace.

Definition ret {A} (a : A) : M A := fun _ tr => (Returned a, tr).

Definition throw {A} (e : Exn) : M A := fun _ tr => (Thrown e, tr).

Definition bind {A B} (m : M A) (k : A -> M B) : M B :=
  fun env tr =>
    match m env tr with
    | (Returned a, tr') => k a env tr'
    | (Thrown e, tr') => (Thrown e, tr')
    end.

(** [try { m } catch (err) { handler(err) }]. *)
Definition try_catch {A} (m : M A) (handler : Exn -> M A) : M A :=
  fun env tr =>
    match m env tr with
    | (Returned a, tr') => (Returned a, tr')
    | (Thrown e, tr') => handler e env tr'
    end.

Declare Scope js_scope.
Delimit Scope js_scope with js.
Notation "'let*' x ':=' 'await' m 'in' k" := (bind m (fun x => k))
  (at level 10, x name, m at level 100, k at level 200) : js_scope.
Notation "'await' m ';;' k" := (bind m (fun _ => k))
  (at level 10, m at level 100, k at level 200) : js_scope.

(** [fetch(url, options)]: the upstream answers according to how often
    this request was sent before. *)
Definition fetch {A} (r : Request A) : M (Response A) :=
  fun env tr =>
    (Returned (upstream env A r (attempts r tr)), (tr ++ [Fetch r])%list).

(** [new Promise((resolve) => setTimeout(resolve, ms))]. *)
Definition sleep (ms : Z) : M unit :=
  fun _ tr => (Returned tt, (tr ++ [Wait ms])%list).

(** [res.json()]. *)
Definition json_of {A} (res : Response A) : M A :=
  match json res with
  | Some body => ret body
  | None => throw (SyntaxError "Unexpected end of JSON input")
  end.

Fixpoint mapM {A B} (f : A -> M B) (l : list A) : M (list B) :=
  match l with
  | [] => ret []
  | x :: rest =>
      bind (f x) (fun y => bind (mapM f rest) (fun ys => ret (y :: ys)))
  end.

(** The outcome of a run from an empty trace. *)
Definition run {A} (m : M A) (env : Env) : Result A * Trace := m env [].

(* ================================================================== *)
(** ** Array helpers and the responses of a route *)
(* ================================================================== *)

(** [Array.prototype.indexOf] on an array of strings: [-1] when absent. *)
Fixpoint indexOf_from (i : Z) (l : list string) (x : string) : Z :=
  match l with
  | [] => -1
  | y :: rest => if String.eqb y x then i else indexOf_from (i + 1) rest x
  end.

Definition indexOf (l : list string) (x : string) : Z := indexOf_from 0 l x.

(** [Array.prototype.sort(comparefn)].  The language fixes the result for
    a consistent comparator: the elements in ascending order of
    [comparefn], elements that compare equal in their original order.  The
    model is the insertion sort that yields this result: an element moves
    behind the elements it compares greater than ([comparefn(x, y) > 0])
    and behind nothing else. *)
Section ArraySort.
Context {A : Type}.
Variable comparefn : A -> A -> JS.number.

Fixpoint sort_insert (x : A) (l : list A) : list A :=
  match l with
  | [] => [x]
  | y :: rest =>
      if JS.gt0 (comparefn x y) then y :: sort_insert x rest
      else x :: y :: rest
  end.

Fixpoint Array_sort (l : list A) : list A :=
  match l with
  | [] => []
  | x :: rest => sort_insert x (Array_sort rest)
  end.
End ArraySort.

(** The JSON body of a route's answer and its HTTP status. *)
Inductive Body (A : Type) :=
| Payload (data : A)
| ErrorBody (error : string) (details : option string).
Arguments Payload {A} _.
Arguments ErrorBody {A} _ _.

Record HttpResponse (A : Type) := { http_status : Z; body : Body A }.
Arguments http_status {A} _.
Arguments body {A} _.

(** [NextResponse.json(body, { status })]; the status defaults to 200. *)
Definition NextResponse_json {A} (b : Body A) (st : Z) : HttpResponse A :=
  {| http_status := st; body := b |}.

(** [!value] for a field of the request body that may be absent. *)
Definition falsy (field : option string) : bool :=
  match field with
  | None => true
  | Some s => String.eqb s ""
  end.

Definition field_value (field : option string) : string :=
  match field with Some s => s | None => "" end.

(** The catch clause every handler ends with. *)
Definition internal_server_error {A} (err : Exn) : M (HttpResponse A) :=
  ret (NextResponse_json
         (ErrorBody "Internal server error" (Some (String_of_exn err))) 500).

(** Reading a property of [undefined]. *)
Definition reading_undefined (property : string) : Exn :=
  TypeError ("Cannot read properties of undefined (reading '"
             ++ property ++ "')").

(** Views the History Aggregator returns. *)
Module PlayerView.
Record t := {
  summonerName : string;
  championName : string;
  teamId : Z;
  kills : Z;
  deaths : Z;
  assists : Z;
  role : string;
  isCurrentPlayer : bool;
  puuid : string
}.
End PlayerView.

Module MatchSummary.
Record t := {
  win : bool;
  champion : string;
  blueTeam : list PlayerView.t;
  redTeam : list PlayerView.t;
  gameMode : string;
  gameDuration : string;
  gameDurationSeconds : Z;
  timeAgo : string;
  isRemake : bool;
  matchId : string
}.
End MatchSummary.

(** The body of a request to the history and player-stats routes. *)
Record RiotIdRequest := {
  req_gameName : option string;
  req_tagLine : option string
}.

(** Parts of the handlers that appear in more than one of them. *)

(** [.filter(Boolean)] on an array of matches and [null]s. *)
Definition filter_Boolean {A} (l : list (option A)) : list A :=
  flat_map (fun x => match x with Some a => [a] | None => [] end) l.

(** A synchronous step: it reads the clock at most and sends nothing. *)
Definition lift {A} (r : Env -> Result A) : M A :=
  fun env tr => (r env, tr).

(** [if (!matchRes.ok) return null; return await matchRes.json();] *)
Definition match_or_null (matchRes : Response Match.t) :
    M (option Match.t) :=
  if negb (ok matchRes) then ret None
  else (let* match_ := await json_of matchRes in ret (Some match_))%js.

(* ================================================================== *)
(** ** History Aggregator ([src/app/api/lol-history/route.ts]) *)
(* ================================================================== *)

Module LolHistory.
Section WithRuntime.
Context {runtime : JS.Runtime}.

Definition formatGameDuration (seconds : Z) : string :=
  let minutes := JS.Math_floor (JS.div (JS.of_Z seconds) (JS.of_Z 60)) in
  let remainingSeconds := Z.rem seconds 60 in
  JS.Number_toString minutes ++ ":"
    ++ JS.padStart 2 "0" (JS.digits remainingSeconds).

Definition plural (n : JS.number) : string :=
  if SFeqb n (JS.of_Z 1) then "" else "s".

Definition getTimeAgo (now timestamp : Z) : string :=
  let diffMs := JS.of_Z (now - timestamp) in
  let diffMinutes := JS.Math_floor (JS.div diffMs (JS.of_Z (1000 * 60))) in
  let diffHours :=
    JS.Math_floor (JS.div diffMs (JS.of_Z (1000 * 60 * 60))) in
  let diffDays :=
    JS.Math_floor (JS.div diffMs (JS.of_Z (1000 * 60 * 60 * 24))) in
  if JS.gt0 diffDays then
    JS.Number_toString diffDays ++ " day" ++ plural diffDays ++ " ago"
  else if JS.gt0 diffHours then
    JS.Number_toString diffHours ++ " hour" ++ plural diffHours ++ " ago"
  else
    JS.Number_toString diffMinutes ++ " minute" ++ plural diffMinutes ++ " ago".

Definition queueMap : list (Z * string) :=
  [ (400, "Normal Draft"); (420, "Ranked Solo/Duo"); (430, "Normal Blind");
    (440, "Ranked Flex"); (450, "ARAM"); (700, "Clash"); (900, "URF");
    (1020, "One for All"); (1300, "Nexus Blitz");
    (1400, "Ultimate Spellbook"); (1700, "Arena"); (1900, "URF");
    (2000, "Tutorial 1"); (2010, "Tutorial 2"); (2020, "Tutorial 3") ].

(** [queueMap[queueId] || gameMode]. *)
Definition getGameModeName (queueId : Z) (gameMode : string) : string :=
  match find (fun entry => fst entry =? queueId) queueMap with
  | Some (_, name) => if String.eqb name "" then gameMode else name
  | None => gameMode
  end.

Definition getRole (participant : Participant.t) : string :=
  let teamPosition := Participant.teamPosition participant in
  if String.eqb teamPosition "TOP" then "top"
  else if String.eqb teamPosition "JUNGLE" then "jungle"
  else if String.eqb teamPosition "MIDDLE" then "mid"
  else if String.eqb teamPosition "BOTTOM" then "adc"
  else if String.eqb teamPosition "UTILITY" then "support"
  else
    let lane := Participant.lane participant in
    let role := Participant.role participant in
    if String.eqb lane "TOP" then "top"
    else if String.eqb lane "JUNGLE" then "jungle"
    else if String.eqb lane "MIDDLE" then "mid"
    else if String.eqb lane "BOTTOM" && String.eqb role "CARRY" then "adc"
    else if String.eqb lane "BOTTOM" && String.eqb role "SUPPORT"
         then "support"
    else if String.eqb lane "UTILITY" then "support"
    else "unknown".

(** [p.riotIdGameName || p.summonerName]. *)
Definition displayName (p : Participant.t) : string :=
  match Participant.riotIdGameName p with
  | Some name =>
      if String.eqb name "" then Participant.summonerName p else name
  | None => Participant.summonerName p
  end.

Definition playerView (puuid : string) (p : Participant.t) : PlayerView.t :=
  {| PlayerView.summonerName := displayName p;
     PlayerView.championName := Participant.championName p;
     PlayerView.teamId := Participant.teamId p;
     PlayerView.kills := Participant.kills p;
     PlayerView.deaths := Participant.deaths p;
     PlayerView.assists := Participant.assists p;
     PlayerView.role := getRole p;
     PlayerView.isCurrentPlayer := String.eqb (Participant.puuid p) puuid;
     PlayerView.puuid := Participant.puuid p |}.

Definition roleOrder : list string :=
  ["top"; "jungle"; "mid"; "adc"; "support"].

Definition sortByRole (a b : PlayerView.t) : JS.number :=
  JS.sub (JS.of_Z (indexOf roleOrder (PlayerView.role a)))
         (JS.of_Z (indexOf roleOrder (PlayerView.role b))).

Definition isRemake (info : Info.t) : bool :=
  (Info.gameDuration info <? 180)
  || String.eqb (Info.gameMode info) "PRACTICETOOL"
  || String.eqb (Info.gameType info) "CUSTOM_GAME"
  || String.eqb (Info.gameMode info) "TUTORIAL".

Definition sortedTeam (puuid : string) (side : Z) (info : Info.t) :
    list PlayerView.t :=
  let allPlayers := map (playerView puuid) (Info.participants info) in
  Array_sort sortByRole
    (filter (fun p => PlayerView.teamId p =? side) allPlayers).

(** The callback of the [.map] of step 4, on one fetched match; [now] is
    the reading of [Date.now()] inside [getTimeAgo].  The object literal
    is built field by field, [participant.win] first, so an absent
    participant makes the callback throw. *)
Definition summarise (puuid : string) (now : Z) (match_ : Match.t) :
    Result MatchSummary.t :=
  let info := Match.info match_ in
  let participant :=
    find (fun p => String.eqb (Participant.puuid p) puuid)
         (Info.participants info) in
  let sortedBlueTeam := sortedTeam puuid 100 info in
  let sortedRedTeam := sortedTeam puuid 200 info in
  let gameModeName :=
    getGameModeName (Info.queueId info) (Info.gameMode info) in
  match participant with
  | None => Thrown (reading_undefined "win")
  | Some participant =>
      Returned
        {| MatchSummary.win := Participant.win participant;
           MatchSummary.champion := Participant.championName participant;
           MatchSummary.blueTeam := sortedBlueTeam;
           MatchSummary.redTeam := sortedRedTeam;
           MatchSummary.gameMode := gameModeName;
           MatchSummary.gameDuration :=
             formatGameDuration (Info.gameDuration info);
           MatchSummary.gameDurationSeconds := Info.gameDuration info;
           MatchSummary.timeAgo := getTimeAgo now (Info.gameCreation info);
           MatchSummary.isRemake := isRemake info;
           MatchSummary.matchId := Match.matchId match_ |}
  end.

(** [matchDetails.filter(Boolean).map(callback)]: the callback runs on
    the fetched matches in order, the [i]-th run reading the clock for
    the [i]-th time, and the first throw ends the map. *)
Fixpoint summarise_all (env : Env) (puuid : string) (i : nat)
    (fetched : list Match.t) : Result (list MatchSummary.t) :=
  match fetched with
  | [] => Returned []
  | match_ :: rest =>
      match summarise puuid (dateNow env i) match_ with
      | Thrown e => Thrown e
      | Returned summary =>
          match summarise_all env puuid (S i) rest with
          | Thrown e => Thrown e
          | Returned summaries => Returned (summary :: summaries)
          end
      end
  end.

(** Step 3: every request of the batch is issued, in the order of the
    identifiers, before any answer is looked at. *)
Definition fetch_match_details (matchIds : list string) :
    M (list (option Match.t)) :=
  (let* responses := await mapM (fun matchId => fetch (MatchById matchId))
                                matchIds in
   mapM match_or_null responses)%js.

Definition POST (req : RiotIdRequest) :
    M (HttpResponse (list MatchSummary.t)) :=
  if falsy (req_gameName req) || falsy (req_tagLine req) then
    ret (NextResponse_json (ErrorBody "Missing gameName or tagLine" None) 400)
  else
    let gameName := field_value (req_gameName req) in
    let tagLine := field_value (req_tagLine req) in
    try_catch
      (let* accountRes := await fetch (AccountByRiotId gameName tagLine) in
       if negb (ok accountRes) then
         ret (NextResponse_json (ErrorBody "Account not found" None) 404)
       else
         let* accountData := await json_of accountRes in
         let puuid := Account.puuid accountData in
         let* matchIdsRes :=
           await fetch (MatchIdsByPuuid puuid "start=0&count=20") in
         if negb (ok matchIdsRes) then
           ret (NextResponse_json
                  (ErrorBody "Could not fetch match IDs" None) 500)
         else
           let* matchIds := await json_of matchIdsRes in
           let* matchDetails := await fetch_match_details matchIds in
           let* matches :=
             await lift (fun env =>
               summarise_all env puuid 0 (filter_Boolean matchDetails)) in
           ret (NextResponse_json (Payload matches) 200))%js
      internal_server_error.

End WithRuntime.
End LolHistory.

(* ================================================================== *)
(** ** Match Detail Fetcher (the match-details route) *)
(* ================================================================== *)

Module LolMatchDetails.
Section WithRuntime.
Context {runtime : JS.Runtime}.

Definition kda (kills assists deaths : Z) : string :=
  if 0 <? kills + assists
  then JS.toFixed 2 (JS.div (JS.of_Z (kills + assists))
                         (JS.of_Z (Z.max deaths 1)))
  else "0.00".

Definition csPerMinute (totalMinionsKilled neutralMinionsKilled
                        gameDuration : Z) : string :=
  JS.toFixed 1
    (JS.div (JS.of_Z (totalMinionsKilled + neutralMinionsKilled))
            (JS.div (JS.of_Z gameDuration) (JS.of_Z 60))).

Record PlayerStats := {
  ps_kills : Z;
  ps_deaths : Z;
  ps_assists : Z;
  ps_kda : string;
  ps_totalDamageDealtToChampions : Z;
  ps_physicalDamageDealtToChampions : Z;
  ps_magicDamageDealtToChampions : Z;
  ps_trueDamageDealtToChampions : Z;
  ps_goldEarned : Z;
  ps_goldSpent : Z;
  ps_visionScore : Z;
  ps_wardsPlaced : Z;
  ps_wardsKilled : Z;
  ps_totalMinionsKilled : Z;
  ps_neutralMinionsKilled : Z;
  ps_csPerMinute : string;
  ps_items : list Z;
  ps_summoner1Id : Z;
  ps_summoner2Id : Z;
  ps_championName : string;
  ps_championLevel : Z;
  ps_championTransform : Z;
  ps_teamPosition : string;
  ps_individualPosition : string;
  ps_win : bool;
  ps_gameDuration : Z;
  ps_gameMode : string;
  ps_queueId : Z
}.

(** Step 4. *)
Definition playerStats_of (info : Info.t) (currentPlayer : Participant.t) :
    PlayerStats :=
  {| ps_kills := Participant.kills currentPlayer;
     ps_deaths := Participant.deaths currentPlayer;
     ps_assists := Participant.assists currentPlayer;
     ps_kda := kda (Participant.kills currentPlayer)
                   (Participant.assists currentPlayer)
                   (Participant.deaths currentPlayer);
     ps_totalDamageDealtToChampions :=
       Participant.totalDamageDealtToChampions currentPlayer;
     ps_physicalDamageDealtToChampions :=
       Participant.physicalDamageDealtToChampions currentPlayer;
     ps_magicDamageDealtToChampions :=
       Participant.magicDamageDealtToChampions currentPlayer;
     ps_trueDamageDealtToChampions :=
       Participant.trueDamageDealtToChampions currentPlayer;
     ps_goldEarned := Participant.goldEarned currentPlayer;
     ps_goldSpent := Participant.goldSpent currentPlayer;
     ps_visionScore := Participant.visionScore currentPlayer;
     ps_wardsPlaced := Participant.wardsPlaced currentPlayer;
     ps_wardsKilled := Participant.wardsKilled currentPlayer;
     ps_totalMinionsKilled := Participant.totalMinionsKilled currentPlayer;
     ps_neutralMinionsKilled :=
       Participant.neutralMinionsKilled currentPlayer;
     ps_csPerMinute :=
       csPerMinute (Participant.totalMinionsKilled currentPlayer)
                   (Participant.neutralMinionsKilled currentPlayer)
                   (Info.gameDuration info);
     ps_items :=
       filter (fun item => negb (item =? 0))
         [ Participant.item0 currentPlayer; Participant.item1 currentPlayer;
           Participant.item2 currentPlayer; Participant.item3 currentPlayer;
           Participant.item4 currentPlayer; Participant.item5 currentPlayer;
           Participant.item6 currentPlayer ];
     ps_summoner1Id := Participant.summoner1Id currentPlayer;
     ps_summoner2Id := Participant.summoner2Id currentPlayer;
     ps_championName := Participant.championName currentPlayer;
     ps_championLevel := Participant.champLevel currentPlayer;
     ps_championTransform := Participant.championTransform currentPlayer;
     ps_teamPosition := Participant.teamPosition currentPlayer;
     ps_individualPosition := Participant.individualPosition currentPlayer;
     ps_win := Participant.win currentPlayer;
     ps_gameDuration := Info.gameDuration info;
     ps_gameMode := Info.gameMode info;
     ps_queueId := Info.queueId info |}.

(** [field === playerId] for a field that may be absent. *)
Definition refers_to (playerId : Z) (field : option Z) : bool :=
  match field with Some v => v =? playerId | None => false end.

(** The filter of step 5. *)
Definition involves (playerId : Z) (event : TimelineEvent.t) : bool :=
  refers_to playerId (TimelineEvent.participantId event)
  || refers_to playerId (TimelineEvent.killerId event)
  || refers_to playerId (TimelineEvent.victimId event)
  || match TimelineEvent.assistingParticipantIds event with
     | Some ids => existsb (Z.eqb playerId) ids
     | None => false
     end.

(** [{ ...event, timestamp: frame.timestamp,
       realTimestamp: event.realTimestamp || frame.timestamp }]. *)
Definition tag_event (frame : Frame.t) (event : TimelineEvent.t) :
    TimelineEvent.t :=
  {| TimelineEvent.type := TimelineEvent.type event;
     TimelineEvent.participantId := TimelineEvent.participantId event;
     TimelineEvent.killerId := TimelineEvent.killerId event;
     TimelineEvent.victimId := TimelineEvent.victimId event;
     TimelineEvent.assistingParticipantIds :=
       TimelineEvent.assistingParticipantIds event;
     TimelineEvent.realTimestamp :=
       Some match TimelineEvent.realTimestamp event with
            | Some r => if r =? 0 then Frame.timestamp frame else r
            | None => Frame.timestamp frame
            end;
     TimelineEvent.timestamp := Some (Frame.timestamp frame) |}.

(** Step 5; [timelineData] is [None] for JavaScript's [null]. *)
Definition playerTimeline_of (timelineData : option Timeline.t)
    (currentPlayer : Participant.t) : list TimelineEvent.t :=
  match timelineData with
  | Some timeline =>
      let playerId := Participant.participantId currentPlayer in
      flat_map (fun frame =>
                  map (tag_event frame)
                      (filter (involves playerId) (Frame.events frame)))
               (Timeline.frames timeline)
  | None => []
  end.

Record MatchInfo := {
  mi_gameCreation : Z;
  mi_gameDuration : Z;
  mi_gameMode : string;
  mi_queueId : Z
}.

(** Step 6. *)
Definition teamObjectives_of (info : Info.t) : list Team.t :=
  map (fun team =>
         {| Team.teamId := Team.teamId team;
            Team.win := Team.win team;
            Team.objectives :=
              {| Objectives.baron := Objectives.baron (Team.objectives team);
                 Objectives.dragon :=
                   Objectives.dragon (Team.objectives team);
                 Objectives.inhibitor :=
                   Objectives.inhibitor (Team.objectives team);
                 Objectives.riftHerald :=
                   Objectives.riftHerald (Team.objectives team);
                 Objectives.tower :=
                   Objectives.tower (Team.objectives team) |} |})
      (Info.teams info).

Definition matchInfo_of (info : Info.t) : MatchInfo :=
  {| mi_gameCreation := Info.gameCreation info;
     mi_gameDuration := Info.gameDuration info;
     mi_gameMode := Info.gameMode info;
     mi_queueId := Info.queueId info |}.

Record MatchDetails := {
  playerStats : PlayerStats;
  playerTimeline : list TimelineEvent.t;
  teamObjectives : list Team.t;
  matchInfo : MatchInfo
}.

Record DetailsRequest := {
  dr_matchId : option string;
  dr_puuid : option string
}.

Definition POST (req : DetailsRequest) :
    M (HttpResponse MatchDetails) :=
  if falsy (dr_matchId req) || falsy (dr_puuid req) then
    ret (NextResponse_json (ErrorBody "Missing matchId or puuid" None) 400)
  else
    let matchId := field_value (dr_matchId req) in
    let puuid := field_value (dr_puuid req) in
    try_catch
      (let* matchRes := await fetch (MatchById matchId) in
       if negb (ok matchRes) then
         ret (NextResponse_json (ErrorBody "Match not found" None) 404)
       else
         let* matchData := await json_of matchRes in
         let* timelineRes := await fetch (TimelineById matchId) in
         let* timelineData :=
           await (if ok timelineRes
                  then let* data := await json_of timelineRes in
                       ret (Some data)
                  else ret None) in
         let info := Match.info matchData in
         match find (fun p => String.eqb (Participant.puuid p) puuid)
                    (Info.participants info) with
         | None =>
             ret (NextResponse_json
                    (ErrorBody "Player not found in match" None) 404)
         | Some currentPlayer =>
             ret (NextResponse_json
                    (Payload
                       {| playerStats := playerStats_of info currentPlayer;
                          playerTimeline :=
                            playerTimeline_of timelineData currentPlayer;
                          teamObjectives := teamObjectives_of info;
                          matchInfo := matchInfo_of info |})
                    200)
         end)%js
      internal_server_error.

End WithRuntime.
End LolMatchDetails.

(* ================================================================== *)
(** ** Stats Aggregator ([src/app/api/lol-player-stats/route.ts]) *)
(* ================================================================== *)

Module LolPlayerStats.

(** The retry wrapper, lines 9-29. *)

(** The [for] loop with [remaining] iterations to go, the next one
    numbered [attempt]; once the loop is exhausted the request is sent
    again and that answer is returned (line 28). *)
Fixpoint fetchWithRetry_from {A} (r : Request A) (remaining : nat)
    (attempt : Z) : M (Response A) :=
  match remaining with
  | O => fetch r
  | S k =>
      (let* response := await fetch r in
       if status response =? 429
       then await sleep (attempt * 2000) ;;
            fetchWithRetry_from r k (attempt + 1)
       else ret response)%js
  end.

Definition fetchWithRetry {A} (r : Request A) (maxRetries : nat) :
    M (Response A) :=
  fetchWithRetry_from r maxRetries 1.

(** The default of the [maxRetries] parameter. *)
Definition maxRetries_default : nat := 3.

Section WithRuntime.
Context {runtime : JS.Runtime}.

(** The counters of a champion.  [wins] and [losses] count matches of
    the list, one at a time; [totalDamage] and [totalGold] are running
    totals of upstream numbers, kept as JavaScript keeps them, in
    binary64. *)
Record ChampionStat := {
  cs_wins : Z;
  cs_losses : Z;
  cs_totalDamage : JS.number;
  cs_totalGold : JS.number
}.

Definition fresh_stat : ChampionStat :=
  {| cs_wins := 0; cs_losses := 0;
     cs_totalDamage := JS.zero; cs_totalGold := JS.zero |}.

(** [championStats]: a plain object used as a map from champion name to
    its counters; the list holds its own properties in the order of
    their creation. *)
Definition ChampionStats := list (string * ChampionStat).

(** What every plain object inherits from [Object.prototype]: reading
    one of these names off [championStats] finds the inherited function
    (for [__proto__], the prototype itself), which is truthy. *)
Definition Object_prototype_properties : list string :=
  [ "constructor"; "hasOwnProperty"; "isPrototypeOf";
    "propertyIsEnumerable"; "toLocaleString"; "toString"; "valueOf";
    "__proto__"; "__defineGetter__"; "__defineSetter__";
    "__lookupGetter__"; "__lookupSetter__" ].

Definition inherited (name : string) : bool :=
  existsb (String.eqb name) Object_prototype_properties.

Fixpoint lookup (name : string) (stats : ChampionStats) :
    option ChampionStat :=
  match stats with
  | [] => None
  | (key, value) :: rest =>
      if String.eqb key name then Some value else lookup name rest
  end.

(** [if (!championStats[name]) championStats[name] = { 0, 0, 0, 0 }].
    The test reads [championStats[name]] through the prototype chain: it
    finds an own entry, or else what the object inherits under that
    name, and creates an entry when it finds neither. *)
Definition ensure (name : string) (stats : ChampionStats) : ChampionStats :=
  match lookup name stats with
  | Some _ => stats
  | None =>
      if inherited name then stats
      else (stats ++ [(name, fresh_stat)])%list
  end.

(** Assignments to the fields of [championStats[name]].  Under a name
    without an own entry, which is then an inherited one, they land on
    the inherited object and leave [championStats] as it is. *)
Fixpoint modify (name : string) (f : ChampionStat -> ChampionStat)
    (stats : ChampionStats) : ChampionStats :=
  match stats with
  | [] => []
  | (key, value) :: rest =>
      if String.eqb key name then (key, f value) :: rest
      else (key, value) :: modify name f rest
  end.

Definition count_outcome (won : bool) (s : ChampionStat) : ChampionStat :=
  if won
  then {| cs_wins := cs_wins s + 1; cs_losses := cs_losses s;
          cs_totalDamage := cs_totalDamage s;
          cs_totalGold := cs_totalGold s |}
  else {| cs_wins := cs_wins s; cs_losses := cs_losses s + 1;
          cs_totalDamage := cs_totalDamage s;
          cs_totalGold := cs_totalGold s |}.

(** [totalDamage += damage] and [totalGold += gold], in binary64. *)
Definition add_damage (damage : Z) (s : ChampionStat) : ChampionStat :=
  {| cs_wins := cs_wins s; cs_losses := cs_losses s;
     cs_totalDamage := JS.add (cs_totalDamage s) (JS.of_Z damage);
     cs_totalGold := cs_totalGold s |}.

Definition add_gold (gold : Z) (s : ChampionStat) : ChampionStat :=
  {| cs_wins := cs_wins s; cs_losses := cs_losses s;
     cs_totalDamage := cs_totalDamage s;
     cs_totalGold := JS.add (cs_totalGold s) (JS.of_Z gold) |}.

(** The callback of the [forEach] of lines 249-274. *)
Definition record_match (puuid : string) (stats : ChampionStats)
    (match_ : Match.t) : ChampionStats :=
  match find (fun p => String.eqb (Participant.puuid p) puuid)
             (Info.participants (Match.info match_)) with
  | Some participant =>
      let championName := Participant.championName participant in
      let stats := ensure championName stats in
      let stats :=
        modify championName (count_outcome (Participant.win participant))
               stats in
      let stats :=
        modify championName
          (add_damage (Participant.totalDamageDealtToChampions participant))
          stats in
      modify championName (add_gold (Participant.goldEarned participant))
             stats
  | None => stats
  end.

Definition championStats_of (puuid : string) (fetched : list Match.t) :
    ChampionStats :=
  fold_left (record_match puuid) fetched [].

Record ChampionAggregate := {
  champion : string;
  wins : Z;
  losses : Z;
  winrate : string;
  totalGames : Z;
  avgDamage : JS.number;
  avgGold : JS.number
}.

Definition winrate_of (wins losses : Z) : string :=
  if 0 <? wins + losses
  then JS.toFixed 1 (JS.mul (JS.div (JS.of_Z wins) (JS.of_Z (wins + losses)))
                         (JS.of_Z 100))
  else "0.0".

Definition average (total : JS.number) (games : Z) : JS.number :=
  JS.Math_round (JS.div total (JS.of_Z games)).

(** The callback of the [.map] of lines 278-291. *)
Definition aggregate (entry : string * ChampionStat) : ChampionAggregate :=
  let '(champion, stats) := entry in
  {| champion := champion;
     wins := cs_wins stats;
     losses := cs_losses stats;
     winrate := winrate_of (cs_wins stats) (cs_losses stats);
     totalGames := cs_wins stats + cs_losses stats;
     avgDamage :=
       average (cs_totalDamage stats) (cs_wins stats + cs_losses stats);
     avgGold :=
       average (cs_totalGold stats) (cs_wins stats + cs_losses stats) |}.

(** [(a, b) => Number(b.winrate) - Number(a.winrate)]. *)
Definition byWinrate (a b : ChampionAggregate) : JS.number :=
  JS.sub (JS.Number_of_string (winrate b)) (JS.Number_of_string (winrate a)).

(** An array index: the canonical decimal numeral of an integer from 0
    to 2^32 - 2. *)
Definition array_index (key : string) : option Z :=
  match JS.read_digits 0 key with
  | Some n =>
      if String.eqb (JS.digits n) key && (n <=? 4294967294) then Some n
      else None
  | None => None
  end.

Fixpoint insert_by_index (entry : Z * (string * ChampionStat))
    (entries : list (Z * (string * ChampionStat))) :
    list (Z * (string * ChampionStat)) :=
  match entries with
  | [] => [entry]
  | other :: rest =>
      if fst entry <? fst other then entry :: entries
      else other :: insert_by_index entry rest
  end.

(** [Object.entries]: the own properties whose key is an array index
    first, in ascending order of the index, then the others in the order
    of their creation. *)
Definition Object_entries (stats : ChampionStats) :
    list (string * ChampionStat) :=
  let indexed :=
    flat_map (fun entry =>
                match array_index (fst entry) with
                | Some index => [(index, entry)]
                | None => []
                end)
             stats in
  (map snd (fold_right insert_by_index [] indexed)
   ++ filter (fun entry =>
                match array_index (fst entry) with
                | Some _ => false
                | None => true
                end)
             stats)%list.

(** Lines 240-292: the fold over the fetched matches of the sample. *)
Definition winrateData_of (puuid : string) (fetched : list Match.t) :
    list ChampionAggregate :=
  Array_sort byWinrate
    (map aggregate (Object_entries (championStats_of puuid fetched))).

Record PlayerStatsPayload := {
  mastery : list MasteryEntry.t;
  ranked : list RankedEntry.t;
  winrates : list ChampionAggregate
}.

(** The batch of lines 224-237, on the first ten identifiers.  The
    callbacks are run one after the other; JavaScript interleaves them,
    which permutes the trace entries of this batch and changes nothing
    else as long as the identifiers differ, the upstream's answer
    depending on the URL and its repetition count only. *)
Definition fetch_sample (matchIds : list string) :
    M (list (option Match.t)) :=
  mapM (fun matchId =>
          (let* matchRes :=
             await fetchWithRetry (MatchById matchId) maxRetries_default in
           match_or_null matchRes)%js)
       (firstn 10 matchIds).

Definition status_details {A} (res : Response A) : string :=
  "Status: " ++ JS.digits (status res) ++ ", Response: " ++ text res.

Definition POST (req : RiotIdRequest) :
    M (HttpResponse PlayerStatsPayload) :=
  if falsy (req_gameName req) || falsy (req_tagLine req) then
    ret (NextResponse_json (ErrorBody "Missing gameName or tagLine" None) 400)
  else
    let gameName := field_value (req_gameName req) in
    let tagLine := field_value (req_tagLine req) in
    try_catch
      (let* accountRes :=
         await fetchWithRetry (AccountByRiotId gameName tagLine)
                              maxRetries_default in
       if negb (ok accountRes) then
         if status accountRes =? 429 then
           ret (NextResponse_json
                  (ErrorBody
                     "Rate limit exceeded. Please wait a moment and try again."
                     (Some (status_details accountRes)))
                  429)
         else
           ret (NextResponse_json
                  (ErrorBody "Account not found"
                             (Some (status_details accountRes)))
                  404)
       else
         let* accountData := await json_of accountRes in
         let puuid := Account.puuid accountData in
         let* summonerRes :=
           await fetchWithRetry (SummonerByPuuid puuid) maxRetries_default in
         if negb (ok summonerRes) then
           ret (NextResponse_json (ErrorBody "Summoner not found" None) 404)
         else
           let* summonerData := await json_of summonerRes in
           let summonerId := Summoner.id summonerData in
           let* masteryRes :=
             await fetchWithRetry (MasteryTopByPuuid puuid)
                                  maxRetries_default in
           let* masteryData :=
             await (if ok masteryRes then json_of masteryRes else ret []) in
           let* rankedRes :=
             await fetchWithRetry (LeagueBySummoner summonerId)
                                  maxRetries_default in
           let* rankedData :=
             await (if ok rankedRes then json_of rankedRes else ret []) in
           let* matchIdsRes :=
             await fetchWithRetry
                     (MatchIdsByPuuid puuid "queue=420&start=0&count=50")
                     maxRetries_default in
           let* winrateData :=
             await (if ok matchIdsRes then
                      let* matchIds := await json_of matchIdsRes in
                      let* matchDetails := await fetch_sample matchIds in
                      ret (winrateData_of puuid (filter_Boolean matchDetails))
                    else ret []) in
           ret (NextResponse_json
                  (Payload {| mastery := masteryData;
                              ranked := rankedData;
                              winrates := winrateData |})
                  200))%js
      internal_server_error.

End WithRuntime.
End LolPlayerStats.

Import LolHistory LolMatchDetails LolPlayerStats.

(* ================================================================== *)
(** ** The page component ([src/app/page.tsx]): the callers of the routes *)
(* ================================================================== *)

Module Page.
Section WithRuntime.
Context {runtime : JS.Runtime}.

(** The state cells the two handlers write.  [null] is [None]; a cell
    that is set to the JSON a route answered holds that JSON, and
    [matches] holds [data.matches], which is [undefined] ([None]) on a
    body without that field. *)
Record State := {
  loading : bool;
  error : option string;
  matches : option (list MatchSummary.t);
  playerStats : option (Body PlayerStatsPayload);
  selectedMatch : option MatchSummary.t;
  matchDetails : option (Body MatchDetails);
  showMatchDetails : bool;
  detailsLoading : bool
}.

Definition setLoading (value : bool) (st : State) : State :=
  {| loading := value; error := error st; matches := matches st;
     playerStats := playerStats st; selectedMatch := selectedMatch st;
     matchDetails := matchDetails st;
     showMatchDetails := showMatchDetails st;
     detailsLoading := detailsLoading st |}.

Definition setError (value : option string) (st : State) : State :=
  {| loading := loading st; error := value; matches := matches st;
     playerStats := playerStats st; selectedMatch := selectedMatch st;
     matchDetails := matchDetails st;
     showMatchDetails := showMatchDetails st;
     detailsLoading := detailsLoading st |}.

Definition setMatches (value : option (list MatchSummary.t)) (st : State) :
    State :=
  {| loading := loading st; error := error st; matches := value;
     playerStats := playerStats st; selectedMatch := selectedMatch st;
     matchDetails := matchDetails st;
     showMatchDetails := showMatchDetails st;
     detailsLoading := detailsLoading st |}.

Definition setPlayerStats (value : option (Body PlayerStatsPayload))
    (st : State) : State :=
  {| loading := loading st; error := error st; matches := matches st;
     playerStats := value; selectedMatch := selectedMatch st;
     matchDetails := matchDetails st;
     showMatchDetails := showMatchDetails st;
     detailsLoading := detailsLoading st |}.

Definition setSelectedMatch (value : option MatchSummary.t) (st : State) :
    State :=
  {| loading := loading st; error := error st; matches := matches st;
     playerStats := playerStats st; selectedMatch := value;
     matchDetails := matchDetails st;
     showMatchDetails := showMatchDetails st;
     detailsLoading := detailsLoading st |}.

Definition setMatchDetails (value : option (Body MatchDetails)) (st : State) :
    State :=
  {| loading := loading st; error := error st; matches := matches st;
     playerStats := playerStats st; selectedMatch := selectedMatch st;
     matchDetails := value;
     showMatchDetails := showMatchDetails st;
     detailsLoading := detailsLoading st |}.

Definition setShowMatchDetails (value : bool) (st : State) : State :=
  {| loading := loading st; error := error st; matches := matches st;
     playerStats := playerStats st; selectedMatch := selectedMatch st;
     matchDetails := matchDetails st;
     showMatchDetails := value;
     detailsLoading := detailsLoading st |}.

Definition setDetailsLoading (value : bool) (st : State) : State :=
  {| loading := loading st; error := error st; matches := matches st;
     playerStats := playerStats st; selectedMatch := selectedMatch st;
     matchDetails := matchDetails st;
     showMatchDetails := showMatchDetails st;
     detailsLoading := value |}.

(** The requests the page sends to the routes, with their JSON bodies. *)
Inductive Call :=
| PostHistory (request : RiotIdRequest)
| PostPlayerStats (request : RiotIdRequest)
| PostMatchDetails (request : DetailsRequest).

(** [res.ok] of a route's answer. *)
Definition res_ok {A} (res : HttpResponse A) : bool :=
  (200 <=? http_status res) && (http_status res <=? 299).

(** [data.error || "Unknown error"]. *)
Definition error_or_unknown {A} (data : Body A) : string :=
  match data with
  | ErrorBody error _ =>
      if String.eqb error "" then "Unknown error" else error
  | Payload _ => "Unknown error"
  end.

(** [data.matches]. *)
Definition matches_of (data : Body (list MatchSummary.t)) :
    option (list MatchSummary.t) :=
  match data with
  | Payload matches => Some matches
  | ErrorBody _ _ => None
  end.

(** [handleSubmit], lines 147-210.  The two routes run against the
    upstream as it is at the time of each call.  A route that threw
    would be answered by the framework with a body that is not JSON, on
    which [res.json()] rejects: the [catch] clause. *)
Definition handleSubmit (gameName tagLine : string)
    (historyWorld statsWorld : Env) (st : State) : State * list Call :=
  let request := {| req_gameName := Some gameName;
                    req_tagLine := Some tagLine |} in
  let st := setMatches (Some []) (setError None (setLoading true st)) in
  match fst (run (LolHistory.POST request) historyWorld) with
  | Thrown _ =>
      (setLoading false (setError (Some "Failed to fetch data") st),
       [PostHistory request])
  | Returned res =>
      let data := body res in
      if negb (res_ok res) then
        (setLoading false
           (setLoading false (setError (Some (error_or_unknown data)) st)),
         [PostHistory request])
      else
        let st := setMatches (matches_of data) st in
        match fst (run (LolPlayerStats.POST request) statsWorld) with
        | Thrown _ =>
            (setLoading false (setError (Some "Failed to fetch data") st),
             [PostHistory request; PostPlayerStats request])
        | Returned statsRes =>
            let st :=
              if res_ok statsRes then
                setPlayerStats (Some (body statsRes)) st
              else if http_status statsRes =? 429 then
                setError
                  (Some "Rate limit exceeded. Please wait a moment and try again.")
                  st
              else st in
            (setLoading false st, [PostHistory request; PostPlayerStats request])
        end
  end.

(** [match.blueTeam.find((p) => p.isCurrentPlayer)?.puuid ||
     match.redTeam.find((p) => p.isCurrentPlayer)?.puuid]. *)
Definition current_puuid (match_ : MatchSummary.t) : option string :=
  let blue :=
    option_map PlayerView.puuid
      (find PlayerView.isCurrentPlayer (MatchSummary.blueTeam match_)) in
  if falsy blue then
    option_map PlayerView.puuid
      (find PlayerView.isCurrentPlayer (MatchSummary.redTeam match_))
  else blue.

(** [handleMatchClick], lines 223-260. *)
Definition handleMatchClick (match_ : MatchSummary.t) (world : Env)
    (st : State) : State * list Call :=
  let st :=
    setShowMatchDetails true
      (setDetailsLoading true (setSelectedMatch (Some match_) st)) in
  let puuid := current_puuid match_ in
  if falsy puuid then
    (setDetailsLoading false
       (setError (Some "Could not identify player in match") st),
     [])
  else
    let request := {| dr_matchId := Some (MatchSummary.matchId match_);
                      dr_puuid := puuid |} in
    match fst (run (LolMatchDetails.POST request) world) with
    | Thrown _ =>
        (setDetailsLoading false
           (setError (Some "Failed to fetch match details") st),
         [PostMatchDetails request])
    | Returned res =>
        if negb (res_ok res) then
          (setDetailsLoading false
             (setError (Some "Failed to fetch match details") st),
           [PostMatchDetails request])
        else
          (setDetailsLoading false
             (setMatchDetails (Some (body res)) st),
           [PostMatchDetails request])
    end.

End WithRuntime.
End Page.

(* ================================================================== *)
(** ** Sample answers and sample worlds *)
(* ================================================================== *)

Module Sample.

Definition answer {A} (st : Z) (body : option A) : Response A :=
  {| status := st; statusText := ""; text := ""; json := body |}.

Definition too_many_requests {A} : Response A :=
  {| status := 429; statusText := "Too Many Requests";
     text := "rate limit exceeded"; json := None |}.

(** An upstream that rate-limits every request, always. *)
Definition always_rate_limited : Env :=
  {| upstream := fun A _ _ => too_many_requests; dateNow := fun _ => 0 |}.

(** A participant, by the fields the handlers tell players apart with. *)
Definition player (puuid name champion : string) (participantId teamId : Z)
    (teamPosition lane role : string) (win : bool) (damage gold : Z) :
    Participant.t :=
  {| Participant.puuid := puuid;
     Participant.participantId := participantId;
     Participant.riotIdGameName := Some name;
     Participant.summonerName := name;
     Participant.championName := champion;
     Participant.teamId := teamId;
     Participant.kills := 5;
     Participant.deaths := 0;
     Participant.assists := 7;
     Participant.teamPosition := teamPosition;
     Participant.individualPosition := teamPosition;
     Participant.lane := lane;
     Participant.role := role;
     Participant.win := win;
     Participant.totalDamageDealtToChampions := damage;
     Participant.physicalDamageDealtToChampions := 0;
     Participant.magicDamageDealtToChampions := damage;
     Participant.trueDamageDealtToChampions := 0;
     Participant.goldEarned := gold;
     Participant.goldSpent := gold;
     Participant.visionScore := 20;
     Participant.wardsPlaced := 8;
     Participant.wardsKilled := 2;
     Participant.totalMinionsKilled := 200;
     Participant.neutralMinionsKilled := 20;
     Participant.item0 := 3157; Participant.item1 := 0;
     Participant.item2 := 3020; Participant.item3 := 0;
     Participant.item4 := 0; Participant.item5 := 0;
     Participant.item6 := 3340;
     Participant.summoner1Id := 4;
     Participant.summoner2Id := 14;
     Participant.champLevel := 16;
     Participant.championTransform := 0 |}.

Definition objective (n : Z) : Objective.t :=
  {| Objective.first := 0 <? n; Objective.kills := n |}.

Definition team (teamId : Z) (win : bool) : Team.t :=
  {| Team.teamId := teamId; Team.win := win;
     Team.objectives :=
       {| Objectives.baron := objective 1;
          Objectives.dragon := objective 3;
          Objectives.inhibitor := objective 0;
          Objectives.riftHerald := objective 1;
          Objectives.tower := objective 7 |} |}.

Definition game (matchId : string) (participants : list Participant.t)
    (duration : Z) : Match.t :=
  {| Match.matchId := matchId;
     Match.info :=
       {| Info.participants := participants;
          Info.teams := [team 100 true; team 200 false];
          Info.gameDuration := duration;
          Info.gameCreation := 1000;
          Info.gameMode := "CLASSIC";
          Info.gameType := "MATCHED_GAME";
          Info.queueId := 420 |} |}.

Definition me : string := "puuid-me".

(** The requesting player on Ahri: a win for 20000 damage and 10000 gold,
    then a loss for 10000 damage and 8000 gold. *)
Definition ahri_win : Match.t :=
  game "NA1_1"
    [ player "puuid-ally" "Ally" "Leona" 1 100 "UTILITY" "BOTTOM" "SUPPORT"
             true 4000 7000;
      player me "Pikachu" "Ahri" 2 100 "MIDDLE" "MIDDLE" "SOLO"
             true 20000 10000;
      player "puuid-foe" "Foe" "Zed" 6 200 "MIDDLE" "MIDDLE" "SOLO"
             false 15000 9000 ]
    1800.

Definition ahri_loss : Match.t :=
  game "NA1_3"
    [ player me "Pikachu" "Ahri" 1 100 "MIDDLE" "MIDDLE" "SOLO"
             false 10000 8000;
      player "puuid-foe" "Foe" "Zed" 6 200 "MIDDLE" "MIDDLE" "SOLO"
             true 15000 9000 ]
    100.

(** A match the requesting player is not part of. *)
Definition strangers : Match.t :=
  game "NA1_3"
    [ player "puuid-ally" "Ally" "Leona" 1 100 "UTILITY" "BOTTOM" "SUPPORT"
             true 4000 7000;
      player "puuid-foe" "Foe" "Zed" 6 200 "MIDDLE" "MIDDLE" "SOLO"
             false 15000 9000 ]
    1800.

(** A side listed as support, top, a player without any position, and
    jungle. *)
Definition positions_astray : Match.t :=
  game "NA1_4"
    [ player "puuid-a" "A" "Leona" 1 100 "UTILITY" "BOTTOM" "SUPPORT"
             true 4000 7000;
      player me "Pikachu" "Garen" 2 100 "TOP" "TOP" "SOLO" true 20000 10000;
      player "puuid-c" "C" "Teemo" 3 100 "" "NONE" "NONE" true 9000 8000;
      player "puuid-d" "D" "Amumu" 4 100 "JUNGLE" "JUNGLE" "NONE"
             true 9000 8000 ]
    1800.

(** An upstream that knows the player, lists three matches, fails on the
    second of them, has no timeline, rate-limits the summoner lookup for
    ever, and answers the third identifier with [third]. *)
Definition upstream_with (third : Match.t) (A : Type) (r : Request A)
    (n : nat) : Response A :=
  match r in Request T return Response T with
  | AccountByRiotId _ _ => answer 200 (Some {| Account.puuid := me |})
  | MatchIdsByPuuid _ _ => answer 200 (Some ["NA1_1"; "NA1_2"; "NA1_3"])
  | MatchById matchId =>
      if String.eqb matchId "NA1_1" then answer 200 (Some ahri_win)
      else if String.eqb matchId "NA1_3" then answer 200 (Some third)
      else answer 500 None
  | TimelineById _ => answer 404 None
  | SummonerByPuuid _ => too_many_requests
  | MasteryTopByPuuid _ => answer 200 (Some [])
  | LeagueBySummoner _ => answer 200 (Some [])
  end.

Definition world : Env :=
  {| upstream := upstream_with ahri_loss; dateNow := fun _ => 7200000 |}.

Definition world_with_strangers : Env :=
  {| upstream := upstream_with strangers; dateNow := fun _ => 7200000 |}.

(** The same upstream, except that the first answer to every request is
    a rate limit. *)
Definition rate_limited_once : Env :=
  {| upstream := fun A r n =>
       match n with
       | O => too_many_requests
       | S n' => upstream_with ahri_loss A r n'
       end;
     dateNow := fun _ => 7200000 |}.

Definition pikachu : RiotIdRequest :=
  {| req_gameName := Some "pikachu"; req_tagLine := Some "001" |}.

(** A runtime for the conversions the model leaves open. *)
Definition runtime : JS.Runtime :=
  {| JS.Number_toString_general := fun _ => "";
     JS.StringToNumber_general := fun _ => JS.NaN |}.

Definition details_of_first_match : DetailsRequest :=
  {| dr_matchId := Some "NA1_1"; dr_puuid := Some me |}.

End Sample.

(** Further worlds: the sample upstream with the summoner lookup
    answered, the league lookup failing and a timeline for every match. *)
Module Scenario.

Definition event (type : string) (participantId killerId victimId : option Z)
    (assistingParticipantIds : option (list Z)) (realTimestamp : option Z) :
    TimelineEvent.t :=
  {| TimelineEvent.type := type;
     TimelineEvent.participantId := participantId;
     TimelineEvent.killerId := killerId;
     TimelineEvent.victimId := victimId;
     TimelineEvent.assistingParticipantIds := assistingParticipantIds;
     TimelineEvent.realTimestamp := realTimestamp;
     TimelineEvent.timestamp := Some 61234 |}.

(** Two frames; participant 2 buys an item, assists in a kill and is
    killed, and is no part of two other events. *)
Definition timeline : Timeline.t :=
  {| Timeline.frames :=
       [ {| Frame.timestamp := 60000;
            Frame.events :=
              [ event "ITEM_PURCHASED" (Some 2) None None None None;
                event "WARD_PLACED" (Some 6) None None None None ] |};
         {| Frame.timestamp := 120000;
            Frame.events :=
              [ event "CHAMPION_KILL" None (Some 1) (Some 6) (Some [2])
                      (Some 1700000000000);
                event "CHAMPION_KILL" None (Some 6) (Some 1) None None;
                event "CHAMPION_KILL" None (Some 6) (Some 2) None
                      (Some 0) ] |} ] |}.

Definition mastery_entry : MasteryEntry.t :=
  {| MasteryEntry.championId := 103;
     MasteryEntry.championLevel := 7;
     MasteryEntry.championPoints := 250000;
     MasteryEntry.championPointsSinceLastLevel := 0;
     MasteryEntry.chestGranted := true |}.

Definition provider (A : Type) (r : Request A) (n : nat) : Response A :=
  match r in Request T return Response T with
  | TimelineById _ => Sample.answer 200 (Some timeline)
  | SummonerByPuuid _ =>
      Sample.answer 200 (Some {| Summoner.id := "summoner-me" |})
  | MasteryTopByPuuid _ => Sample.answer 200 (Some [mastery_entry])
  | LeagueBySummoner _ => Sample.answer 503 None
  | other => Sample.upstream_with Sample.ahri_loss _ other n
  end.

Definition healthy : Env :=
  {| upstream := provider; dateNow := fun _ => 7200000 |}.

(** The same, except that the list of match identifiers is refused. *)
Definition no_match_list : Env :=
  {| upstream := fun A r n =>
       match r in Request T return Response T with
       | MatchIdsByPuuid _ _ => Sample.answer 503 None
       | other => provider _ other n
       end;
     dateNow := fun _ => 7200000 |}.

(** A match of a mode without a blue and a red side: the requesting
    player is on team 0. *)
Definition arena : Match.t :=
  Sample.game "NA1_9"
    [ Sample.player Sample.me "Pikachu" "Ahri" 1 0 "" "NONE" "NONE"
                    true 20000 10000;
      Sample.player "puuid-foe" "Foe" "Zed" 2 0 "" "NONE" "NONE"
                    false 15000 9000 ]
    1200.

(** The page before the first search. *)
Definition initial : Page.State :=
  {| Page.loading := false;
     Page.error := None;
     Page.matches := Some [];
     Page.playerStats := None;
     Page.selectedMatch := None;
     Page.matchDetails := None;
     Page.showMatchDetails := false;
     Page.detailsLoading := false |}.

(** What the sample upstream lets the History Aggregator return. *)
Definition found : list MatchSummary.t :=
  match fst (run (LolHistory.POST (runtime := Sample.runtime) Sample.pikachu)
                 Sample.world) with
  | Returned res =>
      match body res with
      | Payload matches => matches
      | ErrorBody _ _ => []
      end
  | Thrown _ => []
  end.

(** Requests for the details of the second and of the third match. *)
Definition details_of_second_match : DetailsRequest :=
  {| dr_matchId := Some "NA1_2"; dr_puuid := Some Sample.me |}.


End Scenario.

(* ================================================================== *)
(** ** Notions the statements below are written with *)
(* ================================================================== *)

(** Ascending order of an integer key, and the elements of one key. *)
Definition ascending {A} (key : A -> Z) : list A -> Prop :=
  StronglySorted (fun a b => key a <= key b).

Definition has_key {A} (key : A -> Z) (k : Z) (a : A) : bool := key a =? k.

(** The trace of [k] rate-limited rounds of the loop, the first of them
    numbered [attempt]. *)
Fixpoint rate_limited_rounds {A} (r : Request A) (k : nat)
    (attempt : Z) : Trace :=
  match k with
  | O => []
  | S k' =>
      Fetch r :: Wait (attempt * 2000)
        :: rate_limited_rounds r k' (attempt + 1)
  end.

(** The position of a player's role in [roleOrder]; [-1] for a role that
    is not listed, which is the case of ["unknown"]. *)
Definition roleIndex (p : PlayerView.t) : Z :=
  indexOf roleOrder (PlayerView.role p).

(** The upstream's answers to the detail requests of a batch, [seen]
    being the identifiers requested before it. *)
Fixpoint detail_answers (env : Env) (seen ids : list string) :
    list (Response Match.t) :=
  match ids with
  | [] => []
  | matchId :: rest =>
      upstream env _ (MatchById matchId) (count_occ string_dec seen matchId)
        :: detail_answers env (seen ++ [matchId])%list rest
  end.

(** What the callback of step 3 makes of an answer that parses. *)
Definition detail_of (matchRes : Response Match.t) : option Match.t :=
  if ok matchRes then json matchRes else None.

(** The answers of a batch all parse when they are successes. *)
Definition parseable (answers : list (Response Match.t)) : Prop :=
  Forall (fun res => ok res = true -> json res <> None) answers.

(** Does the match list the player? *)
Definition has_player (puuid : string) (match_ : Match.t) : bool :=
  existsb (fun p => String.eqb (Participant.puuid p) puuid)
          (Info.participants (Match.info match_)).

(** The requesting player's participant records, one for each fetched
    match that lists the player, in the order of the matches. *)
Definition appearances (puuid : string) (fetched : list Match.t) :
    list Participant.t :=
  flat_map (fun match_ =>
              match find (fun p => String.eqb (Participant.puuid p) puuid)
                         (Info.participants (Match.info match_)) with
              | Some participant => [participant]
              | None => []
              end)
           fetched.

(** The games on one champion, and the sum of a field over games. *)
Definition on_champion (name : string) (p : Participant.t) : bool :=
  String.eqb (Participant.championName p) name.

Definition total (f : Participant.t -> Z) (ps : list Participant.t) : Z :=
  fold_right (fun p acc => f p + acc) 0 ps.

(** The running total of a field over games: the binary64 additions of
    [+=], from 0, in the order of the games. *)
Definition running_total (f : Participant.t -> Z)
    (ps : list Participant.t) : JS.number :=
  fold_left (fun acc p => JS.add acc (JS.of_Z (f p))) ps JS.zero.

(** What the games on one champion add up to. *)
Definition tally (name : string) (ps : list Participant.t) : ChampionStat :=
  let games := filter (on_champion name) ps in
  {| cs_wins := Z.of_nat (List.length (filter Participant.win games));
     cs_losses :=
       Z.of_nat (List.length (filter (fun p => negb (Participant.win p))
                                     games));
     cs_totalDamage :=
       running_total Participant.totalDamageDealtToChampions games;
     cs_totalGold := running_total Participant.goldEarned games |}.

(** The body of [record_match] on the participant it found. *)
Definition record_participant (stats : ChampionStats) (p : Participant.t) :
    ChampionStats :=
  let championName := Participant.championName p in
  modify championName (add_gold (Participant.goldEarned p))
    (modify championName
       (add_damage (Participant.totalDamageDealtToChampions p))
       (modify championName (count_outcome (Participant.win p))
          (ensure championName stats))).

(** The win percentage in tenths, rounded half up, in exact arithmetic. *)
Definition exact_tenths (wins losses : Z) : Z :=
  (2 * (1000 * wins) + (wins + losses)) / (2 * (wins + losses)).

(** The per-game average, rounded half up, in exact arithmetic. *)
Definition exact_average (total games : Z) : Z :=
  (2 * total + games) / (2 * games).

(** The win and loss counts a sample of at most ten matches can give a
    champion. *)
Definition sample_outcomes : list (Z * Z) :=
  filter (fun wl => (1 <=? fst wl + snd wl) && (fst wl + snd wl <=? 10))
         (flat_map (fun w => map (fun l => (Z.of_nat w, Z.of_nat l)) (seq 0 11))
                   (seq 0 11)).

(** The key the rows come out in ascending order of. *)
Definition rate_key (row : ChampionAggregate) : Z :=
  - exact_tenths (wins row) (losses row).

Section SampleChecks.
Context {runtime : JS.Runtime}.

(** On the counts of a sample, the comparator of the sort is positive
    exactly when its second argument has the larger exact percentage. *)
Definition comparator_checked (x y : Z * Z) : bool :=
  Bool.eqb
    (JS.gt0 (JS.sub (JS.Number_of_string (winrate_of (fst y) (snd y)))
                    (JS.Number_of_string (winrate_of (fst x) (snd x)))))
    (exact_tenths (fst x) (snd x) <? exact_tenths (fst y) (snd y)).

(** On the counts of a sample, [toFixed(1)] of the binary64 percentage
    shows the exact percentage rounded half up to one decimal. *)
Definition winrate_checked (x : Z * Z) : bool :=
  String.eqb (winrate_of (fst x) (snd x))
             (JS.fixed_digits 1 (exact_tenths (fst x) (snd x))).

(** A row built from the counts of a sample. *)
Definition from_sample (row : ChampionAggregate) : Prop :=
  0 <= wins row /\ 0 <= losses row /\ 1 <= wins row + losses row <= 10
  /\ winrate row = winrate_of (wins row) (losses row).

End SampleChecks.

(** The milliseconds a trace spends waiting. *)
Definition waited (tr : Trace) : Z :=
  fold_right (fun ev acc =>
                match ev with Wait ms => ms + acc | Fetch _ => acc end)
             0 tr.

(** From wherever it starts, the computation sends at most [n] requests. *)
Definition sends_at_most {A} (n : nat) (m : M A) : Prop :=
  forall env tr,
    (fetch_count (snd (m env tr)) <= fetch_count tr + n)%nat.








(** The timeline the Match Detail Fetcher is left with. *)
Definition timeline_of (timelineRes : Response Timeline.t) :
    option Timeline.t :=
  if ok timelineRes then json timelineRes else None.

(** The sum of a field over rows. *)
Definition sum_of {A} (f : A -> Z) (l : list A) : Z :=
  fold_right (fun a acc => f a + acc) 0 l.


(** The roles a view can carry, in the order the sort leaves them, and
    the players of one role. *)
Definition roles_as_sorted : list string := "unknown" :: roleOrder.

Definition in_role (role : string) (p : PlayerView.t) : bool :=
  String.eqb (PlayerView.role p) role.

(** Is the player listed on the given side, and on the blue side (100)
    or the red side (200)? *)
Definition on_side (puuid : string) (side : Z) (match_ : Match.t) : bool :=
  existsb (fun p => String.eqb (Participant.puuid p) puuid
                    && (Participant.teamId p =? side))
          (Info.participants (Match.info match_)).

Definition on_a_side (puuid : string) (match_ : Match.t) : bool :=
  on_side puuid 100 match_ || on_side puuid 200 match_.

(** "3 days ago", "1 hour ago". *)
Definition ago (count : Z) (unit : string) : string :=
  JS.digits count ++ " " ++ unit ++ (if count =? 1 then "" else "s")
    ++ " ago".

(* ================================================================== *)
(** ** Properties *)
(* ================================================================== *)

(* -------------------------------------------------------------- *)
(** *** Properties of [Array.prototype.sort] *)
(* -------------------------------------------------------------- *)

Section SortFacts.
Context {A : Type}.
Variable comparefn : A -> A -> JS.number.

(** The comparator is consistent on the elements that satisfy [P]: it is
    positive exactly when the integer key of its first argument is the
    larger one. *)
Variable key : A -> Z.
Variable P : A -> Prop.
Hypothesis comparefn_key :
  forall a b, P a -> P b -> JS.gt0 (comparefn a b) = (key b <? key a).

Lemma sort_insert_perm (x : A) (l : list A) :
  Permutation (sort_insert comparefn x l) (x :: l).
Proof.
  induction l as [|y rest IH]; simpl.
  - apply Permutation_refl.
  - destruct (JS.gt0 (comparefn x y)).
    + eapply Permutation_trans; [apply perm_skip, IH | apply perm_swap].
    + apply Permutation_refl.
Qed.

Lemma Array_sort_perm (l : list A) :
  Permutation (Array_sort comparefn l) l.
Proof.
  induction l as [|x rest IH]; simpl.
  - apply Permutation_refl.
  - eapply Permutation_trans; [apply sort_insert_perm | now apply perm_skip].
Qed.

Lemma Array_sort_Forall (l : list A) :
  Forall P l -> Forall P (Array_sort comparefn l).
Proof.
  intros H. eapply Permutation_Forall; [|exact H].
  apply Permutation_sym, Array_sort_perm.
Qed.

Lemma sort_insert_ascending (x : A) (l : list A) :
  P x -> Forall P l -> ascending key l -> ascending key (sort_insert comparefn x l).
Proof.
  intros Px Pl Hs. induction Hs as [|y rest Hrest IH Hy]; simpl.
  - constructor; [constructor | constructor].
  - inversion Pl as [|? ? Py Prest]; subst.
    rewrite (comparefn_key x y Px Py).
    destruct (key y <? key x) eqn:E.
    + apply Z.ltb_lt in E. constructor.
      * now apply IH.
      * eapply Permutation_Forall;
          [apply Permutation_sym, sort_insert_perm |].
        constructor; [lia | exact Hy].
    + apply Z.ltb_ge in E. constructor.
      * now constructor.
      * constructor; [exact E |].
        eapply Forall_impl; [|exact Hy]. simpl. intros; lia.
Qed.

(** The result is in ascending order of the key. *)
Lemma Array_sort_ascending (l : list A) :
  Forall P l -> ascending key (Array_sort comparefn l).
Proof.
  induction l as [|x rest IH]; intros H; simpl.
  - constructor.
  - inversion H; subst. apply sort_insert_ascending; auto.
    now apply Array_sort_Forall.
Qed.

Lemma sort_insert_stable (k : Z) (x : A) (l : list A) :
  P x -> Forall P l ->
  filter (has_key key k) (sort_insert comparefn x l) = filter (has_key key k) (x :: l).
Proof.
  intros Px Pl. induction l as [|y rest IH]; [reflexivity|].
  inversion Pl as [|? ? Py Prest]; subst. simpl.
  rewrite (comparefn_key x y Px Py).
  destruct (key y <? key x) eqn:E; [|reflexivity].
  apply Z.ltb_lt in E. simpl. rewrite (IH Prest). simpl.
  unfold has_key.
  destruct (key y =? k) eqn:Ey; destruct (key x =? k) eqn:Ex;
    try reflexivity.
  apply Z.eqb_eq in Ey, Ex. lia.
Qed.

(** The sort is stable: the elements of any one key keep their order. *)
Lemma Array_sort_stable (k : Z) (l : list A) :
  Forall P l ->
  filter (has_key key k) (Array_sort comparefn l) = filter (has_key key k) l.
Proof.
  induction l as [|x rest IH]; intros H; [reflexivity|].
  inversion H; subst. simpl (Array_sort _ _).
  rewrite sort_insert_stable; auto using Array_sort_Forall.
  simpl. now rewrite IH.
Qed.

End SortFacts.

Section Properties.

Context {runtime : JS.Runtime}.

Set Default Proof Using "Type".

(* -------------------------------------------------------------- *)
(** *** Running a handler step by step *)
(* -------------------------------------------------------------- *)

Lemma bind_ret {A B} (a : A) (k : A -> M B) (env : Env) (tr : Trace) :
  bind (ret a) k env tr = k a env tr.
Proof. reflexivity. Qed.

Lemma bind_fetch {A B} (r : Request A) (k : Response A -> M B) (env : Env)
    (tr : Trace) :
  bind (fetch r) k env tr
  = k (upstream env A r (attempts r tr)) env (tr ++ [Fetch r])%list.
Proof. reflexivity. Qed.

Lemma bind_sleep {B} (ms : Z) (k : unit -> M B) (env : Env) (tr : Trace) :
  bind (sleep ms) k env tr = k tt env (tr ++ [Wait ms])%list.
Proof. reflexivity. Qed.

Lemma bind_json_of {A B} (res : Response A) (data : A) (k : A -> M B)
    (env : Env) (tr : Trace) :
  json res = Some data -> bind (json_of res) k env tr = k data env tr.
Proof. intros H. unfold bind, json_of. now rewrite H. Qed.

Lemma bind_run {A B} (m : M A) (k : A -> M B) (env : Env) (tr tr' : Trace)
    (a : A) :
  m env tr = (Returned a, tr') -> bind m k env tr = k a env tr'.
Proof. intros H. unfold bind. now rewrite H. Qed.

Lemma attempts_nil {A} (r : Request A) : attempts r [] = 0%nat.
Proof. reflexivity. Qed.

(* -------------------------------------------------------------- *)
(** *** Properties of the retry wrapper *)
(* -------------------------------------------------------------- *)

Lemma same_request_refl {A} (r : Request A) : same_request r r = true.
Proof.
  destruct r; simpl; now rewrite ?String.eqb_refl.
Qed.

Lemma same_request_url {A B} (r1 : Request A) (r2 : Request B) :
  same_request r1 r2 = true -> url r1 = url r2.
Proof.
  destruct r1, r2; simpl; try discriminate; intros H;
    repeat match goal with
           | H : _ && _ = true |- _ => apply andb_true_iff in H; destruct H
           | H : String.eqb _ _ = true |- _ => apply String.eqb_eq in H; subst
           end;
    reflexivity.
Qed.

Lemma attempts_app {A} (r : Request A) (tr1 tr2 : Trace) :
  attempts r (tr1 ++ tr2)%list = (attempts r tr1 + attempts r tr2)%nat.
Proof.
  unfold attempts. now rewrite filter_app, length_app.
Qed.

Lemma attempts_fetch {A} (r : Request A) (tr : Trace) :
  attempts r (tr ++ [Fetch r])%list = S (attempts r tr).
Proof.
  rewrite attempts_app. unfold attempts at 2. simpl.
  rewrite same_request_refl. simpl. lia.
Qed.

Lemma attempts_wait {A} (r : Request A) (tr : Trace) (ms : Z) :
  attempts r (tr ++ [Wait ms])%list = attempts r tr.
Proof.
  rewrite attempts_app. unfold attempts at 2. simpl. lia.
Qed.

Lemma fetch_count_rounds {A} (r : Request A) (k : nat) (attempt : Z) :
  fetch_count (rate_limited_rounds r k attempt) = k.
Proof.
  revert attempt. induction k as [|k IH]; intros attempt; simpl.
  - reflexivity.
  - unfold fetch_count in *. simpl. now rewrite IH.
Qed.

(** What the wrapper does when the first [k] answers are rate-limited:
    either the loop stops at the first other answer ([k < remaining]) or
    it runs out ([k = remaining]) and one more request is sent, whose
    answer is returned whatever its status. *)
Lemma fetchWithRetry_from_run {A} (r : Request A) (env : Env) :
  forall (remaining k : nat) (attempt : Z) (tr : Trace),
    (k <= remaining)%nat ->
    (forall i, (i < k)%nat ->
       status (upstream env A r (attempts r tr + i)) = 429) ->
    ((k < remaining)%nat ->
       status (upstream env A r (attempts r tr + k)) <> 429) ->
    fetchWithRetry_from r remaining attempt env tr
    = (Returned (upstream env A r (attempts r tr + k)),
       tr ++ rate_limited_rounds r k attempt ++ [Fetch r])%list.
Proof.
  induction remaining as [|n IH]; intros k attempt tr Hk Hlim Hstop.
  - assert (k = 0%nat) by lia. subst k. simpl. unfold fetch.
    now rewrite Nat.add_0_r.
  - destruct k as [|k].
    + simpl. unfold bind, fetch. rewrite Nat.add_0_r in *.
      destruct (status (upstream env A r (attempts r tr)) =? 429)
        eqn:E.
      * apply Z.eqb_eq in E. exfalso. apply Hstop; [lia | exact E].
      * reflexivity.
    + simpl. unfold bind at 1. unfold fetch at 1.
      specialize (Hlim 0%nat ltac:(lia)) as H0.
      rewrite Nat.add_0_r in H0. rewrite H0. simpl.
      unfold bind at 1. unfold sleep at 1.
      rewrite (IH k (attempt + 1) ((tr ++ [Fetch r]) ++
                                   [Wait (attempt * 2000)])%list).
      * rewrite attempts_wait, attempts_fetch.
        replace (S (attempts r tr) + k)%nat
          with (attempts r tr + S k)%nat by lia.
        now rewrite <- !app_assoc.
      * lia.
      * intros i Hi. rewrite attempts_wait, attempts_fetch.
        replace (S (attempts r tr) + i)%nat
          with (attempts r tr + S i)%nat by lia.
        apply Hlim. lia.
      * intros Hlt. rewrite attempts_wait, attempts_fetch.
        replace (S (attempts r tr) + k)%nat
          with (attempts r tr + S k)%nat by lia.
        apply Hstop. lia.
Qed.

(** The first answer that is not rate-limited is returned at once, after
    the waits of the rounds before it. *)
Lemma fetchWithRetry_first_other_answer {A} (r : Request A) (env : Env)
    (maxRetries k : nat) :
  (k < maxRetries)%nat ->
  (forall i, (i < k)%nat -> status (upstream env A r i) = 429) ->
  status (upstream env A r k) <> 429 ->
  run (fetchWithRetry r maxRetries) env
  = (Returned (upstream env A r k),
     rate_limited_rounds r k 1 ++ [Fetch r])%list.
Proof.
  intros Hk Hlim Hstop. unfold run, fetchWithRetry.
  rewrite (fetchWithRetry_from_run r env maxRetries k 1 []);
    simpl; auto; lia.
Qed.

(** C1 (as the code behaves): when the first three answers are all
    rate-limited, the wrapper waits 2 s, 4 s and 6 s after them and then
    sends a FOURTH request, whose answer, rate-limited or not, is what
    it returns.  "Exactly 3 fetch attempts" and "no further request" fail
    on line 28, which fetches again where its comment says "return the
    last response". *)
Theorem C1_fetchWithRetry_sends_a_fourth_request {A} (r : Request A)
    (env : Env) :
  (forall i, (i < 3)%nat -> status (upstream env A r i) = 429) ->
  run (fetchWithRetry r maxRetries_default) env
  = (Returned (upstream env A r 3),
     [ Fetch r; Wait 2000;
       Fetch r; Wait 4000;
       Fetch r; Wait 6000;
       Fetch r ])
  /\ fetch_count (snd (run (fetchWithRetry r maxRetries_default) env))
     = 4%nat.
Proof.
  intros Hlim.
  assert (E : run (fetchWithRetry r maxRetries_default) env
              = (Returned (upstream env A r 3),
                 [ Fetch r; Wait 2000; Fetch r; Wait 4000;
                   Fetch r; Wait 6000; Fetch r ])).
  { unfold run, fetchWithRetry, maxRetries_default.
    rewrite (fetchWithRetry_from_run r env 3 3 1 []); simpl; auto; lia. }
  split; [exact E | now rewrite E].
Qed.

(* -------------------------------------------------------------- *)
(** *** The role sort of the History Aggregator *)
(* -------------------------------------------------------------- *)

Lemma indexOf_roleOrder_range (role : string) :
  -1 <= indexOf roleOrder role <= 4.
Proof.
  unfold indexOf, roleOrder. cbn [indexOf_from].
  repeat match goal with
         | |- context [String.eqb ?a ?b] => destruct (String.eqb a b)
         end; lia.
Qed.

Lemma sub_small_integers_sign (i j : Z) :
  -1 <= i <= 4 -> -1 <= j <= 4 ->
  JS.gt0 (JS.sub (JS.of_Z i) (JS.of_Z j)) = (j <? i).
Proof.
  intros Hi Hj.
  assert (Ei : i = -1 \/ i = 0 \/ i = 1 \/ i = 2 \/ i = 3 \/ i = 4) by lia.
  assert (Ej : j = -1 \/ j = 0 \/ j = 1 \/ j = 2 \/ j = 3 \/ j = 4) by lia.
  repeat (destruct Ei as [Ei|Ei]); repeat (destruct Ej as [Ej|Ej]);
    subst i j; vm_compute; reflexivity.
Qed.

Lemma sortByRole_key (a b : PlayerView.t) :
  True -> True -> JS.gt0 (sortByRole a b) = (roleIndex b <? roleIndex a).
Proof.
  intros _ _. unfold sortByRole, roleIndex.
  apply sub_small_integers_sign; apply indexOf_roleOrder_range.
Qed.

Lemma Forall_True {A} (l : list A) : Forall (fun _ => True) l.
Proof.
  induction l; constructor; auto.
Qed.

(** Each side comes out in ascending order of [roleIndex], players of the
    same role in the order the upstream listed them, and holds the
    players of that side and no others. *)
Lemma sortedTeam_sorted_stable (puuid : string) (side : Z) (info : Info.t) :
  let unsorted :=
    filter (fun p => PlayerView.teamId p =? side)
           (map (playerView puuid) (Info.participants info)) in
  ascending roleIndex (sortedTeam puuid side info)
  /\ (forall k, filter (has_key roleIndex k) (sortedTeam puuid side info)
                = filter (has_key roleIndex k) unsorted)
  /\ Permutation (sortedTeam puuid side info) unsorted.
Proof.
  unfold sortedTeam. repeat split.
  - apply (Array_sort_ascending _ _ _ sortByRole_key), Forall_True.
  - intros k. apply (Array_sort_stable _ _ _ sortByRole_key), Forall_True.
  - apply Array_sort_perm.
Qed.

(** A player without a listed role has the least index, so stands before
    every player with a listed one. *)
Lemma unknown_role_index (p : PlayerView.t) :
  PlayerView.role p = "unknown" -> roleIndex p = -1.
Proof.
  unfold roleIndex. intros ->. reflexivity.
Qed.

(* -------------------------------------------------------------- *)
(** *** Runs of the History Aggregator *)
(* -------------------------------------------------------------- *)

Lemma mapM_fetch_details (env : Env) (ids : list string) :
  forall (seen : list string) (tr : Trace),
    (forall matchId,
       attempts (MatchById matchId) tr = count_occ string_dec seen matchId) ->
    mapM (fun matchId => fetch (MatchById matchId)) ids env tr
    = (Returned (detail_answers env seen ids),
       tr ++ map (fun matchId => Fetch (MatchById matchId)) ids)%list.
Proof.
  induction ids as [|matchId rest IH]; intros seen tr Hinv; simpl.
  - unfold ret. now rewrite app_nil_r.
  - unfold bind at 1. unfold fetch at 1. rewrite Hinv.
    unfold bind at 1.
    rewrite (IH (seen ++ [matchId])%list).
    + unfold ret. now rewrite <- app_assoc.
    + intros other. rewrite attempts_app, count_occ_app, Hinv. f_equal.
      unfold attempts. simpl.
      destruct (string_dec matchId other) as [->|Hne].
      * now rewrite String.eqb_refl.
      * apply String.eqb_neq in Hne. now rewrite Hne.
Qed.

Lemma match_or_null_run (env : Env) (res : Response Match.t) (tr : Trace) :
  (ok res = true -> json res <> None) ->
  match_or_null res env tr = (Returned (detail_of res), tr).
Proof.
  intros Hres. unfold match_or_null, detail_of.
  destruct (ok res); simpl; [|reflexivity].
  unfold bind, json_of. destruct (json res); [reflexivity|].
  now specialize (Hres eq_refl).
Qed.

Lemma mapM_parse_details (env : Env) (answers : list (Response Match.t))
    (tr : Trace) :
  parseable answers ->
  mapM match_or_null answers env tr = (Returned (map detail_of answers), tr).
Proof.
  intros Hp. induction Hp as [|res rest Hres Hrest IH]; simpl.
  - reflexivity.
  - unfold bind at 1. rewrite (match_or_null_run env res tr Hres).
    unfold bind at 1. rewrite IH. reflexivity.
Qed.

Lemma fetch_match_details_run (env : Env) (ids seen : list string)
    (tr : Trace) :
  (forall matchId,
     attempts (MatchById matchId) tr = count_occ string_dec seen matchId) ->
  parseable (detail_answers env seen ids) ->
  fetch_match_details ids env tr
  = (Returned (map detail_of (detail_answers env seen ids)),
     tr ++ map (fun matchId => Fetch (MatchById matchId)) ids)%list.
Proof.
  intros Hinv Hp. unfold fetch_match_details, bind.
  rewrite (mapM_fetch_details env ids seen tr Hinv).
  now rewrite (mapM_parse_details env _ _ Hp).
Qed.

(** The run of the handler once the account and the identifiers are
    there: three kinds of request are sent, and the answer is decided by
    the map of step 4. *)
Lemma history_POST_run (env : Env) (req : RiotIdRequest)
    (account : Account.t) (ids : list string) :
  let gameName := field_value (req_gameName req) in
  let tagLine := field_value (req_tagLine req) in
  let accountRes := upstream env _ (AccountByRiotId gameName tagLine) 0 in
  let idsRes :=
    upstream env _
      (MatchIdsByPuuid (Account.puuid account) "start=0&count=20") 0 in
  falsy (req_gameName req) = false ->
  falsy (req_tagLine req) = false ->
  ok accountRes = true -> json accountRes = Some account ->
  ok idsRes = true -> json idsRes = Some ids ->
  parseable (detail_answers env [] ids) ->
  run (LolHistory.POST req) env
  = (Returned
       match summarise_all env (Account.puuid account) 0
               (filter_Boolean (map detail_of (detail_answers env [] ids)))
       with
       | Returned matches => NextResponse_json (Payload matches) 200
       | Thrown err =>
           NextResponse_json
             (ErrorBody "Internal server error" (Some (String_of_exn err)))
             500
       end,
     [ Fetch (AccountByRiotId gameName tagLine);
       Fetch (MatchIdsByPuuid (Account.puuid account) "start=0&count=20") ]
     ++ map (fun matchId => Fetch (MatchById matchId)) ids)%list.
Proof.
  intros gameName tagLine accountRes idsRes Hg Ht Hok Hjson Hok' Hjson' Hp.
  subst gameName tagLine accountRes idsRes.
  unfold run, LolHistory.POST. rewrite Hg, Ht. cbn [orb].
  unfold try_catch.
  rewrite bind_fetch, attempts_nil. cbv beta.
  rewrite Hok. cbn [negb app].
  rewrite (bind_json_of _ _ _ _ _ Hjson). cbv beta zeta.
  rewrite bind_fetch. cbv beta.
  change (attempts (MatchIdsByPuuid (Account.puuid account)
                                    "start=0&count=20") _)
    with 0%nat.
  rewrite Hok'. cbn [negb app].
  rewrite (bind_json_of _ _ _ _ _ Hjson'). cbv beta.
  rewrite (bind_run _ _ _ _ _ _
             (fetch_match_details_run env ids []
                [ Fetch (AccountByRiotId (field_value (req_gameName req))
                                         (field_value (req_tagLine req)));
                  Fetch (MatchIdsByPuuid (Account.puuid account)
                                         "start=0&count=20") ]
                (fun _ => eq_refl) Hp)).
  unfold bind, lift.
  destruct (summarise_all env (Account.puuid account) 0 _) as [matches|err];
    reflexivity.
Qed.

Lemma find_none_has_player (puuid : string) (match_ : Match.t) :
  has_player puuid match_ = false <->
  find (fun p => String.eqb (Participant.puuid p) puuid)
       (Info.participants (Match.info match_)) = None.
Proof.
  unfold has_player.
  induction (Info.participants (Match.info match_)) as [|p rest IH]; simpl.
  - tauto.
  - destruct (String.eqb (Participant.puuid p) puuid); simpl.
    + split; discriminate.
    + exact IH.
Qed.

Lemma summarise_returns (puuid : string) (now : Z) (match_ : Match.t) :
  has_player puuid match_ = true ->
  exists summary,
    summarise puuid now match_ = Returned summary
    /\ MatchSummary.matchId summary = Match.matchId match_.
Proof.
  intros H. unfold summarise.
  destruct (find _ _) as [participant|] eqn:E.
  - eexists. split; reflexivity.
  - apply find_none_has_player in E. congruence.
Qed.

Lemma summarise_throws (puuid : string) (now : Z) (match_ : Match.t) :
  has_player puuid match_ = false ->
  summarise puuid now match_ = Thrown (reading_undefined "win").
Proof.
  intros H. apply find_none_has_player in H. unfold summarise.
  now rewrite H.
Qed.

Lemma summarise_only_throws (puuid : string) (now : Z) (match_ : Match.t)
    (err : Exn) :
  summarise puuid now match_ = Thrown err -> err = reading_undefined "win".
Proof.
  unfold summarise. destruct (find _ _); congruence.
Qed.

(** One match without the player makes the whole map throw. *)
Lemma summarise_all_throws (env : Env) (puuid : string)
    (fetched : list Match.t) :
  forall i match_,
    In match_ fetched -> has_player puuid match_ = false ->
    summarise_all env puuid i fetched = Thrown (reading_undefined "win").
Proof.
  induction fetched as [|m rest IH]; intros i match_ Hin Hmiss.
  - contradiction.
  - simpl. destruct (summarise puuid (dateNow env i) m) as [summary|err] eqn:E.
    + destruct Hin as [->|Hin].
      * rewrite (summarise_throws _ _ _ Hmiss) in E. discriminate.
      * now rewrite (IH (S i) match_ Hin Hmiss).
    + now rewrite (summarise_only_throws _ _ _ _ E).
Qed.

(** With the player in every match, the map returns one summary per
    match, in the order of the matches. *)
Lemma summarise_all_returns (env : Env) (puuid : string)
    (fetched : list Match.t) :
  forall i,
    (forall match_, In match_ fetched -> has_player puuid match_ = true) ->
    exists matches,
      summarise_all env puuid i fetched = Returned matches
      /\ map MatchSummary.matchId matches = map Match.matchId fetched.
Proof.
  induction fetched as [|m rest IH]; intros i Hall.
  - exists []. split; reflexivity.
  - destruct (summarise_returns puuid (dateNow env i) m) as (summary & E & Eid).
    { apply Hall. now left. }
    destruct (IH (S i)) as (matches & E' & Eids).
    { intros match_ Hin. apply Hall. now right. }
    exists (summary :: matches). simpl. rewrite E, E'. split; [reflexivity|].
    simpl. now rewrite Eid, Eids.
Qed.

Lemma in_filter_Boolean {A} (a : A) (l : list (option A)) :
  In a (filter_Boolean l) <-> In (Some a) l.
Proof.
  unfold filter_Boolean. rewrite in_flat_map. split.
  - intros ([x|] & Hin & Hx); simpl in Hx; [|contradiction].
    destruct Hx as [->|[]]. exact Hin.
  - intros Hin. exists (Some a). split; [exact Hin | now left].
Qed.

(** C2 (as the code behaves): each side is in ascending order of the
    position of the role in [roleOrder] and the sort is stable, but a role
    that is not listed has position [-1], the result of [indexOf], so a
    player whose role is ["unknown"] comes FIRST, not last: a side the
    upstream lists as support, top, unknown, jungle is returned as
    unknown, top, jungle, support. *)
Theorem C2_unknown_role_sorts_first :
  (forall puuid side info,
     ascending roleIndex (sortedTeam puuid side info)
     /\ forall k,
          filter (has_key roleIndex k) (sortedTeam puuid side info)
          = filter (has_key roleIndex k)
              (filter (fun p => PlayerView.teamId p =? side)
                      (map (playerView puuid) (Info.participants info))))
  /\ (forall p, PlayerView.role p = "unknown" -> roleIndex p = -1)
  /\ (forall p, In (PlayerView.role p) roleOrder -> 0 <= roleIndex p)
  /\ map PlayerView.role
         (sortedTeam Sample.me 100 (Match.info Sample.positions_astray))
     = ["unknown"; "top"; "jungle"; "support"].
Proof.
  split; [|split; [|split]].
  - intros puuid side info. split; apply sortedTeam_sorted_stable.
  - apply unknown_role_index.
  - unfold roleIndex. intros p Hin. unfold roleOrder in Hin at 1.
    cbn [In] in Hin.
    repeat (destruct Hin as [<-|Hin]; [vm_compute; discriminate|]).
    contradiction.
  - vm_compute. reflexivity.
Qed.

(** C3 (amended): in the History Aggregator an account lookup that
    returns any non-success status, the rate-limit status 429 included,
    ends the request with the NotFound answer (HTTP 404, "Account not
    found") after that single upstream call: nothing is retried and
    nothing else is requested. *)
Theorem C3_history_lookup_failure_is_not_found (env : Env)
    (req : RiotIdRequest) :
  let lookup :=
    AccountByRiotId (field_value (req_gameName req))
                    (field_value (req_tagLine req)) in
  falsy (req_gameName req) = false ->
  falsy (req_tagLine req) = false ->
  ok (upstream env _ lookup 0) = false ->
  run (LolHistory.POST req) env
  = (Returned (NextResponse_json (ErrorBody "Account not found" None) 404),
     [Fetch lookup]).
Proof.
  intros lookup Hg Ht Hfail. subst lookup.
  unfold run, LolHistory.POST. rewrite Hg, Ht. cbn [orb].
  unfold try_catch. rewrite bind_fetch, attempts_nil. cbv beta.
  rewrite Hfail. reflexivity.
Qed.

(** C5: when the account and the identifiers are there and one fetched
    match does not list the requesting player, the handler answers
    HTTP 500 "Internal server error": reading [win] of the participant
    that was not found throws inside the map and the outer handler
    catches it; no match list is returned. *)
Theorem C5_match_without_player_fails_request (env : Env)
    (req : RiotIdRequest) (account : Account.t) (ids : list string)
    (matchRes : Response Match.t) (match_ : Match.t) :
  let gameName := field_value (req_gameName req) in
  let tagLine := field_value (req_tagLine req) in
  let accountRes := upstream env _ (AccountByRiotId gameName tagLine) 0 in
  let idsRes :=
    upstream env _
      (MatchIdsByPuuid (Account.puuid account) "start=0&count=20") 0 in
  falsy (req_gameName req) = false ->
  falsy (req_tagLine req) = false ->
  ok accountRes = true -> json accountRes = Some account ->
  ok idsRes = true -> json idsRes = Some ids ->
  parseable (detail_answers env [] ids) ->
  In matchRes (detail_answers env [] ids) ->
  ok matchRes = true -> json matchRes = Some match_ ->
  has_player (Account.puuid account) match_ = false ->
  fst (run (LolHistory.POST req) env)
  = Returned
      (NextResponse_json
         (ErrorBody "Internal server error"
            (Some "TypeError: Cannot read properties of undefined (reading 'win')"))
         500).
Proof.
  intros gameName tagLine accountRes idsRes Hg Ht Hok Hjson Hok' Hjson' Hp
         Hin Hres Hbody Hmiss.
  rewrite (history_POST_run env req account ids Hg Ht Hok Hjson Hok' Hjson' Hp).
  cbn [fst].
  rewrite (summarise_all_throws env _ _ 0 match_); [reflexivity | | exact Hmiss].
  apply in_filter_Boolean, in_map_iff. exists matchRes. split; [|exact Hin].
  unfold detail_of. now rewrite Hres.
Qed.

(** C7: the detail requests are sent for all identifiers in the order of
    the upstream list; a match whose request fails is left out and the
    others are returned, one summary per fetched match in that same
    order, without any further sorting (provided every fetched match
    lists the player; a match that does not makes the request fail). *)
Theorem C7_failed_details_are_dropped (env : Env) (req : RiotIdRequest)
    (account : Account.t) (ids : list string) :
  let gameName := field_value (req_gameName req) in
  let tagLine := field_value (req_tagLine req) in
  let accountRes := upstream env _ (AccountByRiotId gameName tagLine) 0 in
  let idsRes :=
    upstream env _
      (MatchIdsByPuuid (Account.puuid account) "start=0&count=20") 0 in
  let answers := detail_answers env [] ids in
  let fetched := filter_Boolean (map detail_of answers) in
  falsy (req_gameName req) = false ->
  falsy (req_tagLine req) = false ->
  ok accountRes = true -> json accountRes = Some account ->
  ok idsRes = true -> json idsRes = Some ids ->
  parseable answers ->
  (forall match_, In match_ fetched ->
     has_player (Account.puuid account) match_ = true) ->
  exists matches,
    run (LolHistory.POST req) env
    = (Returned (NextResponse_json (Payload matches) 200),
       [ Fetch (AccountByRiotId gameName tagLine);
         Fetch (MatchIdsByPuuid (Account.puuid account) "start=0&count=20") ]
       ++ map (fun matchId => Fetch (MatchById matchId)) ids)%list
    /\ summarise_all env (Account.puuid account) 0 fetched = Returned matches
    /\ map MatchSummary.matchId matches = map Match.matchId fetched
    /\ List.length matches = List.length (filter ok answers)
    /\ List.length answers = List.length ids.
Proof.
  intros gameName tagLine accountRes idsRes answers fetched
         Hg Ht Hok Hjson Hok' Hjson' Hp Hall.
  destruct (summarise_all_returns env (Account.puuid account) fetched 0 Hall)
    as (matches & E & Eids).
  exists matches. repeat split.
  - rewrite (history_POST_run env req account ids Hg Ht Hok Hjson Hok' Hjson'
               Hp).
    fold answers fetched. now rewrite E.
  - exact E.
  - exact Eids.
  - rewrite <- (length_map MatchSummary.matchId), Eids, length_map.
    subst fetched. clear - Hp. induction Hp as [|res rest Hres _ IH]; simpl.
    + reflexivity.
    + unfold detail_of at 1. destruct (ok res) eqn:Eok; simpl.
      * destruct (json res); [simpl; now rewrite IH | now specialize (Hres eq_refl)].
      * exact IH.
  - subst answers. clear. generalize (@nil string).
    induction ids as [|matchId rest IH]; intros seen; simpl;
      [reflexivity | now rewrite IH].
Qed.

(** C9: in every summary the handler builds, [isRemake] is true exactly
    when the match lasted less than 180 seconds, or its game mode is
    PRACTICETOOL (practice tool) or TUTORIAL (tutorial), or its game type
    is CUSTOM_GAME (custom game); the player's result plays no part. *)
Theorem C9_isRemake_iff (puuid : string) (now : Z) (match_ : Match.t)
    (summary : MatchSummary.t) :
  summarise puuid now match_ = Returned summary ->
  (MatchSummary.isRemake summary = true <->
   Info.gameDuration (Match.info match_) < 180
   \/ Info.gameMode (Match.info match_) = "PRACTICETOOL"
   \/ Info.gameType (Match.info match_) = "CUSTOM_GAME"
   \/ Info.gameMode (Match.info match_) = "TUTORIAL").
Proof.
  unfold summarise. destruct (find _ _) as [participant|]; [|discriminate].
  intros E. injection E as <-. cbn [MatchSummary.isRemake]. unfold isRemake.
  rewrite !orb_true_iff, Z.ltb_lt, !String.eqb_eq. tauto.
Qed.

(* -------------------------------------------------------------- *)
(** *** Runs of the Match Detail Fetcher *)
(* -------------------------------------------------------------- *)

(** C8: when the match is fetched, the player is in it and the timeline
    request fails, the handler still answers 200; [playerTimeline] is
    empty and [playerStats], [teamObjectives] and [matchInfo] are built
    from the match as they always are. *)
Theorem C8_timeline_failure_gives_empty_timeline (env : Env)
    (req : DetailsRequest) (matchData : Match.t)
    (currentPlayer : Participant.t) :
  let matchId := field_value (dr_matchId req) in
  let puuid := field_value (dr_puuid req) in
  let info := Match.info matchData in
  falsy (dr_matchId req) = false ->
  falsy (dr_puuid req) = false ->
  ok (upstream env _ (MatchById matchId) 0) = true ->
  json (upstream env _ (MatchById matchId) 0) = Some matchData ->
  ok (upstream env _ (TimelineById matchId) 0) = false ->
  find (fun p => String.eqb (Participant.puuid p) puuid)
       (Info.participants info) = Some currentPlayer ->
  run (LolMatchDetails.POST req) env
  = (Returned
       (NextResponse_json
          (Payload {| playerStats := playerStats_of info currentPlayer;
                      playerTimeline := [];
                      teamObjectives := teamObjectives_of info;
                      matchInfo := matchInfo_of info |})
          200),
     [Fetch (MatchById matchId); Fetch (TimelineById matchId)]).
Proof.
  intros matchId puuid info Hm Hp Hok Hjson Hfail Hfind.
  subst matchId puuid info.
  unfold run, LolMatchDetails.POST. rewrite Hm, Hp. cbn [orb].
  unfold try_catch. rewrite bind_fetch, attempts_nil. cbv beta.
  rewrite Hok. cbn [negb app].
  rewrite (bind_json_of _ _ _ _ _ Hjson). cbv beta.
  rewrite bind_fetch. cbv beta.
  change (attempts (TimelineById (field_value (dr_matchId req))) _)
    with 0%nat.
  rewrite Hfail, bind_ret. cbv beta zeta.
  rewrite Hfind. reflexivity.
Qed.

(* -------------------------------------------------------------- *)
(** *** Runs of the Stats Aggregator *)
(* -------------------------------------------------------------- *)

Lemma rate_limited_not_ok {A} (res : Response A) :
  status res = 429 -> ok res = false.
Proof.
  unfold ok. intros ->. reflexivity.
Qed.

Lemma ok_not_rate_limited {A} (res : Response A) :
  ok res = true -> status res <> 429.
Proof.
  intros Hok E. rewrite (rate_limited_not_ok res E) in Hok. discriminate.
Qed.

(** The account lookup, rate-limited through all its four requests, is
    answered with HTTP 429. *)
Lemma stats_account_rate_limit_surfaces (env : Env) (req : RiotIdRequest) :
  let lookup :=
    AccountByRiotId (field_value (req_gameName req))
                    (field_value (req_tagLine req)) in
  falsy (req_gameName req) = false ->
  falsy (req_tagLine req) = false ->
  (forall i, (i < 4)%nat -> status (upstream env _ lookup i) = 429) ->
  fst (run (LolPlayerStats.POST req) env)
  = Returned
      (NextResponse_json
         (ErrorBody "Rate limit exceeded. Please wait a moment and try again."
                    (Some (status_details (upstream env _ lookup 3))))
         429).
Proof.
  intros lookup Hg Ht Hlim. subst lookup.
  unfold run, LolPlayerStats.POST. rewrite Hg, Ht. cbn [orb]. unfold try_catch.
  unfold fetchWithRetry, maxRetries_default.
  rewrite (bind_run _ _ _ _ _ _
             (fetchWithRetry_from_run _ env 3 3 1 [] (Nat.le_refl 3)
                (fun i Hi => Hlim i ltac:(simpl; lia))
                (fun H => False_ind _ (Nat.lt_irrefl 3 H)))).
  cbv beta. rewrite attempts_nil. cbn [Nat.add].
  rewrite (rate_limited_not_ok _ (Hlim 3%nat ltac:(lia))). cbn [negb].
  rewrite (Hlim 3%nat ltac:(lia)). reflexivity.
Qed.

(** C4 (as the code behaves): with the account found and the summoner
    lookup rate-limited through all four requests of the retry wrapper,
    the handler answers HTTP 404 "Summoner not found"; the status 429 is
    not looked at on this path, unlike on the account lookup (lines
    93-101). *)
Theorem C4_summoner_rate_limit_is_answered_not_found (env : Env)
    (req : RiotIdRequest) (account : Account.t) :
  let lookup :=
    AccountByRiotId (field_value (req_gameName req))
                    (field_value (req_tagLine req)) in
  let summoner := SummonerByPuuid (Account.puuid account) in
  falsy (req_gameName req) = false ->
  falsy (req_tagLine req) = false ->
  ok (upstream env _ lookup 0) = true ->
  json (upstream env _ lookup 0) = Some account ->
  (forall i, (i < 4)%nat -> status (upstream env _ summoner i) = 429) ->
  run (LolPlayerStats.POST req) env
  = (Returned (NextResponse_json (ErrorBody "Summoner not found" None) 404),
     [ Fetch lookup;
       Fetch summoner; Wait 2000;
       Fetch summoner; Wait 4000;
       Fetch summoner; Wait 6000;
       Fetch summoner ]).
Proof.
  intros lookup summoner Hg Ht Hok Hjson Hlim. subst lookup summoner.
  unfold run, LolPlayerStats.POST. rewrite Hg, Ht. cbn [orb]. unfold try_catch.
  unfold fetchWithRetry, maxRetries_default.
  rewrite (bind_run _ _ _ _ _ _
             (fetchWithRetry_from_run _ env 3 0 1 [] ltac:(lia)
                (fun i Hi => False_ind _ (Nat.nlt_0_r i Hi))
                (fun _ => ok_not_rate_limited _ Hok))).
  cbv beta. rewrite attempts_nil. cbn [Nat.add].
  rewrite Hok. cbn [negb].
  rewrite (bind_json_of _ _ _ _ _ Hjson). cbv beta zeta.
  cbn [rate_limited_rounds app].
  rewrite (bind_run _ _ _ _ _ _
             (fetchWithRetry_from_run
                (SummonerByPuuid (Account.puuid account)) env 3 3 1
                [Fetch (AccountByRiotId (field_value (req_gameName req))
                                        (field_value (req_tagLine req)))]
                (Nat.le_refl 3)
                (fun i Hi => Hlim i ltac:(simpl; lia))
                (fun H => False_ind _ (Nat.lt_irrefl 3 H)))).
  cbv beta.
  change (attempts (SummonerByPuuid (Account.puuid account)) _) with 0%nat.
  cbn [Nat.add].
  rewrite (rate_limited_not_ok _ (Hlim 3%nat ltac:(lia))). reflexivity.
Qed.

(* -------------------------------------------------------------- *)
(** *** Integers as binary64 values, and the KDA ratio *)
(* -------------------------------------------------------------- *)

Lemma digits2_pos_iter_xO (p q : positive) :
  digits2_pos (Pos.iter xO p q) = (digits2_pos p + q)%positive.
Proof.
  induction q as [|q IH] using Pos.peano_ind.
  - simpl. lia.
  - rewrite Pos.iter_succ. simpl. rewrite IH. lia.
Qed.

Lemma digits2_pos_lower (p : positive) :
  2 ^ (Zpos (digits2_pos p) - 1) <= Zpos p.
Proof.
  induction p as [p IH|p IH|]; simpl digits2_pos.
  - rewrite Pos2Z.inj_succ.
    replace (Z.succ (Zpos (digits2_pos p)) - 1)
      with (Z.succ (Zpos (digits2_pos p) - 1)) by lia.
    rewrite Z.pow_succ_r by lia. lia.
  - rewrite Pos2Z.inj_succ.
    replace (Z.succ (Zpos (digits2_pos p)) - 1)
      with (Z.succ (Zpos (digits2_pos p) - 1)) by lia.
    rewrite Z.pow_succ_r by lia. lia.
  - simpl. lia.
Qed.

Lemma digits2_pos_safe (p : positive) :
  Zpos p < 2 ^ 53 -> Zpos (digits2_pos p) <= 53.
Proof.
  intros Hp. destruct (Z_le_gt_dec (Zpos (digits2_pos p)) 53) as [H|H];
    [exact H|].
  pose proof (digits2_pos_lower p) as Hl.
  assert (2 ^ 53 <= 2 ^ (Zpos (digits2_pos p) - 1))
    by (apply Z.pow_le_mono_r; lia).
  lia.
Qed.

(** A mantissa of 53 bits with an exponent in range needs no rounding. *)
Lemma binary_round_aux_exact (m : positive) (e : Z) :
  Zpos (digits2_pos m) = 53 -> -1021 <= e <= 971 ->
  binary_round_aux JS.prec JS.emax false (Zpos m) e loc_Exact
  = S754_finite false m e.
Proof.
  intros Hd He.
  unfold binary_round_aux, shr_fexp, fexp, emin, JS.prec, JS.emax.
  cbn [Zdigits2 shr_record_of_loc]. rewrite Hd.
  replace (Z.max (53 + e - 53) (3 - 1024 - 53) - e) with 0 by lia.
  cbn [shr loc_of_shr_record shr_m round_nearest_even Zdigits2
       shr_record_of_loc].
  rewrite Hd.
  replace (Z.max (53 + e - 53) (3 - 1024 - 53) - e) with 0 by lia.
  cbn [shr shr_m].
  replace (e <=? 1024 - 53) with true by (symmetry; apply Z.leb_le; lia).
  reflexivity.
Qed.

(** A positive integer of at most 53 bits is a binary64 value as it
    stands: its bits, shifted to the top of the mantissa. *)
Lemma of_Z_exact (p : positive) :
  Zpos (digits2_pos p) <= 53 ->
  JS.of_Z (Zpos p)
  = S754_finite false
      (match (53 - Zpos (digits2_pos p))%Z with
       | Zpos q => Pos.iter xO p q
       | _ => p
       end)
      (Zpos (digits2_pos p) - 53).
Proof.
  intros Hd. unfold JS.of_Z, binary_normalize, binary_round, shl_align.
  unfold fexp, emin, JS.prec, JS.emax.
  replace (Z.max (Z.pos (digits2_pos p) + 0 - 53) (3 - 1024 - 53))
    with (Zpos (digits2_pos p) - 53) by lia.
  destruct (53 - Zpos (digits2_pos p)) as [|q|q] eqn:E.
  - replace (Zpos (digits2_pos p) - 53 - 0) with 0 by lia.
    replace (Zpos (digits2_pos p) - 53) with 0 by lia.
    apply binary_round_aux_exact; lia.
  - replace (Zpos (digits2_pos p) - 53 - 0) with (Zneg q) by lia.
    apply binary_round_aux_exact; [|lia].
    rewrite digits2_pos_iter_xO. lia.
  - lia.
Qed.

Lemma of_Z_finite (z : Z) :
  0 < z < 2 ^ 53 -> exists m e, JS.of_Z z = S754_finite false m e.
Proof.
  intros Hz. destruct z as [|p|p]; try lia.
  rewrite (of_Z_exact p) by (apply digits2_pos_safe; lia).
  eauto.
Qed.

Lemma shr_1_nonneg (mrs : shr_record) :
  0 <= shr_m mrs -> 0 <= shr_m (shr_1 mrs).
Proof.
  destruct mrs as [m r s]. cbn [shr_m].
  destruct m as [|[p|p|]|[p|p|]]; intros H; cbn [shr_1 shr_m]; lia.
Qed.

Lemma iter_shr_1_nonneg (n : positive) :
  forall mrs, 0 <= shr_m mrs -> 0 <= shr_m (iter_pos shr_1 n mrs).
Proof.
  induction n as [n IH|n IH|]; intros mrs H; simpl.
  - apply IH, IH, shr_1_nonneg, H.
  - apply IH, IH, H.
  - apply shr_1_nonneg, H.
Qed.

Lemma shr_fexp_nonneg (m e : Z) (l : location) :
  0 <= m -> 0 <= shr_m (fst (shr_fexp JS.prec JS.emax m e l)).
Proof.
  intros Hm. unfold shr_fexp, shr.
  assert (H0 : 0 <= shr_m (shr_record_of_loc m l))
    by (destruct l as [|[ | | ]]; exact Hm).
  destruct (fexp JS.prec JS.emax (Zdigits2 m + e) - e) as [|n|n]; simpl;
    auto using iter_shr_1_nonneg.
Qed.

(** Rounding a non-negative mantissa never yields NaN. *)
Lemma binary_round_aux_not_nan (s : bool) (m e : Z) (l : location) :
  0 <= m ->
  JS.is_nan (binary_round_aux JS.prec JS.emax s m e l) = false.
Proof.
  intros Hm. unfold binary_round_aux.
  pose proof (shr_fexp_nonneg m e l Hm) as H1.
  destruct (shr_fexp JS.prec JS.emax m e l) as [mrs' e']. simpl in H1.
  assert (H2 : 0 <= round_nearest_even (shr_m mrs') (loc_of_shr_record mrs')).
  { unfold round_nearest_even.
    destruct (loc_of_shr_record mrs') as [|[ | | ]];
      try destruct (Z.even (shr_m mrs')); lia. }
  pose proof (shr_fexp_nonneg _ e' loc_Exact H2) as H3.
  destruct (shr_fexp JS.prec JS.emax _ e' loc_Exact) as [mrs'' e''].
  simpl in H3. destruct (shr_m mrs'') as [|q|q]; try reflexivity.
  - now destruct (e'' <=? JS.emax - JS.prec).
  - lia.
Qed.

(** The quotient of two finite positive values is not NaN. *)
Lemma div_finite_not_nan (m1 m2 : positive) (e1 e2 : Z) :
  JS.is_nan (JS.div (S754_finite false m1 e1) (S754_finite false m2 e2))
  = false.
Proof.
  unfold JS.div, SFdiv, SFdiv_core_binary.
  set (shift := (e1 - e2 - _)%Z).
  set (m' := match shift with
             | Zpos _ => Z.shiftl (Zpos m1) shift
             | Z0 => Zpos m1
             | Zneg _ => 0
             end).
  assert (Hm' : 0 <= m').
  { subst m'. destruct shift; try lia. apply Z.shiftl_nonneg. lia. }
  pose proof (Z_div_mod m' (Zpos m2) ltac:(lia)) as Hdiv.
  destruct (Z.div_eucl m' (Zpos m2)) as [q r].
  apply binary_round_aux_not_nan. nia.
Qed.

(** C10: for non-negative integers [kills], [assists], [deaths] that a
    JavaScript number holds exactly, the KDA string is
    [(kills + assists) / max(deaths, 1)] in two decimals; the divisor is
    at least 1, a finite non-zero number, so the quotient is never the NaN
    of a division by zero; and kills 5, assists 7, deaths 0 give
    ["12.00"]. *)
Theorem C10_kda_ratio (kills assists deaths : Z) :
  0 <= kills -> 0 <= assists -> 0 <= deaths ->
  kills + assists < 2 ^ 53 -> deaths < 2 ^ 53 ->
  let ratio :=
    JS.div (JS.of_Z (kills + assists)) (JS.of_Z (Z.max deaths 1)) in
  kda kills assists deaths = JS.toFixed 2 ratio
  /\ 1 <= Z.max deaths 1
  /\ (exists m e, JS.of_Z (Z.max deaths 1) = S754_finite false m e)
  /\ JS.is_nan ratio = false
  /\ kda 5 7 0 = "12.00".
Proof.
  intros Hk Ha Hd Hsum Hdeaths ratio. subst ratio.
  destruct (of_Z_finite (Z.max deaths 1) ltac:(lia)) as (m2 & e2 & E2).
  unfold kda. rewrite !E2.
  destruct (0 <? kills + assists) eqn:Epos.
  - apply Z.ltb_lt in Epos.
    destruct (of_Z_finite (kills + assists) ltac:(lia)) as (m1 & e1 & E1).
    rewrite E1.
    split; [reflexivity|]. split; [lia|]. split; [eauto|].
    split; [apply div_finite_not_nan | vm_compute; reflexivity].
  - apply Z.ltb_ge in Epos.
    replace (kills + assists) with 0 by lia.
    split; [vm_compute; reflexivity|]. split; [lia|]. split; [eauto|].
    split; vm_compute; reflexivity.
Qed.

(* -------------------------------------------------------------- *)
(** *** Division of integers in binary64, and [Math.round] of it *)
(* -------------------------------------------------------------- *)

Lemma digits2_pos_upper (p : positive) :
  Zpos p < 2 ^ Zpos (digits2_pos p).
Proof.
  induction p as [p IH|p IH|]; simpl digits2_pos.
  - rewrite Pos2Z.inj_succ, Z.pow_succ_r by lia. lia.
  - rewrite Pos2Z.inj_succ, Z.pow_succ_r by lia. lia.
  - simpl. lia.
Qed.

Lemma digits2_pos_eq (p : positive) (d : Z) :
  2 ^ (d - 1) <= Zpos p < 2 ^ d -> Zpos (digits2_pos p) = d.
Proof.
  intros [Hlo Hhi].
  pose proof (digits2_pos_lower p) as Hl.
  pose proof (digits2_pos_upper p) as Hu.
  assert (Hd : 0 < d).
  { destruct (Z_lt_le_dec 0 d) as [H|H]; [exact H|].
    assert (2 ^ d <= 1).
    { destruct (Z.eq_dec d 0) as [->|]; [simpl; lia|].
      rewrite Z.pow_neg_r by lia. lia. }
    lia. }
  destruct (Z.lt_trichotomy (Zpos (digits2_pos p)) d) as [H|[H|H]].
  - assert (2 ^ Zpos (digits2_pos p) <= 2 ^ (d - 1))
      by (apply Z.pow_le_mono_r; lia). lia.
  - exact H.
  - assert (2 ^ d <= 2 ^ (Zpos (digits2_pos p) - 1))
      by (apply Z.pow_le_mono_r; lia). lia.
Qed.

Lemma loc_of_shr_record_of_loc (m : Z) (l : location) :
  loc_of_shr_record (shr_record_of_loc m l) = l.
Proof. destruct l as [|[ | | ]]; reflexivity. Qed.

Lemma shr_m_of_loc (m : Z) (l : location) :
  shr_m (shr_record_of_loc m l) = m.
Proof. destruct l as [|[ | | ]]; reflexivity. Qed.

(** Second rounding step: a mantissa of 53 bits or exactly 2^53. *)
Lemma shr_fexp_53 (m : positive) (e : Z) :
  -1000 <= e <= 950 ->
  2 ^ 52 <= Zpos m <= 2 ^ 53 ->
  exists M E,
    shr_fexp JS.prec JS.emax (Zpos m) e loc_Exact
    = ({| shr_m := Zpos M; shr_r := false; shr_s := false |}, E)
    /\ e <= E <= e + 1
    /\ Zpos M * 2 ^ (E - e) = Zpos m.
Proof.
  intros He Hm.
  destruct (Z.eq_dec (Zpos m) (2 ^ 53)) as [E53|Hne].
  - injection E53 as ->.
    exists (4503599627370496%positive), (e + 1).
    split; [|split; [lia|]].
    + unfold shr_fexp, fexp, emin, JS.prec, JS.emax.
      cbn [Zdigits2 digits2_pos Pos.succ shr_record_of_loc].
      replace (Z.max (54 + e - 53) (3 - 1024 - 53) - e) with 1 by lia.
      reflexivity.
    + replace (e + 1 - e) with 1 by lia. reflexivity.
  - exists m, e. split; [|split; [lia|]].
    + unfold shr_fexp, fexp, emin, JS.prec, JS.emax.
      cbn [Zdigits2 shr_record_of_loc].
      rewrite (digits2_pos_eq m 53) by (simpl Z.sub; lia).
      replace (Z.max (53 + e - 53) (3 - 1024 - 53) - e) with 0 by lia.
      reflexivity.
    + replace (e - e) with 0 by lia. simpl. lia.
Qed.

Lemma round_nearest_even_range (m : Z) (l : location) :
  m <= round_nearest_even m l <= m + 1.
Proof.
  destruct l as [|[ | | ]]; simpl; try destruct (Z.even m); lia.
Qed.

Lemma pow2_split (E e : Z) :
  e + 1 <= E -> 2 ^ (E - e) = 2 * 2 ^ (E - (e + 1)).
Proof.
  intros H. replace (E - e) with (Z.succ (E - (e + 1))) by lia.
  rewrite Z.pow_succ_r by lia. reflexivity.
Qed.

Lemma binary_round_aux_near (q : positive) (e : Z) (l : location) :
  2 ^ 52 <= Zpos q < 2 ^ 54 -> -1000 <= e <= 900 ->
  exists M E,
    binary_round_aux JS.prec JS.emax false (Zpos q) e l
    = S754_finite false M E
    /\ e <= E <= e + 2
    /\ Zpos q - 1 <= Zpos M * 2 ^ (E - e) <= Zpos q + 2
    /\ (l = loc_Exact -> Z.even (Zpos q) = true ->
        Zpos M * 2 ^ (E - e) = Zpos q).
Proof.
  intros Hq He. unfold binary_round_aux.
  destruct (Z_lt_le_dec (Zpos q) (2 ^ 53)) as [H53|H54].
  - (* 53 bits: nothing is shifted out *)
    assert (Es : shr_fexp JS.prec JS.emax (Zpos q) e l
                 = (shr_record_of_loc (Zpos q) l, e)).
    { unfold shr_fexp, fexp, emin, JS.prec, JS.emax. cbn [Zdigits2].
      rewrite (digits2_pos_eq q 53) by (simpl Z.sub; lia).
      replace (Z.max (53 + e - 53) (3 - 1024 - 53) - e) with 0 by lia.
      reflexivity. }
    rewrite Es, shr_m_of_loc, loc_of_shr_record_of_loc.
    pose proof (round_nearest_even_range (Zpos q) l) as Hr.
    destruct (round_nearest_even (Zpos q) l) as [|m2|m2] eqn:Em2; try lia.
    destruct (shr_fexp_53 m2 e ltac:(lia) ltac:(lia)) as (M & E & Hs & HE & HM).
    rewrite Hs. cbn [shr_m].
    replace (E <=? JS.emax - JS.prec) with true
      by (symmetry; apply Z.leb_le; unfold JS.emax, JS.prec; lia).
    exists M, E. split; [reflexivity|]. split; [lia|]. split; [lia|].
    intros -> _. simpl in Em2. lia.
  - (* 54 bits: one bit is shifted out *)
    assert (Es : shr_fexp JS.prec JS.emax (Zpos q) e l
                 = (shr_1 (shr_record_of_loc (Zpos q) l), e + 1)).
    { unfold shr_fexp, fexp, emin, JS.prec, JS.emax. cbn [Zdigits2].
      rewrite (digits2_pos_eq q 54) by (simpl Z.sub; lia).
      replace (Z.max (54 + e - 53) (3 - 1024 - 53) - e) with 1 by lia.
      reflexivity. }
    rewrite Es.
    assert (Hhalf : exists q' r s,
               shr_1 (shr_record_of_loc (Zpos q) l)
               = {| shr_m := Zpos q'; shr_r := r; shr_s := s |}
               /\ 2 * Zpos q' <= Zpos q <= 2 * Zpos q' + 1
               /\ (l = loc_Exact -> Z.even (Zpos q) = true ->
                   r = false /\ s = false /\ Zpos q = 2 * Zpos q')).
    { destruct q as [q'|q'|]; [| |lia].
      - exists q'. destruct l as [|[ | | ]]; simpl;
          (eexists _, _; split; [reflexivity|]; split; [lia|];
           intros; discriminate).
      - exists q'. destruct l as [|[ | | ]]; simpl;
          (eexists _, _; split; [reflexivity|]; split; [lia|]);
          intros; try discriminate; auto. }
    destruct Hhalf as (q' & r & s & -> & Hq' & Hexact).
    cbn [shr_m].
    pose proof (round_nearest_even_range (Zpos q')
                  (loc_of_shr_record
                     {| shr_m := Zpos q'; shr_r := r; shr_s := s |})) as Hr.
    destruct (round_nearest_even (Zpos q') _) as [|m2|m2] eqn:Em2; try lia.
    destruct (shr_fexp_53 m2 (e + 1) ltac:(lia) ltac:(lia))
      as (M & E & Hs & HE & HM).
    rewrite Hs. cbn [shr_m].
    replace (E <=? JS.emax - JS.prec) with true
      by (symmetry; apply Z.leb_le; unfold JS.emax, JS.prec; lia).
    exists M, E. split; [reflexivity|]. split; [lia|].
    rewrite (pow2_split E e) by lia.
    split; [lia|].
    intros Hl Hev. destruct (Hexact Hl Hev) as (-> & -> & Eq).
    simpl in Em2. lia.
Qed.

Lemma iter_xO_value (p a : positive) :
  Zpos (Pos.iter xO p a) = Zpos p * 2 ^ Zpos a.
Proof.
  induction a as [|a IH] using Pos.peano_ind.
  - simpl. lia.
  - rewrite Pos.iter_succ, Pos2Z.inj_xO, IH, Pos2Z.inj_succ.
    rewrite Z.pow_succ_r by lia. lia.
Qed.

Lemma digits2_pos_bound (p : positive) (n : Z) :
  0 <= n -> Zpos p < 2 ^ n -> Zpos (digits2_pos p) <= n.
Proof.
  intros Hn Hp.
  destruct (Z_le_gt_dec (Zpos (digits2_pos p)) n) as [H|H]; [exact H|].
  pose proof (digits2_pos_lower p) as Hl.
  assert (2 ^ n <= 2 ^ (Zpos (digits2_pos p) - 1))
    by (apply Z.pow_le_mono_r; lia).
  lia.
Qed.

(** The binary64 value of a positive integer of at most 53 bits: a
    mantissa of exactly 53 bits. *)
Lemma of_Z_normal (p : positive) :
  Zpos (digits2_pos p) <= 53 ->
  exists m,
    JS.of_Z (Zpos p) = S754_finite false m (Zpos (digits2_pos p) - 53)
    /\ Zpos m = Zpos p * 2 ^ (53 - Zpos (digits2_pos p))
    /\ 2 ^ 52 <= Zpos m < 2 ^ 53.
Proof.
  intros Hd. rewrite (of_Z_exact p Hd).
  pose proof (digits2_pos_lower p) as Hl.
  pose proof (digits2_pos_upper p) as Hu.
  set (d := Zpos (digits2_pos p)) in *.
  assert (Hpow : 2 ^ (d - 1) * 2 ^ (53 - d) = 2 ^ 52).
  { rewrite <- Z.pow_add_r by lia. f_equal. lia. }
  assert (Hpow' : 2 ^ d * 2 ^ (53 - d) = 2 ^ 53).
  { rewrite <- Z.pow_add_r by lia. f_equal. lia. }
  assert (Hs : 0 < 2 ^ (53 - d)) by (apply Z.pow_pos_nonneg; lia).
  eexists. split; [reflexivity|].
  assert (Ev : Zpos match (53 - d)%Z with
                    | Zpos a => Pos.iter xO p a
                    | _ => p
                    end = Zpos p * 2 ^ (53 - d)).
  { destruct (53 - d) as [|a|a] eqn:E.
    - now rewrite Z.pow_0_r, Z.mul_1_r.
    - apply iter_xO_value.
    - lia. }
  split; [exact Ev|]. rewrite Ev. nia.
Qed.

Lemma new_location_exact (steps : Z) : new_location steps 0 = loc_Exact.
Proof.
  unfold new_location, new_location_even, new_location_odd.
  now destruct (Z.even steps).
Qed.

(** The core of the division on two mantissas of 53 bits. *)
Lemma SFdiv_core_normal (m1 m2 : positive) (e1 e2 : Z) :
  2 ^ 52 <= Zpos m1 < 2 ^ 53 -> 2 ^ 52 <= Zpos m2 < 2 ^ 53 ->
  -900 <= e1 - e2 <= 900 ->
  SFdiv_core_binary JS.prec JS.emax (Zpos m1) e1 (Zpos m2) e2
  = (Zpos m1 * 2 ^ 53 / Zpos m2, e1 - e2 - 53,
     new_location (Zpos m2) ((Zpos m1 * 2 ^ 53) mod Zpos m2)).
Proof.
  intros H1 H2 He.
  unfold SFdiv_core_binary, fexp, emin, JS.prec, JS.emax. cbn [Zdigits2].
  rewrite (digits2_pos_eq m1 53), (digits2_pos_eq m2 53)
    by (simpl Z.sub; lia).
  replace (Z.min (Z.max (53 + e1 - (53 + e2) - 53) (3 - 1024 - 53)) (e1 - e2))
    with (e1 - e2 - 53) by lia.
  replace (e1 - e2 - (e1 - e2 - 53)) with 53 by lia.
  rewrite Z.shiftl_mul_pow2 by lia.
  unfold Z.div, Z.modulo.
  now destruct (Z.div_eucl (Zpos m1 * 2 ^ 53) (Zpos m2)).
Qed.
Lemma round_agree (D g q N P4 : Z) :
  0 <= D -> 1 <= g <= 10 -> 16 <= P4 ->
  let P := 8 * P4 in
  q * g <= D * P < q * g + g ->
  q - 1 <= N <= q + 2 ->
  (q * g = D * P -> Z.even q = true -> N = q) ->
  (2 * N + P) / (2 * P) = (2 * D + g) / (2 * g).
Proof.
  intros HD Hg HP4 P Hq HN Hexact.
  set (R := (2 * D + g) / (2 * g)).
  assert (HR : 2 * g * R <= 2 * D + g < 2 * g * R + 2 * g).
  { pose proof (Z.div_mod (2 * D + g) (2 * g) ltac:(lia)) as E.
    pose proof (Z.mod_pos_bound (2 * D + g) (2 * g) ltac:(lia)) as B.
    fold R in E. lia. }
  symmetry. apply (Z.div_unique _ _ R (2 * N + P - 2 * P * R)); [|lia].
  left. split.
  - (* lower bound *)
    destruct (Z.eq_dec (2 * D + g) (2 * g * R)) as [Etie|Hne].
    + assert (EDP : D * P = (2 * R - 1) * (4 * P4) * g) by (subst P; nia).
      assert (Eq : q = (2 * R - 1) * (4 * P4)) by nia.
      assert (Hev : Z.even q = true).
      { rewrite Eq. rewrite Z.even_mul. replace (4 * P4) with (2 * (2 * P4)) by lia.
        rewrite (Z.even_mul 2). simpl. apply Bool.orb_true_r. }
      rewrite (Hexact ltac:(nia) Hev). subst P. nia.
    + assert (2 * g * R * P + P <= (2 * D + g) * P) by nia.
      assert ((2 * q - 2 + P) * g > 2 * g * R * P) by (subst P; nia).
      assert (2 * R * P < 2 * N + P) by nia.
      lia.
  - (* upper bound *)
    assert ((2 * D + g) * P <= (2 * g * R + 2 * g) * P - P) by nia.
    assert ((2 * q + 4 + P) * g < (2 * R + 2) * P * g) by (subst P; nia).
    assert (2 * N + P < (2 * R + 2) * P) by nia.
    lia.
Qed.

(** On totals below 2^47 and up to ten games, [Math.round] of the
    binary64 quotient is the exact quotient rounded half up. *)
Lemma average_exact (total games : Z) :
  0 <= total < 2 ^ 47 -> 1 <= games <= 10 ->
  average (JS.of_Z total) games = JS.of_Z (exact_average total games).
Proof.
  intros Ht Hg. unfold average, exact_average.
  destruct games as [|pg|pg]; try lia.
  assert (Hdg : Zpos (digits2_pos pg) <= 4)
    by (apply digits2_pos_bound; simpl; lia).
  destruct (of_Z_normal pg ltac:(lia)) as (mg & Eg & Vg & Bg).
  rewrite Eg.
  destruct total as [|pD|pD]; try lia.
  - (* nothing to average *)
    replace ((2 * 0 + Zpos pg) / (2 * Zpos pg)) with 0
      by (symmetry; apply Z.div_small; lia).
    reflexivity.
  - assert (HdD : Zpos (digits2_pos pD) <= 47)
      by (apply digits2_pos_bound; lia).
    destruct (of_Z_normal pD ltac:(lia)) as (mD & ED & VD & BD).
    rewrite ED. unfold JS.div, SFdiv.
    pose proof (Pos2Z.is_pos (digits2_pos pD)) as HdD0.
    pose proof (Pos2Z.is_pos (digits2_pos pg)) as Hdg0.
    set (dD := Zpos (digits2_pos pD)) in *.
    set (dg := Zpos (digits2_pos pg)) in *.
    rewrite SFdiv_core_normal by lia.
    cbn [xorb].
    set (K := 53 + dg - dD).
    replace (dD - 53 - (dg - 53) - 53) with (- K) by (subst K; lia).
    set (P4 := 2 ^ (K - 3)).
    assert (HP4 : 16 <= P4).
    { subst P4. change 16 with (2 ^ 4). apply Z.pow_le_mono_r; subst K; lia. }
    assert (HP : 2 ^ K = 8 * P4).
    { subst P4. change 8 with (2 ^ 3). rewrite <- Z.pow_add_r by (subst K; lia).
      f_equal. lia. }
    assert (Hb : 0 < 2 ^ (53 - dg)) by (apply Z.pow_pos_nonneg; lia).
    assert (Hnum : Zpos mD * 2 ^ 53 = Zpos pD * 2 ^ K * 2 ^ (53 - dg)).
    { rewrite VD, <- !Z.mul_assoc, <- !Z.pow_add_r by (subst K; lia).
      f_equal. f_equal. subst K. lia. }
    rewrite Hnum, Vg.
    rewrite Z.div_mul_cancel_r by lia.
    rewrite Z.mul_mod_distr_r by lia.
    set (q := Zpos pD * 2 ^ K / Zpos pg).
    set (r := (Zpos pD * 2 ^ K) mod Zpos pg).
    assert (Hqr : Zpos pD * 2 ^ K = Zpos pg * q + r /\ 0 <= r < Zpos pg).
    { split; [apply Z.div_mod; lia | apply Z.mod_pos_bound; lia]. }
    assert (Hq : 2 ^ 52 <= q < 2 ^ 54).
    { assert (Eq : q = Zpos mD * 2 ^ 53 / Zpos mg).
      { subst q. rewrite Hnum, Vg. now rewrite Z.div_mul_cancel_r by lia. }
      rewrite Eq. split.
      - apply Z.div_le_lower_bound; nia.
      - apply Z.div_lt_upper_bound; nia. }
    destruct q as [|q'|q'] eqn:Eq'; try lia.
    destruct (binary_round_aux_near q' (- K)
                (new_location (Zpos pg * 2 ^ (53 - dg)) (r * 2 ^ (53 - dg)))
                Hq ltac:(subst K; lia))
      as (M & E & Hround & HE & HN & Hexact).
    rewrite Hround. unfold JS.Math_round, JS.round_half_up, JS.signed.
    cbn [cond_Zopp].
    replace (0 <=? E) with false by (symmetry; apply Z.leb_gt; subst K; lia).
    assert (Hsplit : 2 ^ K = 2 ^ (- E) * 2 ^ (E - - K)).
    { rewrite <- Z.pow_add_r by (subst K; lia). f_equal. lia. }
    assert (Ht2 : 0 < 2 ^ (E - - K)) by (apply Z.pow_pos_nonneg; lia).
    assert (Hs : 0 < 2 ^ (- E)) by (apply Z.pow_pos_nonneg; subst K; lia).
    assert (Eround :
              (2 * Zpos M * 1 + 2 ^ (- E)) / (2 * 2 ^ (- E))
              = (2 * Zpos pD + Zpos pg) / (2 * Zpos pg)).
    { rewrite <- (Z.div_mul_cancel_r _ _ (2 ^ (E - - K))) by lia.
      replace ((2 * Zpos M * 1 + 2 ^ (- E)) * 2 ^ (E - - K))
        with (2 * (Zpos M * 2 ^ (E - - K)) + 8 * P4) by (rewrite <- HP; nia).
      replace (2 * 2 ^ (- E) * 2 ^ (E - - K)) with (2 * (8 * P4))
        by (rewrite <- HP; nia).
      apply (round_agree (Zpos pD) (Zpos pg) (Zpos q')); try lia.
      rewrite <- HP. intros Hdiv Hev. apply Hexact; [|exact Hev].
      assert (Er : r = 0) by lia. rewrite Er, Z.mul_0_l.
      apply new_location_exact. }
    rewrite Eround.
    destruct ((2 * Zpos pD + Zpos pg) / (2 * Zpos pg) =? 0) eqn:E0;
      [|reflexivity].
    apply Z.eqb_eq in E0. now rewrite E0.
Qed.

(* -------------------------------------------------------------- *)
(** *** Sums of integers in binary64 *)
(* -------------------------------------------------------------- *)

Lemma iter_pos_nat {A} (f : A -> A) (p : positive) :
  forall x, iter_pos f p x = Nat.iter (Pos.to_nat p) f x.
Proof.
  induction p as [p IH|p IH|]; intros x; cbn [iter_pos].
  - rewrite !IH, Pos2Nat.inj_xI.
    replace (S (2 * Pos.to_nat p)) with (Pos.to_nat p + S (Pos.to_nat p))%nat
      by lia.
    rewrite Nat.iter_add. f_equal. now rewrite Nat.iter_succ_r.
  - rewrite !IH, Pos2Nat.inj_xO.
    replace (2 * Pos.to_nat p)%nat with (Pos.to_nat p + Pos.to_nat p)%nat
      by lia.
    now rewrite Nat.iter_add.
  - reflexivity.
Qed.

(** Shifting out bits that are all zero loses nothing. *)
Lemma shr_1_iter_exact (k : nat) :
  forall m M : positive,
    Zpos M = Zpos m * 2 ^ Z.of_nat k ->
    Nat.iter k shr_1 {| shr_m := Zpos M; shr_r := false; shr_s := false |}
    = {| shr_m := Zpos m; shr_r := false; shr_s := false |}.
Proof.
  induction k as [|k IH]; intros m M HM.
  - simpl in *. f_equal. lia.
  - rewrite Nat.iter_succ_r.
    rewrite Nat2Z.inj_succ, Z.pow_succ_r in HM by lia.
    destruct M as [M'|M'|]; try lia.
    cbn [shr_1 orb]. apply IH. lia.
Qed.

Lemma binary_round_aux_shift (m M p : positive) (e : Z) :
  Zpos (digits2_pos m) = 53 ->
  Zpos M = Zpos m * 2 ^ Zpos p ->
  -1021 <= e -> e + Zpos p <= 971 ->
  binary_round_aux JS.prec JS.emax false (Zpos M) e loc_Exact
  = S754_finite false m (e + Zpos p).
Proof.
  intros Hd HM He1 He2.
  assert (HdM : Zpos (digits2_pos M) = 53 + Zpos p).
  { apply digits2_pos_eq.
    pose proof (digits2_pos_lower m) as Hlo.
    pose proof (digits2_pos_upper m) as Hup.
    rewrite Hd in Hlo, Hup.
    assert (Hp : 0 < 2 ^ Zpos p) by (apply Z.pow_pos_nonneg; lia).
    replace (53 + Zpos p - 1) with (52 + Zpos p) by lia.
    rewrite !Z.pow_add_r by lia. rewrite HM. simpl (53 - 1) in Hlo. nia. }
  unfold binary_round_aux, shr_fexp. cbn [Zdigits2 shr_record_of_loc].
  rewrite HdM. unfold fexp, emin, JS.prec, JS.emax.
  replace (Z.max (53 + Zpos p + e - 53) (3 - 1024 - 53) - e) with (Zpos p)
    by lia.
  cbn [shr]. rewrite iter_pos_nat.
  rewrite (shr_1_iter_exact (Pos.to_nat p) m M)
    by (now rewrite positive_nat_Z).
  cbn [shr_m loc_of_shr_record round_nearest_even Zdigits2 shr_record_of_loc].
  rewrite Hd.
  replace (Z.max (53 + (e + Zpos p) - 53) (3 - 1024 - 53) - (e + Zpos p))
    with 0 by lia.
  cbn [shr shr_m].
  replace (e + Zpos p <=? 1024 - 53) with true
    by (symmetry; apply Z.leb_le; lia).
  reflexivity.
Qed.

(** Rounding an integer below 2^53 that is written with trailing zero
    bits gives the integer. *)
Lemma binary_round_scaled (n M : positive) (j : Z) :
  0 <= j <= 60 -> Zpos n < 2 ^ 53 ->
  Zpos M = Zpos n * 2 ^ j ->
  binary_round JS.prec JS.emax false M (- j) = JS.of_Z (Zpos n).
Proof.
  intros Hj Hn HM.
  assert (Hdn : Zpos (digits2_pos n) <= 53) by (apply digits2_pos_safe; lia).
  destruct (of_Z_normal n Hdn) as (m & E & V & B). rewrite E.
  pose proof (Pos2Z.is_pos (digits2_pos n)) as Hd0.
  set (dn := Zpos (digits2_pos n)) in *.
  assert (Hdm : Zpos (digits2_pos m) = 53)
    by (apply digits2_pos_eq; simpl (53 - 1); lia).
  assert (HdM : Zpos (digits2_pos M) = dn + j).
  { apply digits2_pos_eq.
    pose proof (digits2_pos_lower n) as Hlo.
    pose proof (digits2_pos_upper n) as Hup.
    fold dn in Hlo, Hup.
    assert (Hp : 0 < 2 ^ j) by (apply Z.pow_pos_nonneg; lia).
    replace (dn + j - 1) with (dn - 1 + j) by lia.
    rewrite !Z.pow_add_r by lia. rewrite HM. nia. }
  unfold binary_round. rewrite HdM.
  unfold fexp, emin, JS.prec, JS.emax.
  replace (Z.max (dn + j + - j - 53) (3 - 1024 - 53)) with (dn - 53) by lia.
  unfold shl_align.
  destruct (dn - 53 - - j) as [|t|t] eqn:Et.
  - (* 53 digits already *)
    assert (M = m).
    { apply Pos2Z.inj. rewrite HM, V. f_equal. f_equal. lia. }
    subst M. rewrite binary_round_aux_exact by (auto; lia).
    f_equal. lia.
  - (* more than 53 digits: the low ones are zero *)
    rewrite (binary_round_aux_shift m M t) by
      (auto; try lia;
       rewrite HM, V, <- Z.mul_assoc, <- Z.pow_add_r by lia;
       f_equal; f_equal; lia).
    f_equal. lia.
  - (* fewer than 53 digits: shifted left *)
    assert (Pos.iter xO M t = m).
    { apply Pos2Z.inj. rewrite iter_xO_value, HM, V.
      rewrite <- Z.mul_assoc, <- Z.pow_add_r by lia.
      f_equal. f_equal. lia. }
    rewrite H. apply binary_round_aux_exact; [exact Hdm | lia].
Qed.

Lemma shl_align_value (m : positive) (e e' : Z) :
  e' <= e ->
  Zpos (fst (shl_align m e e')) = Zpos m * 2 ^ (e - e').
Proof.
  intros Hle. unfold shl_align.
  destruct (e' - e) as [|d|d] eqn:Ed; try lia; cbn [fst].
  - replace (e - e') with 0 by lia. lia.
  - rewrite iter_xO_value. f_equal. f_equal. lia.
Qed.

(** Non-negative integers add exactly as long as the sum stays below
    2^53. *)
Lemma add_of_Z_exact (a b : Z) :
  0 <= a -> 0 <= b -> a + b < 2 ^ 53 ->
  JS.add (JS.of_Z a) (JS.of_Z b) = JS.of_Z (a + b).
Proof.
  intros Ha Hb Hsum. unfold JS.add.
  destruct a as [|pa|pa]; try lia.
  - change (JS.of_Z 0) with (S754_zero false). rewrite Z.add_0_l.
    destruct b as [|pb|pb]; try lia; [reflexivity|].
    destruct (of_Z_finite (Zpos pb) ltac:(lia)) as (m & e & ->).
    reflexivity.
  - destruct b as [|pb|pb]; try lia.
    + change (JS.of_Z 0) with (S754_zero false). rewrite Z.add_0_r.
      destruct (of_Z_finite (Zpos pa) ltac:(lia)) as (m & e & ->).
      reflexivity.
    + assert (Hda : Zpos (digits2_pos pa) <= 53)
        by (apply digits2_pos_safe; lia).
      assert (Hdb : Zpos (digits2_pos pb) <= 53)
        by (apply digits2_pos_safe; lia).
      destruct (of_Z_normal pa Hda) as (ma & Ea & Va & Ba).
      destruct (of_Z_normal pb Hdb) as (mb & Eb & Vb & Bb).
      rewrite Ea, Eb.
      pose proof (Pos2Z.is_pos (digits2_pos pa)) as Hda0.
      pose proof (Pos2Z.is_pos (digits2_pos pb)) as Hdb0.
      set (ea := Zpos (digits2_pos pa) - 53) in *.
      set (eb := Zpos (digits2_pos pb) - 53) in *.
      cbn [SFadd cond_Zopp].
      set (ez := Z.min ea eb).
      assert (Hez : ez <= ea /\ ez <= eb /\ -52 <= ez <= 0)
        by (subst ez ea eb; lia).
      set (x := fst (shl_align ma ea ez)).
      set (y := fst (shl_align mb eb ez)).
      assert (Hx : Zpos x = Zpos pa * 2 ^ (- ez)).
      { subst x. rewrite shl_align_value, Va by lia.
        rewrite <- Z.mul_assoc, <- Z.pow_add_r by (subst ea; lia).
        f_equal. f_equal. subst ea. lia. }
      assert (Hy : Zpos y = Zpos pb * 2 ^ (- ez)).
      { subst y. rewrite shl_align_value, Vb by lia.
        rewrite <- Z.mul_assoc, <- Z.pow_add_r by (subst eb; lia).
        f_equal. f_equal. subst eb. lia. }
      change (Zpos x + Zpos y) with (Zpos (x + y)).
      cbn [binary_normalize].
      assert (E : binary_round JS.prec JS.emax false (x + y) (- - ez)
                  = JS.of_Z (Zpos (pa + pb))).
      { apply (binary_round_scaled (pa + pb) (x + y) (- ez)); lia. }
      rewrite Z.opp_involutive in E. exact E.
Qed.

(* -------------------------------------------------------------- *)
(** *** The champion aggregate of the Stats Aggregator *)
(* -------------------------------------------------------------- *)

Lemma championStats_of_appearances (puuid : string) (fetched : list Match.t) :
  championStats_of puuid fetched
  = fold_left record_participant (appearances puuid fetched) [].
Proof.
  unfold championStats_of. generalize (@nil (string * ChampionStat)).
  induction fetched as [|match_ rest IH]; intros acc; simpl.
  - reflexivity.
  - rewrite IH, fold_left_app. f_equal. unfold record_match.
    now destruct (find _ _).
Qed.

Lemma lookup_modify_same (name : string) (f : ChampionStat -> ChampionStat)
    (stats : ChampionStats) :
  lookup name (modify name f stats) = option_map f (lookup name stats).
Proof.
  induction stats as [|[key value] rest IH]; simpl; [reflexivity|].
  destruct (String.eqb key name) eqn:E; simpl; rewrite E; auto.
Qed.

Lemma lookup_modify_other (name other : string)
    (f : ChampionStat -> ChampionStat) (stats : ChampionStats) :
  name <> other ->
  lookup other (modify name f stats) = lookup other stats.
Proof.
  intros Hne. induction stats as [|[key value] rest IH]; simpl; [reflexivity|].
  destruct (String.eqb key name) eqn:E; simpl.
  - apply String.eqb_eq in E. subst key.
    apply String.eqb_neq in Hne. now rewrite Hne.
  - now rewrite IH.
Qed.

Lemma keys_modify (name : string) (f : ChampionStat -> ChampionStat)
    (stats : ChampionStats) :
  map fst (modify name f stats) = map fst stats.
Proof.
  induction stats as [|[key value] rest IH]; simpl; [reflexivity|].
  destruct (String.eqb key name); simpl; now rewrite ?IH.
Qed.

Lemma lookup_none_keys (name : string) (stats : ChampionStats) :
  lookup name stats = None <-> ~ In name (map fst stats).
Proof.
  induction stats as [|[key value] rest IH]; simpl; [tauto|].
  destruct (String.eqb key name) eqn:E.
  - apply String.eqb_eq in E. split; [discriminate | tauto].
  - apply String.eqb_neq in E. tauto.
Qed.

Lemma lookup_app_fresh (name other : string) (stats : ChampionStats) :
  lookup other (stats ++ [(name, fresh_stat)])%list
  = match lookup other stats with
    | Some s => Some s
    | None => if String.eqb name other then Some fresh_stat else None
    end.
Proof.
  induction stats as [|[key value] rest IH]; simpl; [reflexivity|].
  now destruct (String.eqb key other).
Qed.

Lemma lookup_In (name : string) (s : ChampionStat) (stats : ChampionStats) :
  NoDup (map fst stats) -> In (name, s) stats -> lookup name stats = Some s.
Proof.
  induction stats as [|[key value] rest IH]; simpl; intros Hnd Hin;
    [contradiction|].
  inversion Hnd as [|? ? Hnotin Hnd']; subst.
  destruct Hin as [E|Hin].
  - injection E as -> ->. now rewrite String.eqb_refl.
  - destruct (String.eqb key name) eqn:E.
    + apply String.eqb_eq in E. subst key. exfalso. apply Hnotin.
      apply in_map_iff. now exists (name, s).
    + auto.
Qed.

Lemma total_app (f : Participant.t -> Z) (l1 l2 : list Participant.t) :
  total f (l1 ++ l2)%list = total f l1 + total f l2.
Proof.
  unfold total. induction l1 as [|p rest IH]; simpl; lia.
Qed.

Lemma running_total_snoc (f : Participant.t -> Z) (ps : list Participant.t)
    (p : Participant.t) :
  running_total f (ps ++ [p])%list
  = JS.add (running_total f ps) (JS.of_Z (f p)).
Proof.
  unfold running_total. now rewrite fold_left_app.
Qed.

(** The running total of non-negative integers is their sum, as long as
    the sum stays below 2^53. *)
Lemma running_total_exact (f : Participant.t -> Z) (ps : list Participant.t) :
  Forall (fun p => 0 <= f p) ps -> total f ps < 2 ^ 53 ->
  running_total f ps = JS.of_Z (total f ps)
  /\ 0 <= total f ps.
Proof.
  induction ps as [|p ps IH] using rev_ind; intros Hpos Hsum.
  - split; [reflexivity | simpl; lia].
  - apply Forall_app in Hpos as [Hps Hp].
    inversion Hp as [|? ? Hfp _]; subst.
    rewrite total_app in *. unfold total at 2 in Hsum. unfold total at 2.
    unfold total at 3. cbn [fold_right] in *.
    assert (Hrest : 0 <= total f ps).
    { clear - Hps. induction Hps as [|q qs Hq _ IHq]; simpl; lia. }
    destruct IH as [IH _]; [exact Hps | lia |].
    rewrite running_total_snoc, IH, Z.add_0_r.
    split; [apply add_of_Z_exact; lia | lia].
Qed.

Lemma tally_absent (name : string) (ps : list Participant.t) :
  existsb (on_champion name) ps = false -> tally name ps = fresh_stat.
Proof.
  intros H. unfold tally.
  replace (filter (on_champion name) ps) with (@nil Participant.t);
    [reflexivity|].
  induction ps as [|p rest IH]; simpl in *; [reflexivity|].
  apply orb_false_iff in H as [-> H]. auto.
Qed.

Lemma tally_snoc_same (p : Participant.t) (ps : list Participant.t) :
  tally (Participant.championName p) (ps ++ [p])%list
  = add_gold (Participant.goldEarned p)
      (add_damage (Participant.totalDamageDealtToChampions p)
         (count_outcome (Participant.win p)
            (tally (Participant.championName p) ps))).
Proof.
  assert (E : on_champion (Participant.championName p) p = true)
    by apply String.eqb_refl.
  unfold tally. rewrite filter_app. cbn [filter]. rewrite E.
  rewrite !filter_app, !length_app, !running_total_snoc.
  unfold add_gold, add_damage, count_outcome. cbn [filter].
  destruct (Participant.win p);
    cbn [negb app List.length cs_wins cs_losses cs_totalDamage
         cs_totalGold];
    f_equal; lia.
Qed.

Lemma tally_snoc_other (name : string) (p : Participant.t)
    (ps : list Participant.t) :
  Participant.championName p <> name ->
  tally name (ps ++ [p])%list = tally name ps.
Proof.
  intros Hne. apply String.eqb_neq in Hne.
  change (on_champion name p = false) in Hne.
  unfold tally. rewrite filter_app. cbn [filter].
  now rewrite Hne, app_nil_r.
Qed.

Lemma lookup_ensure_same (name : string) (stats : ChampionStats) :
  lookup name (ensure name stats)
  = match lookup name stats with
    | Some s => Some s
    | None => if inherited name then None else Some fresh_stat
    end.
Proof.
  unfold ensure. destruct (lookup name stats) eqn:E; [exact E|].
  destruct (inherited name); [exact E|].
  now rewrite lookup_app_fresh, E, String.eqb_refl.
Qed.

Lemma lookup_ensure_other (name other : string) (stats : ChampionStats) :
  name <> other -> lookup other (ensure name stats) = lookup other stats.
Proof.
  intros Hne. unfold ensure. destruct (lookup name stats); [reflexivity|].
  destruct (inherited name); [reflexivity|].
  rewrite lookup_app_fresh. apply String.eqb_neq in Hne. rewrite Hne.
  now destruct (lookup other stats).
Qed.

Lemma keys_ensure (name : string) (stats : ChampionStats) :
  NoDup (map fst stats) -> NoDup (map fst (ensure name stats)).
Proof.
  intros Hnd. unfold ensure.
  destruct (lookup name stats) eqn:E; [exact Hnd|].
  destruct (inherited name); [exact Hnd|].
  rewrite map_app. simpl. apply NoDup_app; [exact Hnd | | ].
  - constructor; [tauto | constructor].
  - intros x Hx [<-|[]]. now apply lookup_none_keys in E.
Qed.

(** The counters after the fold: one entry per champion played whose
    name finds nothing inherited, holding what the games on that
    champion add up to. *)
Lemma championStats_fold (ps : list Participant.t) :
  let stats := fold_left record_participant ps [] in
  NoDup (map fst stats)
  /\ forall name,
       lookup name stats
       = if existsb (on_champion name) ps && negb (inherited name)
         then Some (tally name ps)
         else None.
Proof.
  induction ps as [|p ps IH] using rev_ind.
  - simpl. split; [constructor | reflexivity].
  - cbv zeta in *. rewrite fold_left_app. simpl.
    destruct IH as [Hnd Hlk].
    set (stats := fold_left record_participant ps []) in *.
    unfold record_participant. split.
    + rewrite !keys_modify. now apply keys_ensure.
    + intros name. rewrite existsb_app. simpl. rewrite orb_false_r.
      unfold on_champion at 2.
      destruct (String.eqb (Participant.championName p) name) eqn:E.
      * apply String.eqb_eq in E. subst name. rewrite orb_true_r.
        rewrite !lookup_modify_same, tally_snoc_same, lookup_ensure_same.
        rewrite Hlk.
        destruct (inherited (Participant.championName p)) eqn:Einh.
        -- rewrite andb_false_r. reflexivity.
        -- rewrite andb_true_r. cbn [negb andb].
           destruct (existsb (on_champion (Participant.championName p)) ps)
             eqn:Eplayed; [reflexivity|].
           now rewrite (tally_absent _ _ Eplayed).
      * apply String.eqb_neq in E. rewrite orb_false_r.
        rewrite !(lookup_modify_other _ _ _ _ E).
        rewrite (tally_snoc_other _ _ _ E).
        rewrite (lookup_ensure_other _ _ _ E). apply Hlk.
Qed.

Lemma sample_outcomes_complete (w l : Z) :
  0 <= w -> 0 <= l -> 1 <= w + l <= 10 -> In (w, l) sample_outcomes.
Proof.
  intros Hw Hl Hsum. unfold sample_outcomes. apply filter_In. split.
  - apply in_flat_map. exists (Z.to_nat w). split; [apply in_seq; lia|].
    apply in_map_iff. exists (Z.to_nat l). split; [|apply in_seq; lia].
    f_equal; lia.
  - simpl. apply andb_true_iff. split; apply Z.leb_le; lia.
Qed.

Lemma comparator_checked_on_samples :
  forallb (fun x => forallb (comparator_checked x) sample_outcomes)
          sample_outcomes = true.
Proof. vm_compute. reflexivity. Qed.

Lemma winrate_checked_on_samples :
  forallb winrate_checked sample_outcomes = true.
Proof. vm_compute. reflexivity. Qed.

Lemma byWinrate_key (a b : ChampionAggregate) :
  from_sample a -> from_sample b ->
  JS.gt0 (byWinrate a b) = (rate_key b <? rate_key a).
Proof.
  intros (Ha1 & Ha2 & Ha3 & Ea) (Hb1 & Hb2 & Hb3 & Eb).
  pose proof (sample_outcomes_complete _ _ Ha1 Ha2 Ha3) as Hina.
  pose proof (sample_outcomes_complete _ _ Hb1 Hb2 Hb3) as Hinb.
  pose proof comparator_checked_on_samples as Hall.
  rewrite forallb_forall in Hall. specialize (Hall _ Hina).
  rewrite forallb_forall in Hall. specialize (Hall _ Hinb).
  unfold comparator_checked in Hall. apply Bool.eqb_prop in Hall.
  cbn [fst snd] in Hall. unfold byWinrate. rewrite Ea, Eb, Hall.
  unfold rate_key.
  destruct (Z.ltb_spec (exact_tenths (wins a) (losses a))
                       (exact_tenths (wins b) (losses b)));
    destruct (Z.ltb_spec (- exact_tenths (wins b) (losses b))
                         (- exact_tenths (wins a) (losses a)));
    reflexivity || lia.
Qed.

Lemma winrate_of_exact (w l : Z) :
  0 <= w -> 0 <= l -> 1 <= w + l <= 10 ->
  winrate_of w l = JS.fixed_digits 1 (exact_tenths w l).
Proof.
  intros Hw Hl Hsum.
  pose proof winrate_checked_on_samples as Hall.
  rewrite forallb_forall in Hall.
  specialize (Hall _ (sample_outcomes_complete _ _ Hw Hl Hsum)).
  now apply String.eqb_eq in Hall.
Qed.

Lemma filter_split_length {A} (f : A -> bool) (l : list A) :
  (List.length (filter f l) + List.length (filter (fun a => negb (f a)) l)
   = List.length l)%nat.
Proof.
  induction l as [|a rest IH]; simpl; [reflexivity|].
  destruct (f a); simpl; lia.
Qed.

Lemma filter_length_bound {A} (f : A -> bool) (l : list A) :
  (List.length (filter f l) <= List.length l)%nat.
Proof.
  induction l as [|a rest IH]; simpl; [lia|]. destruct (f a); simpl; lia.
Qed.

Lemma appearances_length (puuid : string) (fetched : list Match.t) :
  (List.length (appearances puuid fetched) <= List.length fetched)%nat.
Proof.
  induction fetched as [|match_ rest IH]; simpl; [lia|].
  rewrite length_app. destruct (find _ _); simpl; lia.
Qed.

Lemma existsb_filter_nonempty {A} (f : A -> bool) (l : list A) :
  existsb f l = true -> (1 <= List.length (filter f l))%nat.
Proof.
  induction l as [|a rest IH]; simpl; [discriminate|].
  destruct (f a); simpl; [lia | exact IH].
Qed.

Lemma insert_by_index_perm (entry : Z * (string * ChampionStat))
    (entries : list (Z * (string * ChampionStat))) :
  Permutation (insert_by_index entry entries) (entry :: entries).
Proof.
  induction entries as [|other rest IH]; simpl.
  - apply Permutation_refl.
  - destruct (fst entry <? fst other).
    + apply Permutation_refl.
    + eapply Permutation_trans; [apply perm_skip, IH | apply perm_swap].
Qed.

(** [Object.entries] lists every own property once. *)
Lemma Object_entries_perm (stats : ChampionStats) :
  Permutation (Object_entries stats) stats.
Proof.
  unfold Object_entries. induction stats as [|entry rest IH]; simpl.
  - apply Permutation_refl.
  - destruct (array_index (fst entry)) as [index|]; simpl.
    + eapply Permutation_trans;
        [apply Permutation_app_tail, Permutation_map,
           insert_by_index_perm|].
      simpl. now apply perm_skip.
    + eapply Permutation_trans; [apply Permutation_sym, Permutation_middle|].
      now apply perm_skip.
Qed.

Lemma winrateData_perm (puuid : string) (fetched : list Match.t) :
  Permutation (winrateData_of puuid fetched)
              (map aggregate (championStats_of puuid fetched)).
Proof.
  unfold winrateData_of.
  eapply Permutation_trans; [apply Array_sort_perm|].
  apply Permutation_map, Object_entries_perm.
Qed.

(** Every row of the result is the aggregate of the tally of a champion
    the player appeared on. *)
Lemma winrateData_rows (puuid : string) (fetched : list Match.t)
    (row : ChampionAggregate) :
  In row (winrateData_of puuid fetched) ->
  existsb (on_champion (champion row)) (appearances puuid fetched) = true
  /\ inherited (champion row) = false
  /\ row = aggregate (champion row,
                      tally (champion row) (appearances puuid fetched)).
Proof.
  intros Hin.
  apply (Permutation_in _ (winrateData_perm puuid fetched)) in Hin.
  apply in_map_iff in Hin as ([name stat] & <- & Hin).
  rewrite championStats_of_appearances in Hin.
  destruct (championStats_fold (appearances puuid fetched)) as [Hnd Hlk].
  cbv zeta in Hnd, Hlk.
  pose proof (lookup_In _ _ _ Hnd Hin) as E. rewrite Hlk in E.
  cbn [aggregate champion].
  destruct (existsb (on_champion name) (appearances puuid fetched));
    [|discriminate].
  destruct (inherited name); [discriminate|].
  injection E as <-. repeat split; reflexivity.
Qed.

Lemma winrateData_from_sample (puuid : string) (fetched : list Match.t) :
  (List.length fetched <= 10)%nat ->
  Forall from_sample
         (map aggregate (Object_entries (championStats_of puuid fetched))).
Proof.
  intros Hlen. apply Forall_forall. intros row Hin.
  assert (Hrow : In row (winrateData_of puuid fetched)).
  { unfold winrateData_of.
    apply (Permutation_in _ (Permutation_sym (Array_sort_perm byWinrate _))).
    exact Hin. }
  apply winrateData_rows in Hrow as (Hplayed & _ & ->).
  pose proof (existsb_filter_nonempty _ _ Hplayed) as Hsome.
  pose proof (filter_length_bound (on_champion (champion row))
                (appearances puuid fetched)) as Hbound.
  pose proof (appearances_length puuid fetched) as Hle.
  pose proof (filter_split_length Participant.win
                (filter (on_champion (champion row))
                        (appearances puuid fetched))) as Hsplit.
  unfold from_sample. cbn [aggregate wins losses winrate tally cs_wins
                           cs_losses].
  repeat split; lia.
Qed.

Lemma StronglySorted_weaken {A} (R R' : A -> A -> Prop) (l : list A) :
  (forall a b, R a b -> R' a b) -> StronglySorted R l -> StronglySorted R' l.
Proof.
  intros Himp Hs. induction Hs as [|a rest Hrest IH Ha]; constructor.
  - exact IH.
  - eapply Forall_impl; [|exact Ha]. apply Himp.
Qed.

(** C6: on the fetched matches of a sample (at most ten) whose champion
    names are names of champions (none is a name every object inherits
    from [Object.prototype]), the fold yields one row per champion the
    player appeared on; the row counts the wins and the losses on that
    champion, [totalGames] is their sum, [winrate] shows the exact win
    percentage rounded to one decimal, the averages are [Math.round] of
    the running total over the games (the exact quotient rounded half up
    to an integer, for non-negative amounts that add up to less than
    2^47), and the rows are in descending order of the win percentage.
    The two Ahri games of the spec give wins 1, losses 1, winrate "50.0",
    totalGames 2, avgDamage 15000 and avgGold 9000. *)
Theorem C6_champion_aggregate (puuid : string) (fetched : list Match.t) :
  (List.length fetched <= 10)%nat ->
  let games := appearances puuid fetched in
  let rows := winrateData_of puuid fetched in
  Forall (fun p => inherited (Participant.championName p) = false) games ->
  NoDup (map champion rows)
  /\ (forall name,
        In name (map champion rows)
        <-> In name (map Participant.championName games))
  /\ (forall row, In row rows ->
        let mine := filter (on_champion (champion row)) games in
        wins row = Z.of_nat (List.length (filter Participant.win mine))
        /\ losses row
           = Z.of_nat (List.length
                         (filter (fun p => negb (Participant.win p)) mine))
        /\ totalGames row = wins row + losses row
        /\ totalGames row = Z.of_nat (List.length mine)
        /\ winrate row
           = JS.fixed_digits 1 (exact_tenths (wins row) (losses row))
        /\ avgDamage row
           = JS.Math_round
               (JS.div
                  (running_total Participant.totalDamageDealtToChampions
                                 mine)
                  (JS.of_Z (totalGames row)))
        /\ avgGold row
           = JS.Math_round
               (JS.div (running_total Participant.goldEarned mine)
                       (JS.of_Z (totalGames row)))
        /\ (Forall (fun p => 0 <= Participant.totalDamageDealtToChampions p)
                   mine ->
            total Participant.totalDamageDealtToChampions mine < 2 ^ 47 ->
            avgDamage row
            = JS.of_Z (exact_average
                         (total Participant.totalDamageDealtToChampions mine)
                         (totalGames row)))
        /\ (Forall (fun p => 0 <= Participant.goldEarned p) mine ->
            total Participant.goldEarned mine < 2 ^ 47 ->
            avgGold row
            = JS.of_Z (exact_average (total Participant.goldEarned mine)
                                     (totalGames row))))
  /\ StronglySorted
       (fun a b => exact_tenths (wins b) (losses b)
                   <= exact_tenths (wins a) (losses a))
       rows
  /\ winrateData_of Sample.me [Sample.ahri_win; Sample.ahri_loss]
     = [ {| champion := "Ahri"; wins := 1; losses := 1; winrate := "50.0";
            totalGames := 2; avgDamage := JS.of_Z 15000;
            avgGold := JS.of_Z 9000 |} ].
Proof.
  intros Hlen games rows Hnames.
  pose proof (winrateData_from_sample puuid fetched Hlen) as Hsample.
  destruct (championStats_fold games) as [Hnd Hlk]. cbv zeta in Hnd, Hlk.
  assert (Hperm : Permutation (map champion rows)
                              (map fst (championStats_of puuid fetched))).
  { subst rows.
    eapply Permutation_trans;
      [apply Permutation_map, winrateData_perm|].
    rewrite map_map. erewrite map_ext; [apply Permutation_refl|].
    now intros [name stat]. }
  rewrite championStats_of_appearances in Hperm. fold games in Hperm.
  split; [|split; [|split; [|split]]].
  - eapply Permutation_NoDup; [apply Permutation_sym, Hperm | exact Hnd].
  - intros name. split.
    + intros Hin. apply (Permutation_in _ Hperm) in Hin.
      destruct (lookup name (fold_left record_participant games [])) eqn:E.
      * rewrite Hlk in E.
        destruct (existsb (on_champion name) games) eqn:Ex; [|discriminate].
        apply existsb_exists in Ex as (p & Hp & Ep).
        apply String.eqb_eq in Ep. apply in_map_iff. now exists p.
      * apply lookup_none_keys in E. contradiction.
    + intros Hin. apply (Permutation_in _ (Permutation_sym Hperm)).
      destruct (in_dec string_dec name
                  (map fst (fold_left record_participant games [])))
        as [Hk|Hk]; [exact Hk|].
      apply lookup_none_keys in Hk. rewrite Hlk in Hk.
      apply in_map_iff in Hin as (p & Ep & Hp).
      assert (Ex : existsb (on_champion name) games = true).
      { apply existsb_exists. exists p. split; [exact Hp|].
        now apply String.eqb_eq. }
      rewrite Forall_forall in Hnames. specialize (Hnames p Hp).
      rewrite Ep in Hnames. rewrite Ex, Hnames in Hk. discriminate.
  - intros row Hin mine.
    destruct (winrateData_rows puuid fetched row Hin) as (Hplayed & _ & Erow).
    fold games in Hplayed, Erow.
    assert (Hfrom : from_sample row).
    { rewrite Forall_forall in Hsample. apply Hsample.
      apply (Permutation_in _ (Array_sort_perm byWinrate _)). exact Hin. }
    destruct Hfrom as (Hw & Hl & Hsum & Erate).
    pose proof (filter_split_length Participant.win mine) as Hsplit.
    assert (Ew : wins row
                 = Z.of_nat (List.length (filter Participant.win mine)))
      by (rewrite Erow at 1; reflexivity).
    assert (El : losses row
                 = Z.of_nat (List.length
                     (filter (fun p => negb (Participant.win p)) mine)))
      by (rewrite Erow at 1; reflexivity).
    assert (Et : totalGames row = wins row + losses row)
      by (rewrite Erow; reflexivity).
    assert (Ed : avgDamage row
                 = average
                     (running_total Participant.totalDamageDealtToChampions
                                    mine)
                     (totalGames row))
      by (rewrite Erow at 1; rewrite Et, Ew, El; reflexivity).
    assert (Eg : avgGold row
                 = average (running_total Participant.goldEarned mine)
                           (totalGames row))
      by (rewrite Erow at 1; rewrite Et, Ew, El; reflexivity).
    repeat split.
    + exact Ew.
    + exact El.
    + exact Et.
    + rewrite Et, Ew, El. lia.
    + rewrite Erate. now apply winrate_of_exact.
    + exact Ed.
    + exact Eg.
    + intros Hpos Hsafe.
      destruct (running_total_exact _ _ Hpos) as [Esum Hsum0]; [lia|].
      rewrite Ed, Esum. apply average_exact; [lia | rewrite Et; lia].
    + intros Hpos Hsafe.
      destruct (running_total_exact _ _ Hpos) as [Esum Hsum0]; [lia|].
      rewrite Eg, Esum. apply average_exact; [lia | rewrite Et; lia].
  - subst rows. unfold winrateData_of.
    pose proof (Array_sort_ascending byWinrate rate_key from_sample
                  byWinrate_key _ Hsample) as Hsorted.
    unfold ascending in Hsorted.
    eapply StronglySorted_weaken; [|exact Hsorted].
    unfold rate_key. intros a b. simpl. lia.
  - vm_compute. reflexivity.
Qed.


(* -------------------------------------------------------------- *)
(** *** The retry wrapper, whatever the upstream answers *)
(* -------------------------------------------------------------- *)

Lemma leading_rate_limits (answer_status : nat -> Z) (n : nat) :
  exists k,
    (k <= n)%nat
    /\ (forall i, (i < k)%nat -> answer_status i = 429)
    /\ ((k < n)%nat -> answer_status k <> 429).
Proof.
  induction n as [|n (k & Hk & Hlim & Hstop)].
  - exists 0%nat. repeat split; lia.
  - destruct (Nat.eq_dec k n) as [->|Hne].
    + destruct (Z.eq_dec (answer_status n) 429) as [E|Hother].
      * exists (S n). repeat split; try lia.
        intros i Hi. destruct (Nat.eq_dec i n) as [->|]; [exact E|].
        apply Hlim. lia.
      * exists n. repeat split; auto; lia.
    + exists k. repeat split; auto; lia.
Qed.

Lemma fetch_count_app (tr1 tr2 : Trace) :
  fetch_count (tr1 ++ tr2)%list = (fetch_count tr1 + fetch_count tr2)%nat.
Proof.
  unfold fetch_count. now rewrite filter_app, length_app.
Qed.

Lemma waited_app (tr1 tr2 : Trace) :
  waited (tr1 ++ tr2)%list = waited tr1 + waited tr2.
Proof.
  induction tr1 as [|[A r|ms] tr1 IH]; simpl; lia.
Qed.

Lemma waited_rounds {A} (r : Request A) (k : nat) (attempt : Z) :
  waited (rate_limited_rounds r k attempt)
  = 1000 * Z.of_nat k * (2 * attempt + Z.of_nat k - 1).
Proof.
  revert attempt. induction k as [|k IH]; intros attempt.
  - simpl. lia.
  - cbn [rate_limited_rounds waited fold_right]. fold (waited (rate_limited_rounds r k (attempt + 1))).
    rewrite IH. lia.
Qed.

(** X1: whatever the upstream answers, the wrapper returns a response
    and never throws.  With [k] the number of rate-limited answers the
    request meets first (at most [maxRetries]), it sends exactly [k + 1]
    requests, so never more than [maxRetries + 1]; it waits [2000 * i]
    milliseconds after the [i]-th of them, [1000 * k * (k + 1)] in all;
    and what it returns is the answer to the last request it sent, which
    is the first answer that is not rate-limited when [k < maxRetries]. *)
Theorem X1_fetchWithRetry_outcome {A} (r : Request A) (env : Env)
    (maxRetries : nat) :
  exists k,
    (k <= maxRetries)%nat
    /\ (forall i, (i < k)%nat -> status (upstream env A r i) = 429)
    /\ ((k < maxRetries)%nat -> status (upstream env A r k) <> 429)
    /\ run (fetchWithRetry r maxRetries) env
       = (Returned (upstream env A r k),
          rate_limited_rounds r k 1 ++ [Fetch r])%list
    /\ fetch_count (snd (run (fetchWithRetry r maxRetries) env)) = S k
    /\ waited (snd (run (fetchWithRetry r maxRetries) env))
       = 1000 * Z.of_nat k * (Z.of_nat k + 1).
Proof.
  destruct (leading_rate_limits (fun i => status (upstream env A r i))
              maxRetries) as (k & Hk & Hlim & Hstop).
  exists k.
  assert (E : run (fetchWithRetry r maxRetries) env
              = (Returned (upstream env A r k),
                 rate_limited_rounds r k 1 ++ [Fetch r])%list).
  { unfold run, fetchWithRetry.
    rewrite (fetchWithRetry_from_run r env maxRetries k 1 []); auto. }
  repeat split; auto.
  - rewrite E. cbn [snd]. rewrite fetch_count_app, fetch_count_rounds.
    unfold fetch_count. simpl. lia.
  - rewrite E. cbn [snd]. rewrite waited_app, waited_rounds.
    change (waited [Fetch r]) with 0. ring.
Qed.

(* -------------------------------------------------------------- *)
(** *** What the routes answer *)
(* -------------------------------------------------------------- *)













(* -------------------------------------------------------------- *)
(** *** How many requests a route sends *)
(* -------------------------------------------------------------- *)

Lemma sends_ret {A} (n : nat) (a : A) : sends_at_most n (ret a).
Proof. intros env tr. simpl. lia. Qed.

Lemma sends_json_of {A} (n : nat) (res : Response A) :
  sends_at_most n (json_of res).
Proof. intros env tr. unfold json_of. destruct (json res); simpl; lia. Qed.

Lemma sends_fetch {A} (r : Request A) : sends_at_most 1 (fetch r).
Proof.
  intros env tr. unfold fetch. cbn [snd]. rewrite fetch_count_app.
  unfold fetch_count at 2. simpl. lia.
Qed.

Lemma sends_bind {A B} (n1 n2 : nat) (m : M A) (k : A -> M B) :
  sends_at_most n1 m -> (forall a, sends_at_most n2 (k a)) ->
  sends_at_most (n1 + n2) (bind m k).
Proof.
  intros Hm Hk env tr. unfold bind. specialize (Hm env tr).
  destruct (m env tr) as [[a|e] tr']; cbn [snd] in *.
  - specialize (Hk a env tr'). lia.
  - lia.
Qed.

Lemma sends_caught {A} (n : nat) (m : M (HttpResponse A)) :
  sends_at_most n m -> sends_at_most n (try_catch m internal_server_error).
Proof.
  intros Hm env tr. unfold try_catch. specialize (Hm env tr).
  destruct (m env tr) as [[a|e] tr']; cbn [snd] in *; exact Hm.
Qed.

Lemma sends_mapM {A B} (n : nat) (f : A -> M B) (l : list A) :
  (forall a, sends_at_most n (f a)) ->
  sends_at_most (n * List.length l) (mapM f l).
Proof.
  intros Hf. induction l as [|a l IH]; cbn [mapM List.length].
  - apply sends_ret.
  - replace (n * S (List.length l))%nat
      with (n + (n * List.length l + 0))%nat by lia.
    apply sends_bind; [apply Hf|]. intros b.
    apply sends_bind; [exact IH|]. intros bs. apply sends_ret.
Qed.

Lemma sends_weaken {A} (n n' : nat) (m : M A) :
  (n <= n')%nat -> sends_at_most n m -> sends_at_most n' m.
Proof.
  intros Hle Hm env tr. specialize (Hm env tr). lia.
Qed.

Lemma sends_fetchWithRetry {A} (r : Request A) (remaining : nat) :
  forall attempt,
    sends_at_most (S remaining) (fetchWithRetry_from r remaining attempt).
Proof.
  induction remaining as [|n IH]; intros attempt; cbn [fetchWithRetry_from].
  - apply sends_fetch.
  - change (S (S n)) with (1 + S n)%nat.
    apply sends_bind; [apply sends_fetch|]. intros response.
    destruct (status response =? 429).
    + change (S n) with (0 + S n)%nat. apply sends_bind.
      * intros env tr. unfold sleep. cbn [snd]. rewrite fetch_count_app.
        unfold fetch_count at 2. simpl. lia.
      * intros _. apply IH.
    + apply sends_ret.
Qed.

Lemma sends_match_or_null (n : nat) (res : Response Match.t) :
  sends_at_most n (match_or_null res).
Proof.
  unfold match_or_null. destruct (negb (ok res)); [apply sends_ret|].
  apply (sends_weaken (0 + 0)); [lia|].
  apply sends_bind; [apply sends_json_of | intros; apply sends_ret].
Qed.

Lemma sends_fetch_sample (matchIds : list string) :
  sends_at_most 40 (fetch_sample matchIds).
Proof.
  unfold fetch_sample.
  apply (sends_weaken (4 * List.length (firstn 10 matchIds))).
  - rewrite length_firstn. lia.
  - apply sends_mapM. intros matchId.
    change 4%nat with (4 + 0)%nat.
    apply sends_bind; [apply sends_fetchWithRetry|].
    intros res. apply sends_match_or_null.
Qed.

(** X5: whatever the request body and whatever the upstream answers,
    one call of the Match Detail Fetcher sends at most 2 upstream
    requests, and one call of the Stats Aggregator at most 60: five
    lookups and at most ten match details, each through the retry
    wrapper with its four requests at most. *)
Theorem X5_request_budgets (env : Env) :
  (forall req,
     (fetch_count (snd (run (LolMatchDetails.POST req) env)) <= 2)%nat)
  /\ (forall req,
        (fetch_count (snd (run (LolPlayerStats.POST req) env)) <= 60)%nat).
Proof.
  split; intros req.
  - assert (H : sends_at_most 2 (LolMatchDetails.POST req)).
    { unfold LolMatchDetails.POST.
      destruct (falsy (dr_matchId req) || falsy (dr_puuid req));
        [apply sends_ret|].
      cbv zeta. apply sends_caught.
      apply (sends_bind 1 1); [apply sends_fetch|]. intros matchRes.
      destruct (negb (ok matchRes)); [apply sends_ret|].
      apply (sends_bind 0 1); [apply sends_json_of|]. intros matchData.
      apply (sends_bind 1 0); [apply sends_fetch|]. intros timelineRes.
      apply (sends_bind 0 0).
      - destruct (ok timelineRes); [|apply sends_ret].
        apply (sends_bind 0 0); [apply sends_json_of | intros; apply sends_ret].
      - intros timelineData. destruct (find _ _); apply sends_ret. }
    exact (H env []).
  - assert (H : sends_at_most 60 (LolPlayerStats.POST req)).
    { unfold LolPlayerStats.POST.
      destruct (falsy (req_gameName req) || falsy (req_tagLine req));
        [apply sends_ret|].
      cbv zeta. apply sends_caught. unfold fetchWithRetry, maxRetries_default.
      apply (sends_bind 4 56); [apply sends_fetchWithRetry|].
      intros accountRes.
      destruct (negb (ok accountRes));
        [destruct (status accountRes =? 429); apply sends_ret|].
      apply (sends_bind 0 56); [apply sends_json_of|]. intros accountData.
      apply (sends_bind 4 52); [apply sends_fetchWithRetry|].
      intros summonerRes.
      destruct (negb (ok summonerRes)); [apply sends_ret|].
      apply (sends_bind 0 52); [apply sends_json_of|]. intros summonerData.
      apply (sends_bind 4 48); [apply sends_fetchWithRetry|].
      intros masteryRes.
      apply (sends_bind 0 48);
        [destruct (ok masteryRes); [apply sends_json_of | apply sends_ret]|].
      intros masteryData.
      apply (sends_bind 4 44); [apply sends_fetchWithRetry|].
      intros rankedRes.
      apply (sends_bind 0 44);
        [destruct (ok rankedRes); [apply sends_json_of | apply sends_ret]|].
      intros rankedData.
      apply (sends_bind 4 40); [apply sends_fetchWithRetry|].
      intros matchIdsRes.
      apply (sends_bind 40 0); [|intros; apply sends_ret].
      destruct (ok matchIdsRes); [|apply sends_ret].
      apply (sends_bind 0 40); [apply sends_json_of|]. intros matchIds.
      apply (sends_bind 40 0); [apply sends_fetch_sample|].
      intros; apply sends_ret. }
    exact (H env []).
Qed.

(* -------------------------------------------------------------- *)
(** *** Further runs of the History Aggregator *)
(* -------------------------------------------------------------- *)

(** X6: when the account is found and the list of match identifiers is
    refused (any status outside 200-299), the History Aggregator answers
    500 "Could not fetch match IDs" after these two requests; no match
    detail is requested. *)
Theorem X6_history_match_ids_failure (env : Env) (req : RiotIdRequest)
    (account : Account.t) :
  let lookup :=
    AccountByRiotId (field_value (req_gameName req))
                    (field_value (req_tagLine req)) in
  let listing := MatchIdsByPuuid (Account.puuid account) "start=0&count=20" in
  falsy (req_gameName req) = false ->
  falsy (req_tagLine req) = false ->
  ok (upstream env _ lookup 0) = true ->
  json (upstream env _ lookup 0) = Some account ->
  ok (upstream env _ listing 0) = false ->
  run (LolHistory.POST req) env
  = (Returned
       (NextResponse_json (ErrorBody "Could not fetch match IDs" None) 500),
     [Fetch lookup; Fetch listing]).
Proof.
  intros lookup listing Hg Ht Hok Hjson Hfail. subst lookup listing.
  unfold run, LolHistory.POST. rewrite Hg, Ht. cbn [orb].
  unfold try_catch. rewrite bind_fetch, attempts_nil. cbv beta.
  rewrite Hok. cbn [negb app].
  rewrite (bind_json_of _ _ _ _ _ Hjson). cbv beta zeta.
  rewrite bind_fetch. cbv beta.
  change (attempts (MatchIdsByPuuid (Account.puuid account)
                                    "start=0&count=20") _)
    with 0%nat.
  rewrite Hfail. reflexivity.
Qed.

Lemma filter_all {A} (f : A -> bool) (l : list A) :
  Forall (fun a => f a = true) l -> filter f l = l.
Proof.
  induction 1 as [|a l Ha _ IH]; simpl; [reflexivity|].
  now rewrite Ha, IH.
Qed.

Lemma filter_none {A} (f : A -> bool) (l : list A) :
  Forall (fun a => f a = false) l -> filter f l = [].
Proof.
  induction 1 as [|a l Ha _ IH]; simpl; [reflexivity|].
  now rewrite Ha, IH.
Qed.

Lemma filter_filter_implied {A} (f g : A -> bool) (l : list A) :
  (forall a, f a = true -> g a = true) ->
  filter f (filter g l) = filter f l.
Proof.
  intros H. induction l as [|a l IH]; simpl; [reflexivity|].
  destruct (g a) eqn:Eg; simpl.
  - now rewrite IH.
  - destruct (f a) eqn:Ef; [|exact IH].
    rewrite (H a Ef) in Eg. discriminate.
Qed.

Section Classes.
Context {A : Type}.
Variable key : A -> Z.

(** In a list in ascending order of its key, the elements of the least
    key come first. *)
Lemma ascending_least_first (lo : Z) (l : list A) :
  ascending key l -> Forall (fun a => lo <= key a) l ->
  l = (filter (has_key key lo) l ++ filter (fun a => lo <? key a) l)%list.
Proof.
  induction 1 as [|x rest Hrest IH Hx]; intros Hlo; [reflexivity|].
  inversion Hlo as [|? ? Hlox Hlorest]; subst.
  simpl. unfold has_key at 1.
  destruct (key x =? lo) eqn:E.
  - apply Z.eqb_eq in E.
    replace (lo <? key x) with false by (symmetry; apply Z.ltb_ge; lia).
    simpl. f_equal. now apply IH.
  - apply Z.eqb_neq in E.
    replace (lo <? key x) with true by (symmetry; apply Z.ltb_lt; lia).
    rewrite filter_none, filter_all; [reflexivity | |].
    + eapply Forall_impl; [|exact Hx]. simpl. intros a Ha.
      apply Z.ltb_lt. lia.
    + eapply Forall_impl; [|exact Hx]. simpl. intros a Ha.
      unfold has_key. apply Z.eqb_neq. lia.
Qed.

Lemma ascending_filter (f : A -> bool) (l : list A) :
  ascending key l -> ascending key (filter f l).
Proof.
  induction 1 as [|x rest Hrest IH Hx]; simpl; [constructor|].
  destruct (f x); [|exact IH].
  constructor; [exact IH|].
  apply Forall_forall. intros a Ha. apply filter_In in Ha as [Ha _].
  rewrite Forall_forall in Hx. now apply Hx.
Qed.

(** A list in ascending order of a key with [n] possible values from
    [lo] on is its classes one after the other. *)
Lemma ascending_by_classes (n : nat) :
  forall (lo : Z) (l : list A),
    ascending key l ->
    Forall (fun a => lo <= key a < lo + Z.of_nat n) l ->
    l = flat_map (fun k => filter (has_key key k) l)
                 (map (fun i => lo + Z.of_nat i) (seq 0 n)).
Proof.
  induction n as [|n IH]; intros lo l Hs Hr.
  - destruct l as [|a l]; [reflexivity|].
    inversion Hr; subst. lia.
  - rewrite <- cons_seq, <- seq_shift, map_cons, map_map.
    cbn [flat_map]. rewrite Z.add_0_r.
    rewrite (ascending_least_first lo l Hs) at 1
      by (eapply Forall_impl; [|exact Hr]; simpl; intros; lia).
    f_equal.
    rewrite (IH (lo + 1) (filter (fun a => lo <? key a) l)).
    + rewrite !flat_map_concat_map. f_equal.
      rewrite !map_map. apply map_ext_in. intros i _.
      replace (lo + 1 + Z.of_nat i) with (lo + Z.of_nat (S i)) by lia.
      apply filter_filter_implied. intros a Ha. unfold has_key in Ha.
      apply Z.eqb_eq in Ha. apply Z.ltb_lt. lia.
    + now apply ascending_filter.
    + apply Forall_forall. intros a Ha. apply filter_In in Ha as [Ha Hlt].
      apply Z.ltb_lt in Hlt. rewrite Forall_forall in Hr.
      specialize (Hr a Ha). lia.
Qed.

End Classes.

Lemma getRole_range (p : Participant.t) : In (getRole p) roles_as_sorted.
Proof.
  unfold getRole, roles_as_sorted, roleOrder.
  repeat match goal with
         | |- context [if ?c then _ else _] => destruct c
         end; simpl; tauto.
Qed.

Lemma role_class (role : string) (i : nat) (p : PlayerView.t) :
  In (PlayerView.role p) roles_as_sorted ->
  nth_error roles_as_sorted i = Some role ->
  has_key roleIndex (-1 + Z.of_nat i) p = in_role role p.
Proof.
  unfold has_key, roleIndex, in_role. intros Hin Hnth.
  unfold roles_as_sorted, roleOrder in Hin. cbn [In] in Hin.
  do 6 (destruct i as [|i];
        [injection Hnth as <-;
         repeat (destruct Hin as [<-|Hin]; [reflexivity|]); contradiction|]).
  destruct i; discriminate.
Qed.

(** X7: each side of a summary is the players of that side (those whose
    [teamId] is the side's) grouped by role, the groups in the order
    unknown, top, jungle, mid, adc, support and the players of a group in
    the order of the upstream's participant list. *)
Theorem X7_teams_are_grouped_by_role (puuid : string) (side : Z)
    (info : Info.t) :
  let players :=
    filter (fun p => PlayerView.teamId p =? side)
           (map (playerView puuid) (Info.participants info)) in
  sortedTeam puuid side info
  = flat_map (fun role => filter (in_role role) players) roles_as_sorted.
Proof.
  intros players.
  destruct (sortedTeam_sorted_stable puuid side info)
    as (Hasc & Hstable & Hperm). cbv zeta in *. fold players in Hstable, Hperm.
  assert (Hroles : Forall (fun p => In (PlayerView.role p) roles_as_sorted)
                          players).
  { apply Forall_forall. intros p Hp. subst players.
    apply filter_In in Hp as [Hp _].
    apply in_map_iff in Hp as (part & <- & _). apply getRole_range. }
  rewrite (ascending_by_classes roleIndex 6 (-1) _ Hasc).
  - rewrite !flat_map_concat_map. f_equal.
    change (map (fun i => -1 + Z.of_nat i) (seq 0 6))
      with [-1 + Z.of_nat 0; -1 + Z.of_nat 1; -1 + Z.of_nat 2;
            -1 + Z.of_nat 3; -1 + Z.of_nat 4; -1 + Z.of_nat 5].
    unfold roles_as_sorted at 1, roleOrder. cbn [map].
    rewrite !Hstable.
    rewrite Forall_forall in Hroles.
    repeat match goal with
           | |- (_ :: _) = (_ :: _) => apply f_equal2
           | |- filter _ _ = filter _ _ =>
               apply filter_ext_in; intros p Hp;
               apply role_class; [now apply Hroles | reflexivity]
           | |- [] = [] => reflexivity
           end.
  - apply Forall_forall. intros p _.
    pose proof (indexOf_roleOrder_range (PlayerView.role p)).
    unfold roleIndex. simpl. lia.
Qed.

Lemma floor_agree (D g q N P2 : Z) :
  0 <= D -> 1 <= g -> 2 * g <= P2 ->
  let P := 2 * P2 in
  q * g <= D * P < q * g + g ->
  q - 1 <= N <= q + 2 ->
  (q * g = D * P -> Z.even q = true -> N = q) ->
  N / P = D / g.
Proof.
  intros HD Hg HP P Hq HN Hexact.
  symmetry. apply Z.div_unique with (r := N - P * (D / g)); [|lia].
  left.
  pose proof (Z.div_mod D g ltac:(lia)) as Hdm.
  pose proof (Z.mod_pos_bound D g ltac:(lia)) as Hr.
  set (n := D / g) in *. set (r := D mod g) in *.
  assert (Hn : 0 <= n) by (subst n; apply Z.div_pos; lia).
  split.
  - destruct (Z.eq_dec r 0) as [E0|Hne].
    + assert (Eq : q = n * P) by (subst P; nia).
      assert (Hev : Z.even q = true).
      { rewrite Eq. subst P. rewrite Z.even_mul, (Z.even_mul 2).
        simpl. apply orb_true_r. }
      rewrite (Hexact ltac:(subst P; nia) Hev). lia.
    + subst P. nia.
  - subst P. nia.
Qed.

Lemma floor_div_exact (D g : Z) :
  0 <= D < 2 ^ 51 -> 1 <= g < 2 ^ 53 ->
  JS.Math_floor (JS.div (JS.of_Z D) (JS.of_Z g)) = JS.of_Z (D / g).
Proof.
  intros Ht Hg.
  destruct g as [|pg|pg]; try lia.
  assert (Hdg : Zpos (digits2_pos pg) <= 53)
    by (apply digits2_pos_bound; lia).
  destruct (of_Z_normal pg ltac:(lia)) as (mg & Eg & Vg & Bg).
  rewrite Eg.
  destruct D as [|pD|pD]; try lia.
  - reflexivity.
  - assert (HdD : Zpos (digits2_pos pD) <= 51)
      by (apply digits2_pos_bound; lia).
    destruct (of_Z_normal pD ltac:(lia)) as (mD & ED & VD & BD).
    rewrite ED. unfold JS.div, SFdiv.
    pose proof (Pos2Z.is_pos (digits2_pos pD)) as HdD0.
    pose proof (Pos2Z.is_pos (digits2_pos pg)) as Hdg0.
    pose proof (digits2_pos_upper pg) as Hgu.
    set (dD := Zpos (digits2_pos pD)) in *.
    set (dg := Zpos (digits2_pos pg)) in *.
    rewrite SFdiv_core_normal by lia.
    cbn [xorb].
    set (K := 53 + dg - dD).
    replace (dD - 53 - (dg - 53) - 53) with (- K) by (subst K; lia).
    set (P2 := 2 ^ (K - 1)).
    assert (HP2 : 2 * Zpos pg <= P2).
    { subst P2. transitivity (2 * 2 ^ dg); [lia|].
      rewrite <- Z.pow_succ_r by lia.
      apply Z.pow_le_mono_r; subst K; lia. }
    assert (HP : 2 ^ K = 2 * P2).
    { subst P2. rewrite <- Z.pow_succ_r by (subst K; lia).
      f_equal. lia. }
    assert (Hb : 0 < 2 ^ (53 - dg)) by (apply Z.pow_pos_nonneg; lia).
    assert (Hnum : Zpos mD * 2 ^ 53 = Zpos pD * 2 ^ K * 2 ^ (53 - dg)).
    { rewrite VD, <- !Z.mul_assoc, <- !Z.pow_add_r by (subst K; lia).
      f_equal. f_equal. subst K. lia. }
    rewrite Hnum, Vg.
    rewrite Z.div_mul_cancel_r by lia.
    rewrite Z.mul_mod_distr_r by lia.
    set (q := Zpos pD * 2 ^ K / Zpos pg).
    set (r := (Zpos pD * 2 ^ K) mod Zpos pg).
    assert (Hqr : Zpos pD * 2 ^ K = Zpos pg * q + r /\ 0 <= r < Zpos pg).
    { split; [apply Z.div_mod; lia | apply Z.mod_pos_bound; lia]. }
    assert (Hq : 2 ^ 52 <= q < 2 ^ 54).
    { assert (Eq : q = Zpos mD * 2 ^ 53 / Zpos mg).
      { subst q. rewrite Hnum, Vg. now rewrite Z.div_mul_cancel_r by lia. }
      rewrite Eq. split.
      - apply Z.div_le_lower_bound; nia.
      - apply Z.div_lt_upper_bound; nia. }
    destruct q as [|q'|q'] eqn:Eq'; try lia.
    destruct (binary_round_aux_near q' (- K)
                (new_location (Zpos pg * 2 ^ (53 - dg)) (r * 2 ^ (53 - dg)))
                Hq ltac:(subst K; lia))
      as (M & E & Hround & HE & HN & Hexact).
    rewrite Hround. unfold JS.Math_floor, JS.floor_exact, JS.signed.
    cbn [cond_Zopp].
    replace (0 <=? E) with false by (symmetry; apply Z.leb_gt; subst K; lia).
    assert (Hsplit : 2 ^ K = 2 ^ (- E) * 2 ^ (E - - K)).
    { rewrite <- Z.pow_add_r by (subst K; lia). f_equal. lia. }
    assert (Ht2 : 0 < 2 ^ (E - - K)) by (apply Z.pow_pos_nonneg; lia).
    assert (Hs : 0 < 2 ^ (- E)) by (apply Z.pow_pos_nonneg; subst K; lia).
    assert (Efloor : Zpos M / 2 ^ (- E) = Zpos pD / Zpos pg).
    { rewrite <- (Z.div_mul_cancel_r _ _ (2 ^ (E - - K))) by lia.
      rewrite <- Hsplit, HP.
      apply (floor_agree (Zpos pD) (Zpos pg) (Zpos q')); try lia.
      rewrite <- HP. intros Hdiv Hev. apply Hexact; [|exact Hev].
      assert (Er : r = 0) by lia. rewrite Er, Z.mul_0_l.
      apply new_location_exact. }
    rewrite Efloor.
    destruct (Zpos pD / Zpos pg =? 0) eqn:E0; [|reflexivity].
    apply Z.eqb_eq in E0. now rewrite E0.
Qed.

Lemma of_Z_integer (n : Z) :
  0 < n < 2 ^ 53 ->
  exists m e,
    JS.of_Z n = S754_finite false m e
    /\ -52 <= e <= 0
    /\ Zpos m = n * 2 ^ (- e)
    /\ 2 ^ 52 <= Zpos m < 2 ^ 53.
Proof.
  intros Hn. destruct n as [|p|p]; try lia.
  assert (Hd : Zpos (digits2_pos p) <= 53) by (apply digits2_pos_safe; lia).
  destruct (of_Z_normal p Hd) as (m & E & V & B).
  pose proof (Pos2Z.is_pos (digits2_pos p)) as Hd0.
  exists m, (Zpos (digits2_pos p) - 53). repeat split; try lia.
  - exact E.
  - rewrite V. do 2 f_equal. lia.
Qed.

Lemma Number_toString_of_Z (n : Z) :
  0 <= n < 2 ^ 53 -> JS.Number_toString (JS.of_Z n) = JS.digits n.
Proof.
  intros Hn. destruct (Z.eq_dec n 0) as [->|Hne]; [reflexivity|].
  destruct (of_Z_integer n ltac:(lia)) as (m & e & E & He & V & B).
  rewrite E. unfold JS.Number_toString, JS.is_integer, JS.magnitude_geb,
    JS.floor_exact, JS.signed. cbn [cond_Zopp].
  assert (Hs : 0 < 2 ^ (- e)) by (apply Z.pow_pos_nonneg; lia).
  assert (Hbig : 2 ^ 53 < 10 ^ 21) by (vm_compute; reflexivity).
  destruct (0 <=? e) eqn:E0.
  - apply Z.leb_le in E0. assert (e = 0) by lia. subst e.
    rewrite Z.pow_0_r, Z.mul_1_r in *.
    replace (10 ^ 21 <=? Zpos m) with false by (symmetry; apply Z.leb_gt; lia).
    cbn [andb negb]. rewrite V. cbn [append]. now rewrite Z.abs_eq by lia.
  - rewrite V, Z.mod_mul by lia. cbn [Z.eqb andb].
    replace (10 ^ 21 * 2 ^ (- e) <=? n * 2 ^ (- e)) with false
      by (symmetry; apply Z.leb_gt; nia).
    cbn [negb]. rewrite Z.div_mul by lia. cbn [append].
    now rewrite Z.abs_eq by lia.
Qed.

Lemma gt0_of_Z (n : Z) :
  0 <= n < 2 ^ 53 -> JS.gt0 (JS.of_Z n) = (0 <? n).
Proof.
  intros Hn. destruct (Z.eq_dec n 0) as [->|Hne]; [reflexivity|].
  destruct (of_Z_integer n ltac:(lia)) as (m & e & E & _).
  rewrite E. symmetry. unfold JS.gt0, JS.zero. cbn. apply Z.ltb_lt. lia.
Qed.

Lemma eq_one_of_Z (n : Z) :
  0 <= n < 2 ^ 53 -> SFeqb (JS.of_Z n) (JS.of_Z 1) = (n =? 1).
Proof.
  intros Hn. destruct (Z.eq_dec n 0) as [->|Hne]; [reflexivity|].
  destruct (Z.eq_dec n 1) as [->|Hne1]; [reflexivity|].
  destruct (of_Z_integer n ltac:(lia)) as (m & e & E & He & V & B).
  rewrite E. replace (n =? 1) with false by (symmetry; apply Z.eqb_neq; lia).
  change (JS.of_Z 1) with (S754_finite false 4503599627370496 (-52)).
  unfold SFeqb, SFcompare.
  assert (Hs : 0 < 2 ^ (- e)) by (apply Z.pow_pos_nonneg; lia).
  destruct (Z.compare_spec e (-52)) as [Ee|Hlt|Hgt]; try reflexivity; try lia.
  subst e. exfalso. change (2 ^ (- -52)) with (2 ^ 52) in *. nia.
Qed.

Lemma two_digit_seconds (r : Z) :
  0 <= r < 60 -> String.length (JS.padStart 2 "0" (JS.digits r)) = 2%nat.
Proof.
  intros Hr.
  assert (Hall : forallb (fun i => Nat.eqb (String.length
                    (JS.padStart 2 "0" (JS.digits (Z.of_nat i)))) 2)
                   (seq 0 60) = true) by (vm_compute; reflexivity).
  rewrite forallb_forall in Hall.
  specialize (Hall (Z.to_nat r)). rewrite Z2Nat.id in Hall by lia.
  apply Nat.eqb_eq, Hall, in_seq. lia.
Qed.

(** X8: for a duration of [0 <= seconds < 2^51], [formatGameDuration]
    gives the whole minutes, not padded and not carried into hours, a
    colon, and the remaining seconds on exactly two digits: the
    binary64 division and [Math.floor] give the exact quotient. *)
Theorem X8_formatGameDuration (seconds : Z) :
  0 <= seconds < 2 ^ 51 ->
  formatGameDuration seconds
  = JS.digits (seconds / 60) ++ ":"
      ++ JS.padStart 2 "0" (JS.digits (seconds mod 60))
  /\ String.length (JS.padStart 2 "0" (JS.digits (seconds mod 60))) = 2%nat.
Proof.
  intros Hs. split.
  - unfold formatGameDuration.
    rewrite floor_div_exact by lia.
    rewrite Number_toString_of_Z.
    + now rewrite Z.rem_mod_nonneg by lia.
    + split; [apply Z.div_pos; lia|].
      apply Z.div_lt_upper_bound; lia.
  - apply two_digit_seconds. apply Z.mod_pos_bound. lia.
Qed.

Lemma ago_text (n : Z) (unit : string) :
  0 <= n < 2 ^ 53 ->
  JS.Number_toString (JS.of_Z n) ++ String " " unit ++ plural (JS.of_Z n) ++ " ago"
  = ago n unit.
Proof.
  intros Hn. unfold ago, plural.
  rewrite Number_toString_of_Z, eq_one_of_Z by lia. reflexivity.
Qed.

(** X9: for a timestamp [0 <= now - timestamp < 2^51] milliseconds in
    the past, [getTimeAgo] names the largest of day, hour and minute
    that has fully elapsed once, with the exact count of it, rounded
    down, and a plural "s" unless the count is 1; under one hour the unit
    is the minute, so under one minute the text is "0 minutes ago". *)
Theorem X9_getTimeAgo (now timestamp : Z) :
  0 <= now - timestamp < 2 ^ 51 ->
  let elapsed := now - timestamp in
  getTimeAgo now timestamp
  = if 86400000 <=? elapsed then ago (elapsed / 86400000) "day"
    else if 3600000 <=? elapsed then ago (elapsed / 3600000) "hour"
    else ago (elapsed / 60000) "minute".
Proof.
  intros Hd elapsed. unfold getTimeAgo. fold elapsed.
  change (1000 * 60 * 60 * 24) with 86400000.
  change (1000 * 60 * 60) with 3600000.
  change (1000 * 60) with 60000.
  rewrite !floor_div_exact by lia.
  assert (Hq : forall g, 0 < g -> 0 <= elapsed / g < 2 ^ 53).
  { intros g Hg. split; [apply Z.div_pos; lia|].
    apply Z.div_lt_upper_bound; nia. }
  rewrite !gt0_of_Z by (apply Hq; lia).
  replace (0 <? elapsed / 86400000) with (86400000 <=? elapsed).
  2:{ apply eq_true_iff_eq. rewrite Z.leb_le, Z.ltb_lt.
      pose proof (Z.div_mod elapsed 86400000 ltac:(lia)).
      pose proof (Z.mod_pos_bound elapsed 86400000 ltac:(lia)). lia. }
  replace (0 <? elapsed / 3600000) with (3600000 <=? elapsed).
  2:{ apply eq_true_iff_eq. rewrite Z.leb_le, Z.ltb_lt.
      pose proof (Z.div_mod elapsed 3600000 ltac:(lia)).
      pose proof (Z.mod_pos_bound elapsed 3600000 ltac:(lia)). lia. }
  destruct (86400000 <=? elapsed); [apply ago_text, Hq; lia|].
  destruct (3600000 <=? elapsed); apply ago_text, Hq; lia.
Qed.

(* -------------------------------------------------------------- *)
(** *** Further runs of the Match Detail Fetcher *)
(* -------------------------------------------------------------- *)

(** X10: when the match request is refused (any status outside
    200-299), the Match Detail Fetcher answers 404 "Match not found"
    after that one request; the timeline is not requested. *)
Theorem X10_details_match_not_found (env : Env) (req : DetailsRequest) :
  let matchId := field_value (dr_matchId req) in
  falsy (dr_matchId req) = false ->
  falsy (dr_puuid req) = false ->
  ok (upstream env _ (MatchById matchId) 0) = false ->
  run (LolMatchDetails.POST req) env
  = (Returned (NextResponse_json (ErrorBody "Match not found" None) 404),
     [Fetch (MatchById matchId)]).
Proof.
  intros matchId Hm Hp Hfail. subst matchId.
  unfold run, LolMatchDetails.POST. rewrite Hm, Hp. cbn [orb].
  unfold try_catch. rewrite bind_fetch, attempts_nil. cbv beta.
  rewrite Hfail. reflexivity.
Qed.

Lemma details_POST_run (env : Env) (req : DetailsRequest)
    (matchData : Match.t) :
  let matchId := field_value (dr_matchId req) in
  let puuid := field_value (dr_puuid req) in
  let info := Match.info matchData in
  let timelineRes := upstream env _ (TimelineById matchId) 0 in
  falsy (dr_matchId req) = false ->
  falsy (dr_puuid req) = false ->
  ok (upstream env _ (MatchById matchId) 0) = true ->
  json (upstream env _ (MatchById matchId) 0) = Some matchData ->
  (ok timelineRes = true -> json timelineRes <> None) ->
  run (LolMatchDetails.POST req) env
  = (Returned
       match find (fun p => String.eqb (Participant.puuid p) puuid)
                  (Info.participants info) with
       | None =>
           NextResponse_json (ErrorBody "Player not found in match" None) 404
       | Some currentPlayer =>
           NextResponse_json
             (Payload {| playerStats := playerStats_of info currentPlayer;
                         playerTimeline :=
                           playerTimeline_of (timeline_of timelineRes)
                                             currentPlayer;
                         teamObjectives := teamObjectives_of info;
                         matchInfo := matchInfo_of info |})
             200
       end,
     [Fetch (MatchById matchId); Fetch (TimelineById matchId)]).
Proof.
  intros matchId puuid info timelineRes Hm Hp Hok Hjson Htl.
  subst matchId puuid info timelineRes.
  unfold run, LolMatchDetails.POST. rewrite Hm, Hp. cbn [orb].
  unfold try_catch. rewrite bind_fetch, attempts_nil. cbv beta.
  rewrite Hok. cbn [negb app].
  rewrite (bind_json_of _ _ _ _ _ Hjson). cbv beta.
  rewrite bind_fetch. cbv beta.
  change (attempts (TimelineById (field_value (dr_matchId req))) _)
    with 0%nat.
  unfold timeline_of.
  destruct (ok (upstream env _ (TimelineById (field_value (dr_matchId req))) 0))
    eqn:Eok.
  - destruct (json (upstream env _
                      (TimelineById (field_value (dr_matchId req))) 0))
      as [timeline|] eqn:Ej; [|now specialize (Htl eq_refl)].
    unfold bind at 1. unfold bind at 1. unfold json_of. rewrite Ej.
    unfold ret at 1. unfold ret at 1. cbv beta iota zeta.
    destruct (find _ _); reflexivity.
  - rewrite bind_ret. cbv beta zeta. destruct (find _ _); reflexivity.
Qed.


Lemma involves_tag_event (playerId : Z) (frame : Frame.t)
    (event : TimelineEvent.t) :
  involves playerId (tag_event frame event) = involves playerId event.
Proof. reflexivity. Qed.

(** X12: when the match and its timeline are fetched and the match
    lists the player, the answer is 200 and [playerTimeline] holds, frame
    after frame and in the order of each frame, the events that name the
    player's [participantId] as participant, killer or victim or among
    the assistants, and no others; each carries the timestamp of its
    frame in place of its own, and a [realTimestamp]. *)
Theorem X12_details_timeline_events (env : Env) (req : DetailsRequest)
    (matchData : Match.t) (timeline : Timeline.t)
    (currentPlayer : Participant.t) :
  let matchId := field_value (dr_matchId req) in
  let puuid := field_value (dr_puuid req) in
  let info := Match.info matchData in
  let playerId := Participant.participantId currentPlayer in
  let events := playerTimeline_of (Some timeline) currentPlayer in
  falsy (dr_matchId req) = false ->
  falsy (dr_puuid req) = false ->
  ok (upstream env _ (MatchById matchId) 0) = true ->
  json (upstream env _ (MatchById matchId) 0) = Some matchData ->
  ok (upstream env _ (TimelineById matchId) 0) = true ->
  json (upstream env _ (TimelineById matchId) 0) = Some timeline ->
  find (fun p => String.eqb (Participant.puuid p) puuid)
       (Info.participants info) = Some currentPlayer ->
  run (LolMatchDetails.POST req) env
  = (Returned
       (NextResponse_json
          (Payload {| playerStats := playerStats_of info currentPlayer;
                      playerTimeline := events;
                      teamObjectives := teamObjectives_of info;
                      matchInfo := matchInfo_of info |})
          200),
     [Fetch (MatchById matchId); Fetch (TimelineById matchId)])
  /\ Forall (fun event => involves playerId event = true) events
  /\ (forall frame original,
        In frame (Timeline.frames timeline) ->
        In original (Frame.events frame) ->
        involves playerId original = true ->
        In (tag_event frame original) events)
  /\ (forall event, In event events ->
        exists frame,
          In frame (Timeline.frames timeline)
          /\ TimelineEvent.timestamp event = Some (Frame.timestamp frame)
          /\ TimelineEvent.realTimestamp event <> None)
  /\ List.length events
     = list_sum (map (fun frame =>
                        List.length (filter (involves playerId)
                                            (Frame.events frame)))
                     (Timeline.frames timeline)).
Proof.
  intros matchId puuid info playerId events Hm Hp Hok Hjson Hok' Hjson' Hfind.
  split; [|split; [|split; [|split]]].
  - subst matchId puuid info events.
    rewrite (details_POST_run env req matchData Hm Hp Hok Hjson)
      by (intros _; rewrite Hjson'; discriminate).
    rewrite Hfind. unfold timeline_of. now rewrite Hok', Hjson'.
  - apply Forall_forall. intros event Hin. subst events.
    unfold playerTimeline_of in Hin.
    apply in_flat_map in Hin as (frame & _ & Hin).
    apply in_map_iff in Hin as (original & <- & Hin).
    apply filter_In in Hin as [_ Hinv].
    now rewrite involves_tag_event.
  - intros frame original Hframe Horig Hinv. subst events.
    unfold playerTimeline_of. apply in_flat_map. exists frame.
    split; [exact Hframe|]. apply in_map. apply filter_In. now split.
  - intros event Hin. subst events. unfold playerTimeline_of in Hin.
    apply in_flat_map in Hin as (frame & Hframe & Hin).
    apply in_map_iff in Hin as (original & <- & _).
    exists frame. repeat split; [exact Hframe | discriminate].
  - subst events. unfold playerTimeline_of. fold playerId.
    induction (Timeline.frames timeline) as [|frame frames IH];
      [reflexivity|].
    cbn [flat_map map list_sum fold_right].
    rewrite length_app, length_map. f_equal. exact IH.
Qed.

(** X13: the creep score per minute has no guard against a match of
    duration 0, unlike the KDA ratio against 0 deaths: the division by
    [0 / 60] makes [csPerMinute] the text "Infinity" when the player
    killed any minion or monster, and "NaN" when none. *)
Theorem X13_csPerMinute_of_no_duration (totalMinionsKilled neutralMinionsKilled : Z) :
  0 <= totalMinionsKilled + neutralMinionsKilled < 2 ^ 53 ->
  csPerMinute totalMinionsKilled neutralMinionsKilled 0
  = if totalMinionsKilled + neutralMinionsKilled =? 0 then "NaN"
    else "Infinity".
Proof.
  intros Hcs. unfold csPerMinute.
  destruct (Z.eq_dec (totalMinionsKilled + neutralMinionsKilled) 0) as [->|Hne].
  - reflexivity.
  - destruct (of_Z_finite (totalMinionsKilled + neutralMinionsKilled)
                ltac:(lia)) as (m & e & E).
    rewrite E.
    replace (totalMinionsKilled + neutralMinionsKilled =? 0) with false
      by (symmetry; apply Z.eqb_neq; lia).
    reflexivity.
Qed.

(* -------------------------------------------------------------- *)
(** *** Further runs of the Stats Aggregator *)
(* -------------------------------------------------------------- *)

Lemma fetchWithRetry_at_once {A} (r : Request A) (env : Env) (tr : Trace) :
  status (upstream env A r (attempts r tr)) <> 429 ->
  fetchWithRetry r maxRetries_default env tr
  = (Returned (upstream env A r (attempts r tr)), tr ++ [Fetch r])%list.
Proof.
  intros H. unfold fetchWithRetry, maxRetries_default.
  rewrite (fetchWithRetry_from_run r env 3 0 1 tr); rewrite ?Nat.add_0_r;
    auto; lia.
Qed.

(** X14: in the Stats Aggregator, an account lookup that the retry
    wrapper returns as a failure ends the request: with 429 and "Rate
    limit exceeded. Please wait a moment and try again." when the
    returned answer is still rate-limited, which is after four requests,
    and with 404 "Account not found" otherwise; either way [details]
    carries the upstream's status and body text, and nothing else is
    requested. *)
Theorem X14_stats_account_failure (env : Env) (req : RiotIdRequest) (k : nat) :
  let lookup :=
    AccountByRiotId (field_value (req_gameName req))
                    (field_value (req_tagLine req)) in
  let accountRes := upstream env _ lookup k in
  falsy (req_gameName req) = false ->
  falsy (req_tagLine req) = false ->
  (k <= 3)%nat ->
  (forall i, (i < k)%nat -> status (upstream env _ lookup i) = 429) ->
  ((k < 3)%nat -> status accountRes <> 429) ->
  ok accountRes = false ->
  run (LolPlayerStats.POST req) env
  = (Returned
       (if status accountRes =? 429
        then NextResponse_json
               (ErrorBody
                  "Rate limit exceeded. Please wait a moment and try again."
                  (Some (status_details accountRes)))
               429
        else NextResponse_json
               (ErrorBody "Account not found"
                          (Some (status_details accountRes)))
               404),
     rate_limited_rounds lookup k 1 ++ [Fetch lookup])%list.
Proof.
  intros lookup accountRes Hg Ht Hk Hlim Hstop Hfail. subst lookup accountRes.
  unfold run, LolPlayerStats.POST. rewrite Hg, Ht. cbn [orb]. unfold try_catch.
  unfold fetchWithRetry, maxRetries_default.
  rewrite (bind_run _ _ _ _ _ _
             (fetchWithRetry_from_run _ env 3 k 1 [] Hk Hlim Hstop)).
  cbv beta. rewrite attempts_nil. cbn [Nat.add app].
  rewrite Hfail. cbn [negb].
  destruct (status _ =? 429); reflexivity.
Qed.




Lemma sum_of_app {A} (f : A -> Z) (l1 l2 : list A) :
  sum_of f (l1 ++ l2)%list = sum_of f l1 + sum_of f l2.
Proof.
  induction l1 as [|a l1 IH]; simpl; lia.
Qed.












(** Any failure of the summoner lookup, after the waits of the rounds
    before it, is answered 404. *)
Lemma stats_summoner_failure_run (env : Env) (req : RiotIdRequest)
    (account : Account.t) (k : nat) :
  let lookup :=
    AccountByRiotId (field_value (req_gameName req))
                    (field_value (req_tagLine req)) in
  let summoner := SummonerByPuuid (Account.puuid account) in
  falsy (req_gameName req) = false ->
  falsy (req_tagLine req) = false ->
  ok (upstream env _ lookup 0) = true ->
  json (upstream env _ lookup 0) = Some account ->
  (k <= 3)%nat ->
  (forall i, (i < k)%nat -> status (upstream env _ summoner i) = 429) ->
  ((k < 3)%nat -> status (upstream env _ summoner k) <> 429) ->
  ok (upstream env _ summoner k) = false ->
  run (LolPlayerStats.POST req) env
  = (Returned (NextResponse_json (ErrorBody "Summoner not found" None) 404),
     Fetch lookup :: rate_limited_rounds summoner k 1 ++ [Fetch summoner])%list.
Proof.
  intros lookup summoner Hg Ht Hok Hjson Hk Hlim Hstop Hfail.
  subst lookup summoner.
  unfold run, LolPlayerStats.POST. rewrite Hg, Ht. cbn [orb]. unfold try_catch.
  rewrite (bind_run _ _ _ _ _ _
             (fetchWithRetry_at_once _ env [] (ok_not_rate_limited _ Hok))).
  cbv beta. rewrite attempts_nil.
  rewrite Hok. cbn [negb app].
  rewrite (bind_json_of _ _ _ _ _ Hjson). cbv beta zeta.
  unfold fetchWithRetry, maxRetries_default.
  rewrite (bind_run _ _ _ _ _ _
             (fetchWithRetry_from_run
                (SummonerByPuuid (Account.puuid account)) env 3 k 1
                [Fetch (AccountByRiotId (field_value (req_gameName req))
                                        (field_value (req_tagLine req)))]
                Hk Hlim Hstop)).
  cbv beta.
  change (attempts (SummonerByPuuid (Account.puuid account)) _) with 0%nat.
  cbn [Nat.add]. rewrite Hfail. reflexivity.
Qed.

(* -------------------------------------------------------------- *)
(** *** The page: what the handlers leave in the state *)
(* -------------------------------------------------------------- *)

Lemma find_none_existsb {A} (f : A -> bool) (l : list A) :
  find f l = None <-> existsb f l = false.
Proof.
  induction l as [|a l IH]; simpl; [tauto|].
  destruct (f a); simpl; [split; discriminate | exact IH].
Qed.

Lemma existsb_perm {A} (f : A -> bool) (l1 l2 : list A) :
  Permutation l1 l2 -> existsb f l1 = existsb f l2.
Proof.
  induction 1 as [|a l1 l2 _ IH|a b l|l1 l2 l3 _ IH1 _ IH2]; simpl.
  - reflexivity.
  - now rewrite IH.
  - destruct (f a), (f b); reflexivity.
  - congruence.
Qed.

Lemma current_on_side (puuid : string) (side : Z) (match_ : Match.t) :
  match find PlayerView.isCurrentPlayer
             (sortedTeam puuid side (Match.info match_)) with
  | Some player =>
      PlayerView.puuid player = puuid /\ on_side puuid side match_ = true
  | None => on_side puuid side match_ = false
  end.
Proof.
  assert (Hside : existsb PlayerView.isCurrentPlayer
                    (sortedTeam puuid side (Match.info match_))
                  = on_side puuid side match_).
  { unfold sortedTeam.
    rewrite (existsb_perm _ _ _ (Array_sort_perm sortByRole _)).
    unfold on_side.
    induction (Info.participants (Match.info match_)) as [|p ps IH];
      [reflexivity|].
    simpl. destruct (Participant.teamId p =? side); simpl.
    - rewrite IH. now rewrite andb_true_r.
    - rewrite IH. now rewrite andb_false_r. }
  destruct (find _ _) as [player|] eqn:E.
  - split.
    + apply find_some in E as [Hin Hcur].
      unfold sortedTeam in Hin.
      apply (Permutation_in _ (Array_sort_perm sortByRole _)) in Hin.
      apply filter_In in Hin as [Hin _].
      apply in_map_iff in Hin as (p & <- & _).
      simpl in *. now apply String.eqb_eq.
    + rewrite <- Hside.
      destruct (existsb _ _) eqn:Ex; [reflexivity|].
      apply find_none_existsb in Ex. congruence.
  - rewrite <- Hside. now apply find_none_existsb.
Qed.

Lemma summary_teams (puuid : string) (now : Z) (match_ : Match.t)
    (summary : MatchSummary.t) :
  summarise puuid now match_ = Returned summary ->
  MatchSummary.blueTeam summary = sortedTeam puuid 100 (Match.info match_)
  /\ MatchSummary.redTeam summary = sortedTeam puuid 200 (Match.info match_)
  /\ MatchSummary.matchId summary = Match.matchId match_
  /\ exists participant,
       find (fun p => String.eqb (Participant.puuid p) puuid)
            (Info.participants (Match.info match_)) = Some participant
       /\ MatchSummary.champion summary = Participant.championName participant
       /\ MatchSummary.win summary = Participant.win participant.
Proof.
  unfold summarise. destruct (find _ _) as [participant|]; [|discriminate].
  intros E. injection E as <-. repeat split.
  exists participant. repeat split.
Qed.

Lemma current_puuid_of_summary (puuid : string) (now : Z) (match_ : Match.t)
    (summary : MatchSummary.t) :
  summarise puuid now match_ = Returned summary ->
  puuid <> "" ->
  Page.current_puuid summary
  = if on_a_side puuid match_ then Some puuid else None.
Proof.
  intros Hs Hne. destruct (summary_teams _ _ _ _ Hs) as (Hb & Hr & _).
  unfold Page.current_puuid, on_a_side. rewrite Hb, Hr.
  pose proof (current_on_side puuid 100 match_) as H100.
  pose proof (current_on_side puuid 200 match_) as H200.
  apply String.eqb_neq in Hne.
  destruct (find _ (sortedTeam puuid 100 _)) as [blue|].
  - destruct H100 as [E1 E2]. cbn [option_map falsy].
    now rewrite E1, E2, Hne.
  - rewrite H100. cbn [option_map falsy orb].
    destruct (find _ (sortedTeam puuid 200 _)) as [red|].
    + destruct H200 as [E1 E2]. cbn [option_map]. now rewrite E1, E2.
    + now rewrite H200.
Qed.

(** X17: a click on a summary of the History Aggregator whose
    requesting player is on neither the blue nor the red side (a
    [teamId] other than 100 and 200) sends nothing to the match-details
    route: the page shows "Could not identify player in match", with the
    summary selected, the details panel open and the details of the
    match shown before, if any, still in the state. *)
Theorem X17_click_needs_a_side (puuid : string) (now : Z) (match_ : Match.t)
    (summary : MatchSummary.t) (world : Env) (st : Page.State) :
  summarise puuid now match_ = Returned summary ->
  puuid <> "" ->
  on_a_side puuid match_ = false ->
  Page.handleMatchClick summary world st
  = ({| Page.loading := Page.loading st;
        Page.error := Some "Could not identify player in match";
        Page.matches := Page.matches st;
        Page.playerStats := Page.playerStats st;
        Page.selectedMatch := Some summary;
        Page.matchDetails := Page.matchDetails st;
        Page.showMatchDetails := true;
        Page.detailsLoading := false |},
     []).
Proof.
  intros Hs Hne Hside. unfold Page.handleMatchClick.
  rewrite (current_puuid_of_summary _ _ _ _ Hs Hne), Hside. reflexivity.
Qed.

(** X18: a click on a summary of the History Aggregator whose
    requesting player is on the blue or the red side sends the
    match-details route the identifier of that match and the puuid the
    history was requested for; when the upstream then answers with the
    same match, the page holds the details of the very participant
    whose result and champion the summary shows, so "Player not found in
    match" cannot be the answer, and the error cell is left as it
    was. *)
Theorem X18_click_shows_the_player (puuid : string) (now : Z)
    (match_ : Match.t) (summary : MatchSummary.t) (world : Env)
    (st : Page.State) :
  let matchId := Match.matchId match_ in
  let info := Match.info match_ in
  let timelineRes := upstream world _ (TimelineById matchId) 0 in
  summarise puuid now match_ = Returned summary ->
  puuid <> "" -> matchId <> "" ->
  on_a_side puuid match_ = true ->
  ok (upstream world _ (MatchById matchId) 0) = true ->
  json (upstream world _ (MatchById matchId) 0) = Some match_ ->
  (ok timelineRes = true -> json timelineRes <> None) ->
  exists participant,
    find (fun p => String.eqb (Participant.puuid p) puuid)
         (Info.participants info) = Some participant
    /\ MatchSummary.champion summary = Participant.championName participant
    /\ MatchSummary.win summary = Participant.win participant
    /\ Page.handleMatchClick summary world st
       = ({| Page.loading := Page.loading st;
             Page.error := Page.error st;
             Page.matches := Page.matches st;
             Page.playerStats := Page.playerStats st;
             Page.selectedMatch := Some summary;
             Page.matchDetails :=
               Some (Payload
                       {| playerStats := playerStats_of info participant;
                          playerTimeline :=
                            playerTimeline_of (timeline_of timelineRes)
                                              participant;
                          teamObjectives := teamObjectives_of info;
                          matchInfo := matchInfo_of info |});
             Page.showMatchDetails := true;
             Page.detailsLoading := false |},
          [Page.PostMatchDetails {| dr_matchId := Some matchId;
                                    dr_puuid := Some puuid |}]).
Proof.
  intros matchId info timelineRes Hs Hne Hid Hside Hok Hjson Htl.
  subst matchId info timelineRes.
  destruct (summary_teams _ _ _ _ Hs)
    as (_ & _ & Eid & participant & Hfind & Hchamp & Hwin).
  exists participant. repeat split; auto.
  unfold Page.handleMatchClick.
  rewrite (current_puuid_of_summary _ _ _ _ Hs Hne), Hside, Eid.
  apply String.eqb_neq in Hne, Hid.
  cbn [falsy]. rewrite Hne. cbv zeta.
  rewrite (details_POST_run world
             {| dr_matchId := Some (Match.matchId match_);
                dr_puuid := Some puuid |} match_);
    cbn [dr_matchId dr_puuid field_value falsy]; auto.
  rewrite Hfind. reflexivity.
Qed.


(** X20: when the history route answers 200 and the stats route finds
    the account but not the summoner (any failure of that lookup, a
    persistent rate limit included, which the route answers 404), the
    page shows the new matches and no error, and [playerStats] stays
    what it was before the search: the statistics of the player searched
    before, if any. *)
Theorem X20_submit_stats_failure_is_silent (gameName tagLine : string)
    (historyWorld statsWorld : Env) (st : Page.State)
    (found : list MatchSummary.t) (account : Account.t) (k : nat) :
  let request := {| req_gameName := Some gameName;
                    req_tagLine := Some tagLine |} in
  let lookup := AccountByRiotId gameName tagLine in
  let summoner := SummonerByPuuid (Account.puuid account) in
  gameName <> "" -> tagLine <> "" ->
  fst (run (LolHistory.POST request) historyWorld)
  = Returned (NextResponse_json (Payload found) 200) ->
  ok (upstream statsWorld _ lookup 0) = true ->
  json (upstream statsWorld _ lookup 0) = Some account ->
  (k <= 3)%nat ->
  (forall i, (i < k)%nat -> status (upstream statsWorld _ summoner i) = 429) ->
  ((k < 3)%nat -> status (upstream statsWorld _ summoner k) <> 429) ->
  ok (upstream statsWorld _ summoner k) = false ->
  Page.handleSubmit gameName tagLine historyWorld statsWorld st
  = ({| Page.loading := false;
        Page.error := None;
        Page.matches := Some found;
        Page.playerStats := Page.playerStats st;
        Page.selectedMatch := Page.selectedMatch st;
        Page.matchDetails := Page.matchDetails st;
        Page.showMatchDetails := Page.showMatchDetails st;
        Page.detailsLoading := Page.detailsLoading st |},
     [Page.PostHistory request; Page.PostPlayerStats request]).
Proof.
  intros request lookup summoner Hg Ht Hhistory Hok Hjson Hk Hlim Hstop Hfail.
  subst lookup summoner. apply String.eqb_neq in Hg, Ht.
  unfold Page.handleSubmit. fold request. rewrite Hhistory.
  rewrite (stats_summoner_failure_run statsWorld request account k);
    cbn [req_gameName req_tagLine request field_value falsy]; auto.
Qed.

End Properties.


(* ================================================================== *)
(** ** The theorems at sample worlds *)
(* ================================================================== *)

(** The runtime of the samples stands for the conversions left open. *)
#[local] Existing Instance Sample.runtime.

Lemma C1_fetchWithRetry_sends_a_fourth_request_witness :
  (forall i, (i < 3)%nat ->
     status (upstream Sample.always_rate_limited _
               (AccountByRiotId "pikachu" "001") i) = 429)
  /\ (run (fetchWithRetry (AccountByRiotId "pikachu" "001")
                          maxRetries_default) Sample.always_rate_limited
      = (Returned (upstream Sample.always_rate_limited _
                     (AccountByRiotId "pikachu" "001") 3),
         [ Fetch (AccountByRiotId "pikachu" "001"); Wait 2000;
           Fetch (AccountByRiotId "pikachu" "001"); Wait 4000;
           Fetch (AccountByRiotId "pikachu" "001"); Wait 6000;
           Fetch (AccountByRiotId "pikachu" "001") ])
      /\ fetch_count
           (snd (run (fetchWithRetry (AccountByRiotId "pikachu" "001")
                                     maxRetries_default)
                     Sample.always_rate_limited))
         = 4%nat).
Proof.
  split.
  - intros i _. reflexivity.
  - apply (C1_fetchWithRetry_sends_a_fourth_request
             (AccountByRiotId "pikachu" "001") Sample.always_rate_limited).
    intros i _. reflexivity.
Defined.

(** Against C3 as the specification words it: were a rate-limited
    account lookup of the History Aggregator to trigger the retry policy,
    it would be followed by the first wait of the policy and a second
    lookup.  On an upstream that rate-limits the first request only, the
    handler sends one request and answers 404. *)
Lemma C3_history_lookup_is_not_retried :
  ~ (forall (env : Env) (req : RiotIdRequest),
       let lookup :=
         AccountByRiotId (field_value (req_gameName req))
                         (field_value (req_tagLine req)) in
       falsy (req_gameName req) = false ->
       falsy (req_tagLine req) = false ->
       status (upstream env _ lookup 0) = 429 ->
       exists rest,
         snd (run (LolHistory.POST req) env)
         = Fetch lookup :: Wait 2000 :: Fetch lookup :: rest).
Proof.
  intros retried.
  destruct (retried Sample.rate_limited_once Sample.pikachu
                  eq_refl eq_refl eq_refl) as [rest E].
  vm_compute in E. discriminate E.
Qed.

Lemma C3_history_lookup_failure_is_not_found_witness :
  status (upstream Sample.rate_limited_once _
            (AccountByRiotId "pikachu" "001") 0) = 429
  /\ run (LolHistory.POST Sample.pikachu) Sample.rate_limited_once
     = (Returned (NextResponse_json (ErrorBody "Account not found" None) 404),
        [Fetch (AccountByRiotId "pikachu" "001")]).
Proof.
  split; [reflexivity|].
  apply (C3_history_lookup_failure_is_not_found
           Sample.rate_limited_once Sample.pikachu); reflexivity.
Defined.

Lemma C4_summoner_rate_limit_is_answered_not_found_witness :
  (forall i, (i < 4)%nat ->
     status (upstream Sample.world _ (SummonerByPuuid Sample.me) i) = 429)
  /\ run (LolPlayerStats.POST Sample.pikachu) Sample.world
     = (Returned (NextResponse_json (ErrorBody "Summoner not found" None) 404),
        [ Fetch (AccountByRiotId "pikachu" "001");
          Fetch (SummonerByPuuid Sample.me); Wait 2000;
          Fetch (SummonerByPuuid Sample.me); Wait 4000;
          Fetch (SummonerByPuuid Sample.me); Wait 6000;
          Fetch (SummonerByPuuid Sample.me) ]).
Proof.
  split; [intros i _; reflexivity|].
  apply (C4_summoner_rate_limit_is_answered_not_found
           Sample.world Sample.pikachu {| Account.puuid := Sample.me |});
    reflexivity.
Defined.

Lemma sample_answers_parse (third : Match.t) :
  parseable
    [ Sample.answer 200 (Some Sample.ahri_win);
      Sample.answer 500 None;
      Sample.answer 200 (Some third) ].
Proof.
  repeat constructor; simpl; discriminate.
Defined.

Lemma C5_match_without_player_fails_request_witness :
  has_player Sample.me Sample.strangers = false
  /\ fst (run (LolHistory.POST Sample.pikachu) Sample.world_with_strangers)
     = Returned
         (NextResponse_json
            (ErrorBody "Internal server error"
               (Some "TypeError: Cannot read properties of undefined (reading 'win')"))
            500).
Proof.
  split; [reflexivity|].
  apply (C5_match_without_player_fails_request
           Sample.world_with_strangers Sample.pikachu
           {| Account.puuid := Sample.me |} ["NA1_1"; "NA1_2"; "NA1_3"]
           (Sample.answer 200 (Some Sample.strangers)) Sample.strangers);
    try reflexivity.
  - apply sample_answers_parse.
  - simpl. tauto.
Defined.

Lemma C6_champion_aggregate_witness :
  (List.length [Sample.ahri_win; Sample.ahri_loss] <= 10)%nat
  /\ Forall (fun p => inherited (Participant.championName p) = false)
            (appearances Sample.me [Sample.ahri_win; Sample.ahri_loss])
  /\ StronglySorted
       (fun a b => exact_tenths (wins b) (losses b)
                   <= exact_tenths (wins a) (losses a))
       (winrateData_of Sample.me [Sample.ahri_win; Sample.ahri_loss])
  /\ winrateData_of Sample.me [Sample.ahri_win; Sample.ahri_loss]
     = [ {| champion := "Ahri"; wins := 1; losses := 1; winrate := "50.0";
            totalGames := 2; avgDamage := JS.of_Z 15000;
            avgGold := JS.of_Z 9000 |} ].
Proof.
  assert (Hlen : (List.length [Sample.ahri_win; Sample.ahri_loss] <= 10)%nat)
    by (simpl; lia).
  assert (Hnames :
            Forall (fun p => inherited (Participant.championName p) = false)
                   (appearances Sample.me
                      [Sample.ahri_win; Sample.ahri_loss]))
    by (repeat constructor).
  split; [exact Hlen|]. split; [exact Hnames|].
  destruct (C6_champion_aggregate Sample.me
              [Sample.ahri_win; Sample.ahri_loss] Hlen Hnames)
    as (_ & _ & _ & Hsorted & Hrows).
  split; [exact Hsorted | exact Hrows].
Defined.

Lemma C7_failed_details_are_dropped_witness :
  ok (upstream Sample.world _ (MatchById "NA1_2") 0) = false
  /\ exists matches,
       run (LolHistory.POST Sample.pikachu) Sample.world
       = (Returned (NextResponse_json (Payload matches) 200),
          [ Fetch (AccountByRiotId "pikachu" "001");
            Fetch (MatchIdsByPuuid Sample.me "start=0&count=20");
            Fetch (MatchById "NA1_1");
            Fetch (MatchById "NA1_2");
            Fetch (MatchById "NA1_3") ])
       /\ map MatchSummary.matchId matches = ["NA1_1"; "NA1_3"].
Proof.
  split; [reflexivity|].
  destruct (C7_failed_details_are_dropped Sample.world Sample.pikachu
              {| Account.puuid := Sample.me |} ["NA1_1"; "NA1_2"; "NA1_3"]
              eq_refl eq_refl eq_refl eq_refl eq_refl eq_refl
              (sample_answers_parse Sample.ahri_loss))
    as (matches & Hrun & _ & Hids & _).
  - intros match_ [<-|[<-|[]]]; reflexivity.
  - exists matches. split; [exact Hrun | exact Hids].
Defined.

Lemma C8_timeline_failure_gives_empty_timeline_witness :
  ok (upstream Sample.world _ (TimelineById "NA1_1") 0) = false
  /\ exists stats objectives info,
       run (LolMatchDetails.POST Sample.details_of_first_match) Sample.world
       = (Returned
            (NextResponse_json
               (Payload {| playerStats := stats;
                           playerTimeline := [];
                           teamObjectives := objectives;
                           matchInfo := info |})
               200),
          [Fetch (MatchById "NA1_1"); Fetch (TimelineById "NA1_1")])
       /\ ps_kda stats = "12.00"
       /\ ps_items stats = [3157; 3020; 3340]
       /\ List.length objectives = 2%nat.
Proof.
  split; [reflexivity|].
  eexists _, _, _. split.
  - apply (C8_timeline_failure_gives_empty_timeline
             Sample.world Sample.details_of_first_match Sample.ahri_win
             (Sample.player Sample.me "Pikachu" "Ahri" 2 100
                            "MIDDLE" "MIDDLE" "SOLO" true 20000 10000));
      reflexivity.
  - repeat split; vm_compute; reflexivity.
Defined.

Lemma C9_isRemake_iff_witness :
  exists summary,
    summarise Sample.me 7200000 Sample.ahri_loss = Returned summary
    /\ MatchSummary.win summary = false
    /\ (MatchSummary.isRemake summary = true <->
        Info.gameDuration (Match.info Sample.ahri_loss) < 180
        \/ Info.gameMode (Match.info Sample.ahri_loss) = "PRACTICETOOL"
        \/ Info.gameType (Match.info Sample.ahri_loss) = "CUSTOM_GAME"
        \/ Info.gameMode (Match.info Sample.ahri_loss) = "TUTORIAL").
Proof.
  eexists. split; [reflexivity|]. split; [reflexivity|].
  apply (C9_isRemake_iff Sample.me 7200000 Sample.ahri_loss). reflexivity.
Defined.

Lemma C10_kda_ratio_witness :
  kda 5 7 0 = JS.toFixed 2 (JS.div (JS.of_Z (5 + 7)) (JS.of_Z (Z.max 0 1)))
  /\ 1 <= Z.max 0 1
  /\ (exists m e, JS.of_Z (Z.max 0 1) = S754_finite false m e)
  /\ JS.is_nan (JS.div (JS.of_Z (5 + 7)) (JS.of_Z (Z.max 0 1))) = false
  /\ kda 5 7 0 = "12.00".
Proof.
  apply (C10_kda_ratio 5 7 0); lia.
Defined.

Lemma X6_history_match_ids_failure_witness :
  ok (upstream Scenario.no_match_list _
        (MatchIdsByPuuid Sample.me "start=0&count=20") 0) = false
  /\ run (LolHistory.POST Sample.pikachu) Scenario.no_match_list
     = (Returned
          (NextResponse_json (ErrorBody "Could not fetch match IDs" None)
                             500),
        [ Fetch (AccountByRiotId "pikachu" "001");
          Fetch (MatchIdsByPuuid Sample.me "start=0&count=20") ]).
Proof.
  split; [reflexivity|].
  apply (X6_history_match_ids_failure Scenario.no_match_list Sample.pikachu
           {| Account.puuid := Sample.me |}); reflexivity.
Defined.

Lemma X8_formatGameDuration_witness :
  0 <= 3725 < 2 ^ 51
  /\ formatGameDuration 3725 = "62:05"
  /\ String.length (JS.padStart 2 "0" (JS.digits (3725 mod 60))) = 2%nat.
Proof.
  assert (H : 0 <= 3725 < 2 ^ 51) by lia.
  split; [exact H|].
  destruct (X8_formatGameDuration 3725 H) as [E L].
  split; [rewrite E; reflexivity | exact L].
Defined.

Lemma X9_getTimeAgo_witness :
  0 <= 7200000 - 1000 < 2 ^ 51
  /\ getTimeAgo 7200000 1000 = "1 hour ago".
Proof.
  assert (H : 0 <= 7200000 - 1000 < 2 ^ 51) by lia.
  split; [exact H|].
  rewrite (X9_getTimeAgo 7200000 1000 H). reflexivity.
Defined.

Lemma X10_details_match_not_found_witness :
  ok (upstream Sample.world _ (MatchById "NA1_2") 0) = false
  /\ run (LolMatchDetails.POST Scenario.details_of_second_match) Sample.world
     = (Returned (NextResponse_json (ErrorBody "Match not found" None) 404),
        [Fetch (MatchById "NA1_2")]).
Proof.
  split; [reflexivity|].
  apply (X10_details_match_not_found Sample.world
           Scenario.details_of_second_match); reflexivity.
Defined.


Lemma X12_details_timeline_events_witness :
  let events :=
    playerTimeline_of (Some Scenario.timeline)
      (Sample.player Sample.me "Pikachu" "Ahri" 2 100
                     "MIDDLE" "MIDDLE" "SOLO" true 20000 10000) in
  ok (upstream Scenario.healthy _ (TimelineById "NA1_1") 0) = true
  /\ fst (run (LolMatchDetails.POST Sample.details_of_first_match)
              Scenario.healthy)
     = Returned
         (NextResponse_json
            (Payload
               {| playerStats :=
                    playerStats_of (Match.info Sample.ahri_win)
                      (Sample.player Sample.me "Pikachu" "Ahri" 2 100
                                     "MIDDLE" "MIDDLE" "SOLO" true
                                     20000 10000);
                  playerTimeline := events;
                  teamObjectives :=
                    teamObjectives_of (Match.info Sample.ahri_win);
                  matchInfo := matchInfo_of (Match.info Sample.ahri_win) |})
            200)
  /\ Forall (fun event => involves 2 event = true) events
  /\ map TimelineEvent.type events
     = ["ITEM_PURCHASED"; "CHAMPION_KILL"; "CHAMPION_KILL"]
  /\ map TimelineEvent.timestamp events
     = [Some 60000; Some 120000; Some 120000]
  /\ map TimelineEvent.realTimestamp events
     = [Some 60000; Some 1700000000000; Some 120000].
Proof.
  intros events. split; [reflexivity|].
  destruct (X12_details_timeline_events Scenario.healthy
              Sample.details_of_first_match Sample.ahri_win Scenario.timeline
              (Sample.player Sample.me "Pikachu" "Ahri" 2 100
                             "MIDDLE" "MIDDLE" "SOLO" true 20000 10000)
              eq_refl eq_refl eq_refl eq_refl eq_refl eq_refl eq_refl)
    as (Hrun & Hall & _).
  split; [now rewrite Hrun|]. split; [exact Hall|].
  repeat split; reflexivity.
Defined.

Lemma X13_csPerMinute_of_no_duration_witness :
  0 <= 200 + 20 < 2 ^ 53 /\ csPerMinute 200 20 0 = "Infinity".
Proof.
  assert (H : 0 <= 200 + 20 < 2 ^ 53) by lia.
  split; [exact H|].
  rewrite (X13_csPerMinute_of_no_duration 200 20 H). reflexivity.
Defined.

Lemma X14_stats_account_failure_witness :
  (forall i, (i < 3)%nat ->
     status (upstream Sample.always_rate_limited _
               (AccountByRiotId "pikachu" "001") i) = 429)
  /\ run (LolPlayerStats.POST Sample.pikachu) Sample.always_rate_limited
     = (Returned
          (NextResponse_json
             (ErrorBody
                "Rate limit exceeded. Please wait a moment and try again."
                (Some "Status: 429, Response: rate limit exceeded"))
             429),
        [ Fetch (AccountByRiotId "pikachu" "001"); Wait 2000;
          Fetch (AccountByRiotId "pikachu" "001"); Wait 4000;
          Fetch (AccountByRiotId "pikachu" "001"); Wait 6000;
          Fetch (AccountByRiotId "pikachu" "001") ]).
Proof.
  split; [intros i _; reflexivity|].
  apply (X14_stats_account_failure Sample.always_rate_limited Sample.pikachu
           3 eq_refl eq_refl (Nat.le_refl 3) (fun i _ => eq_refl)
           (fun H => False_ind _ (Nat.lt_irrefl 3 H)) eq_refl).
Defined.



Lemma X17_click_needs_a_side_witness :
  on_a_side Sample.me Scenario.arena = false
  /\ exists summary,
       summarise Sample.me 7200000 Scenario.arena = Returned summary
       /\ Page.handleMatchClick summary Sample.world Scenario.initial
          = ({| Page.loading := false;
                Page.error := Some "Could not identify player in match";
                Page.matches := Some [];
                Page.playerStats := None;
                Page.selectedMatch := Some summary;
                Page.matchDetails := None;
                Page.showMatchDetails := true;
                Page.detailsLoading := false |},
             []).
Proof.
  split; [reflexivity|].
  eexists. split; [reflexivity|].
  apply (X17_click_needs_a_side Sample.me 7200000 Scenario.arena _
           Sample.world Scenario.initial);
    [reflexivity | discriminate | reflexivity].
Defined.

Lemma X18_click_shows_the_player_witness :
  on_a_side Sample.me Sample.ahri_win = true
  /\ exists summary participant,
       summarise Sample.me 7200000 Sample.ahri_win = Returned summary
       /\ MatchSummary.champion summary
          = Participant.championName participant
       /\ snd (Page.handleMatchClick summary Sample.world Scenario.initial)
          = [Page.PostMatchDetails Sample.details_of_first_match]
       /\ Page.error
            (fst (Page.handleMatchClick summary Sample.world
                                        Scenario.initial)) = None
       /\ Page.matchDetails
            (fst (Page.handleMatchClick summary Sample.world
                                        Scenario.initial))
          = Some (Payload
                    {| playerStats :=
                         playerStats_of (Match.info Sample.ahri_win)
                                        participant;
                       playerTimeline := [];
                       teamObjectives :=
                         teamObjectives_of (Match.info Sample.ahri_win);
                       matchInfo :=
                         matchInfo_of (Match.info Sample.ahri_win) |}).
Proof.
  split; [reflexivity|].
  assert (Hsummary :
            exists summary,
              summarise Sample.me 7200000 Sample.ahri_win = Returned summary)
    by (eexists; reflexivity).
  destruct Hsummary as [summary Hsummary].
  destruct (X18_click_shows_the_player Sample.me 7200000 Sample.ahri_win
              summary Sample.world Scenario.initial Hsummary)
    as (participant & _ & Hchamp & _ & Hclick);
    try reflexivity; try discriminate.
  exists summary, participant. split; [exact Hsummary|].
  split; [exact Hchamp|].
  rewrite Hclick. repeat split.
Defined.

Lemma X20_submit_stats_failure_is_silent_witness :
  (forall i, (i < 3)%nat ->
     status (upstream Sample.world _ (SummonerByPuuid Sample.me) i) = 429)
  /\ Page.handleSubmit "pikachu" "001" Sample.world Sample.world
       Scenario.initial
     = ({| Page.loading := false;
           Page.error := None;
           Page.matches := Some Scenario.found;
           Page.playerStats := None;
           Page.selectedMatch := None;
           Page.matchDetails := None;
           Page.showMatchDetails := false;
           Page.detailsLoading := false |},
        [Page.PostHistory Sample.pikachu; Page.PostPlayerStats Sample.pikachu])
  /\ map MatchSummary.matchId Scenario.found = ["NA1_1"; "NA1_3"].
Proof.
  split; [intros i _; reflexivity|]. split; [|vm_compute; reflexivity].
  apply (X20_submit_stats_failure_is_silent "pikachu" "001"
           Sample.world Sample.world Scenario.initial Scenario.found
           {| Account.puuid := Sample.me |} 3);
    try reflexivity; try discriminate; lia.
Defined.
